(** * DesignWare DMA driver (src/drivers/dw-dma.c): channel pool, descriptor
      chains, start/stop/drain, drain poller and interrupt dispatch.

    The driver is embedded as functions over an explicit machine state (the
    private channel array and the memory-mapped register file).  Every
    operation returns its C result, the machine it leaves behind and the list
    of externally visible events it performed, in program order. *)

From Stdlib Require Import ZArith List Lia Bool Sorted.
From stdpp Require Import base list gmap.
Import ListNotations.

Local Open Scope Z_scope.

(** ** Machine integers *)

(** [uint8_t] and [uint32_t] values are kept as [Z]; a store into such an
    object reduces the value modulo the width. *)
Definition u8 (x : Z) : Z := x mod 2 ^ 8.
Definition u32 (x : Z) : Z := x mod 2 ^ 32.

(** Largest value of the C type [int] on the 32-bit target. *)
Definition INT_MAX : Z := 2 ^ 31 - 1.

(** [errno.h] *)
Definition ENODEV : Z := 19.

(** ** Register map (the #defines at the top of dw-dma.c) *)

Definition DW_MAX_CHAN : nat := 8.
Definition DW_CH_SIZE : Z := 0x58.
Definition BYT_CHAN_OFFSET (chan : Z) : Z := DW_CH_SIZE * chan.

Definition DW_SAR (chan : Z) : Z := 0x0000 + BYT_CHAN_OFFSET chan.
Definition DW_DAR (chan : Z) : Z := 0x0008 + BYT_CHAN_OFFSET chan.
Definition DW_LLP (chan : Z) : Z := 0x0010 + BYT_CHAN_OFFSET chan.
Definition DW_CTRL_LOW (chan : Z) : Z := 0x0018 + BYT_CHAN_OFFSET chan.
Definition DW_CTRL_HIGH (chan : Z) : Z := 0x001C + BYT_CHAN_OFFSET chan.
Definition DW_CFG_LOW (chan : Z) : Z := 0x0040 + BYT_CHAN_OFFSET chan.
Definition DW_CFG_HIGH (chan : Z) : Z := 0x0044 + BYT_CHAN_OFFSET chan.

Definition DW_STATUS_BLOCK : Z := 0x02F0.
Definition DW_MASK_TFR : Z := 0x0310.
Definition DW_MASK_BLOCK : Z := 0x0318.
Definition DW_MASK_SRC_TRAN : Z := 0x0320.
Definition DW_MASK_DST_TRAN : Z := 0x0328.
Definition DW_MASK_ERR : Z := 0x0330.
Definition DW_CLEAR_TFR : Z := 0x0338.
Definition DW_CLEAR_BLOCK : Z := 0x0340.
Definition DW_CLEAR_SRC_TRAN : Z := 0x0348.
Definition DW_CLEAR_DST_TRAN : Z := 0x0350.
Definition DW_CLEAR_ERR : Z := 0x0358.
Definition DW_DMA_CFG : Z := 0x0398.
Definition DW_DMA_CHAN_EN : Z := 0x03A0.

Definition INT_MASK (chan : Z) : Z := Z.shiftl 0x100 chan.
Definition INT_UNMASK (chan : Z) : Z := Z.shiftl 0x101 chan.
Definition CHAN_ENABLE (chan : Z) : Z := Z.shiftl 0x101 chan.
Definition CHAN_DISABLE (chan : Z) : Z := Z.shiftl 0x100 chan.

Definition DW_CFG_CH_SUSPEND : Z := 0x100.
Definition DW_CFG_CH_DRAIN : Z := 0x400.
Definition DW_CFG_CH_FIFO_EMPTY : Z := 0x200.

(** ** Data model *)

(** [struct dw_lli1]: one hardware descriptor.  The driver touches these five
    32-bit fields. *)
Record dw_lli1 := mk_lli {
  sar : Z;
  dar : Z;
  llp : Z;
  ctrl_lo : Z;
  ctrl_hi : Z
}.

(** A block returned by [rmalloc] and used as an array of descriptors: its
    address and its current contents.  No block is shared between channels
    or freed anywhere in the driver, so the pointee is kept next to the
    pointer. *)
Record lli_block := mk_block {
  lli_base : Z;
  lli_cells : list dw_lli1
}.

(** [struct dma_chan_data].  [lli] is [None] for the null pointer; [cb] is
    the address of the client function, [0] for [NULL]. *)
Record dma_chan_data := mk_chan {
  status : Z;
  lli : option lli_block;
  desc_count : Z;
  cfg_lo : Z;
  cfg_hi : Z;
  cb : Z;
  cb_data : Z
}.

Definition set_status (v : Z) (c : dma_chan_data) : dma_chan_data :=
  mk_chan v (lli c) (desc_count c) (cfg_lo c) (cfg_hi c) (cb c) (cb_data c).
Definition set_lli (v : option lli_block) (c : dma_chan_data) : dma_chan_data :=
  mk_chan (status c) v (desc_count c) (cfg_lo c) (cfg_hi c) (cb c) (cb_data c).
Definition set_desc_count (v : Z) (c : dma_chan_data) : dma_chan_data :=
  mk_chan (status c) (lli c) v (cfg_lo c) (cfg_hi c) (cb c) (cb_data c).
Definition set_cfg_lo (v : Z) (c : dma_chan_data) : dma_chan_data :=
  mk_chan (status c) (lli c) (desc_count c) v (cfg_hi c) (cb c) (cb_data c).
Definition set_cfg_hi (v : Z) (c : dma_chan_data) : dma_chan_data :=
  mk_chan (status c) (lli c) (desc_count c) (cfg_lo c) v (cb c) (cb_data c).
Definition set_cb (v : Z) (c : dma_chan_data) : dma_chan_data :=
  mk_chan (status c) (lli c) (desc_count c) (cfg_lo c) (cfg_hi c) v (cb_data c).
Definition set_cb_data (v : Z) (c : dma_chan_data) : dma_chan_data :=
  mk_chan (status c) (lli c) (desc_count c) (cfg_lo c) (cfg_hi c) (cb c) v.

(** The machine: [struct dma_pdata]'s channel array ([chan], which in C has
    exactly [DW_MAX_CHAN] entries) and the memory-mapped registers, by
    address. *)
Record machine := mk_machine {
  chan : list dma_chan_data;
  regs : gmap Z Z
}.

(** Externally visible actions, in the order the driver performs them. *)
Inductive event :=
| IoRead (reg val : Z)
| IoWrite (reg val : Z)
| TracePoint (v : Z)
| IrqDisable (irq : Z)
| IrqClear (irq : Z)
| IrqEnable (irq : Z)
| WorkSchedule (delay : Z)
| Rmalloc (bytes : Z)
| ClientCb (i : nat) (fn data : Z).

(** ** Results and sequencing *)

(** Ways in which the C code leaves defined behaviour. *)
Inductive ub := NullDeref | OutOfBounds | IntOverflow.

Inductive res (A : Type) :=
| Ret (a : A)
| Undef (u : ub).
Arguments Ret {A} a.
Arguments Undef {A} u.

(** A computation over a state [S] (the whole machine, or one channel slot):
    result, state afterwards (for [Undef], the state at the offending
    access) and the events performed. *)
Definition M (S A : Type) : Type := S -> res A * S * list event.

Definition ret {S A} (a : A) : M S A := fun s => (Ret a, s, []).
Definition undef {S A} (u : ub) : M S A := fun s => (Undef u, s, []).
Definition emit {S} (e : event) : M S unit := fun s => (Ret tt, s, [e]).
Definition get {S} : M S S := fun s => (Ret s, s, []).
Definition modify {S} (f : S -> S) : M S unit := fun s => (Ret tt, f s, []).

Definition bind {S A B} (x : M S A) (f : A -> M S B) : M S B :=
  fun s =>
    match x s with
    | (Ret a, s1, t1) =>
        match f a s1 with
        | (r, s2, t2) => (r, s2, t1 ++ t2)
        end
    | (Undef u, s1, t1) => (Undef u, s1, t1)
    end.

Notation "x <- c ;; k" := (bind c (fun x => k))
  (at level 100, c at next level, right associativity).
Notation "c ;; k" := (bind c (fun _ => k))
  (at level 100, right associativity).

(** [p->chan[i]] read, and a store to one of its fields. *)
Definition get_chan (i : nat) : M machine dma_chan_data :=
  fun m =>
    match chan m !! i with
    | Some c => (Ret c, m, [])
    | None => (Undef OutOfBounds, m, [])
    end.

Definition upd_chan (i : nat) (f : dma_chan_data -> dma_chan_data) :
  M machine unit :=
  fun m =>
    match chan m !! i with
    | Some c => (Ret tt, mk_machine (<[i := f c]> (chan m)) (regs m), [])
    | None => (Undef OutOfBounds, m, [])
    end.

(** Modelled from the spec: the register protocol layer (reef/io.h is not
    among the sources): read, write and update-bits over the register map.
    A write stores the 32-bit value; update-bits is a read followed by a
    write of the old value with the masked bits replaced. *)
Definition io_reg_read (reg : Z) : M machine Z :=
  fun m => let v := regs m !!! reg in (Ret v, m, [IoRead reg v]).

Definition io_reg_write (reg val : Z) : M machine unit :=
  fun m =>
    (Ret tt, mk_machine (chan m) (<[reg := u32 val]> (regs m)),
     [IoWrite reg (u32 val)]).

Definition io_reg_update_bits (reg mask value : Z) : M machine unit :=
  v <- io_reg_read reg ;;
  io_reg_write reg (Z.lor (Z.land v (Z.lnot mask)) (Z.land value mask)).

(** A computation on the slot [p->chan[channel]], run on the machine. *)
Definition on_chan {A} (channel : nat) (f : M dma_chan_data A) : M machine A :=
  fun m =>
    match chan m !! channel with
    | Some c =>
        match f c with
        | (r, c', t) => (r, mk_machine (<[channel := c']> (chan m)) (regs m), t)
        end
    | None => (Undef OutOfBounds, m, [])
    end.

(** A store to a field of the descriptor [lli[k]] of a channel slot. *)
Definition upd_desc (k : nat) (f : dw_lli1 -> dw_lli1) : M dma_chan_data unit :=
  fun c =>
    match lli c with
    | None => (Undef NullDeref, c, [])
    | Some b =>
        match lli_cells b !! k with
        | Some d =>
            (Ret tt,
             set_lli (Some (mk_block (lli_base b) (<[k := f d]> (lli_cells b)))) c,
             [])
        | None => (Undef OutOfBounds, c, [])
        end
    end.

Definition set_sar (v : Z) (d : dw_lli1) : dw_lli1 :=
  mk_lli v (dar d) (llp d) (ctrl_lo d) (ctrl_hi d).
Definition set_dar (v : Z) (d : dw_lli1) : dw_lli1 :=
  mk_lli (sar d) v (llp d) (ctrl_lo d) (ctrl_hi d).
Definition set_llp (v : Z) (d : dw_lli1) : dw_lli1 :=
  mk_lli (sar d) (dar d) v (ctrl_lo d) (ctrl_hi d).
Definition set_ctrl_lo (v : Z) (d : dw_lli1) : dw_lli1 :=
  mk_lli (sar d) (dar d) (llp d) v (ctrl_hi d).
Definition set_ctrl_hi (v : Z) (d : dw_lli1) : dw_lli1 :=
  mk_lli (sar d) (dar d) (llp d) (ctrl_lo d) v.

(** [x |= bits] and [x &= ~bits] on a [uint32_t] field. *)
Definition or_bits (bits x : Z) : Z := u32 (Z.lor x bits).
Definition clear_bits (bits x : Z) : Z := u32 (Z.land x (Z.lnot bits)).

Definition ctrl_lo_or (bits : Z) (d : dw_lli1) : dw_lli1 :=
  set_ctrl_lo (or_bits bits (ctrl_lo d)) d.
Definition ctrl_lo_clear (bits : Z) (d : dw_lli1) : dw_lli1 :=
  set_ctrl_lo (clear_bits bits (ctrl_lo d)) d.
Definition ctrl_hi_clear (bits : Z) (d : dw_lli1) : dw_lli1 :=
  set_ctrl_hi (clear_bits bits (ctrl_hi d)) d.
Definition cfg_hi_or (bits : Z) (c : dma_chan_data) : dma_chan_data :=
  set_cfg_hi (or_bits bits (cfg_hi c)) c.
Definition cfg_lo_clear (bits : Z) (c : dma_chan_data) : dma_chan_data :=
  set_cfg_lo (clear_bits bits (cfg_lo c)) c.

(** [struct dma_sg_elem] and [struct dma_sg_config] (reef/dma.h), with the
    fields the driver reads; [elem_list] is the linked list of segments in
    list order. *)
Record dma_sg_elem := mk_elem {
  src : Z;
  dest : Z
}.

Record dma_sg_config := mk_config {
  direction : Z;
  src_width : Z;
  dest_width : Z;
  elem_list : list dma_sg_elem
}.

(** ** Constants and types declared outside dw-dma.c *)

(** The values of the macros of reef/dma.h and reef/dw-dma.h, the size of
    [struct dw_lli1], and the device's base address and interrupt number
    ([dma_base(dma)], [dma_irq(dma)]) are parameters of the model. *)
Record dw_platform := mk_platform {
  DMA_STATUS_FREE : Z;
  DMA_STATUS_IDLE : Z;
  DMA_STATUS_RUNNING : Z;
  DMA_STATUS_DRAINING : Z;
  DMA_DIR_MEM_TO_MEM : Z;
  DMA_DIR_MEM_TO_DEV : Z;
  DMA_DIR_DEV_TO_MEM : Z;
  DMA_DIR_DEV_TO_DEV : Z;
  DWC_CTLL_FC : Z -> Z;
  DWC_CTLL_SRC_WIDTH : Z -> Z;
  DWC_CTLL_DST_WIDTH : Z -> Z;
  DWC_CTLL_SRC_MSIZE : Z -> Z;
  DWC_CTLL_DST_MSIZE : Z -> Z;
  DWC_CTLL_SRC_INC : Z;
  DWC_CTLL_DST_INC : Z;
  DWC_CTLL_SRC_FIX : Z;
  DWC_CTLL_DST_FIX : Z;
  DWC_CTLL_LLP_S_EN : Z;
  DWC_CTLL_LLP_D_EN : Z;
  DWC_CTLH_DONE : Z;
  DWC_CFGH_SRC_PER : Z -> Z;
  DWC_CFGH_DST_PER : Z -> Z;
  DWC_CFGL_RELOAD_SAR : Z;
  DWC_CFGL_RELOAD_DAR : Z;
  lli_size : Z;
  dma_base : Z;
  dma_irq : Z
}.

Section Driver.

Variable P : dw_platform.

(** [dma_base(dma) + OFFSET], a [uint32_t] sum. *)
Definition reg_addr (off : Z) : Z := u32 (dma_base P + off).

(** ** Channel pool *)

(** The loop of [dw_dma_channel_get]: [n] iterations remain, the next index
    is [i]. *)
Fixpoint channel_get_scan (n i : nat) : M machine Z :=
  match n with
  | O => ret (- ENODEV)
  | S n' =>
      c <- get_chan i ;;
      if status c =? DMA_STATUS_DRAINING P then channel_get_scan n' (S i)
      else if status c =? DMA_STATUS_FREE P then
        upd_chan i (set_status (u8 (DMA_STATUS_IDLE P))) ;;
        io_reg_write (reg_addr DW_CLEAR_TFR) (Z.shiftl 0x1 (Z.of_nat i)) ;;
        io_reg_write (reg_addr DW_CLEAR_BLOCK) (Z.shiftl 0x1 (Z.of_nat i)) ;;
        io_reg_write (reg_addr DW_CLEAR_SRC_TRAN) (Z.shiftl 0x1 (Z.of_nat i)) ;;
        io_reg_write (reg_addr DW_CLEAR_DST_TRAN) (Z.shiftl 0x1 (Z.of_nat i)) ;;
        io_reg_write (reg_addr DW_CLEAR_ERR) (Z.shiftl 0x1 (Z.of_nat i)) ;;
        ret (Z.of_nat i)
      else channel_get_scan n' (S i)
  end.

Definition dw_dma_channel_get : M machine Z := channel_get_scan DW_MAX_CHAN 0.

Definition dw_dma_channel_put (channel : nat) : M machine unit :=
  upd_chan channel (set_status (u8 (DMA_STATUS_FREE P))) ;;
  upd_chan channel (set_cb 0).

(** ** Channel control *)

(** [p->chan[channel].lli->field]: the head descriptor of the channel's
    chain. *)
Definition lli_head (channel : nat) : M machine dw_lli1 :=
  c <- get_chan channel ;;
  match lli c with
  | None => undef NullDeref
  | Some b =>
      match lli_cells b !! 0%nat with
      | Some d => ret d
      | None => undef OutOfBounds
      end
  end.

Definition dw_dma_start (channel : nat) : M machine Z :=
  let ch := Z.of_nat channel in
  d <- lli_head channel ;;
  io_reg_write (reg_addr (DW_SAR ch)) (sar d) ;;
  d <- lli_head channel ;;
  io_reg_write (reg_addr (DW_DAR ch)) (dar d) ;;
  d <- lli_head channel ;;
  io_reg_write (reg_addr (DW_LLP ch)) (llp d) ;;
  d <- lli_head channel ;;
  io_reg_write (reg_addr (DW_CTRL_LOW ch)) (ctrl_lo d) ;;
  d <- lli_head channel ;;
  io_reg_write (reg_addr (DW_CTRL_HIGH ch)) (ctrl_hi d) ;;
  c <- get_chan channel ;;
  io_reg_write (reg_addr (DW_CFG_LOW ch)) (cfg_lo c) ;;
  c <- get_chan channel ;;
  io_reg_write (reg_addr (DW_CFG_HIGH ch)) (cfg_hi c) ;;
  upd_chan channel (set_status (u8 (DMA_STATUS_RUNNING P))) ;;
  io_reg_write (reg_addr DW_MASK_TFR) (INT_UNMASK ch) ;;
  io_reg_write (reg_addr DW_MASK_BLOCK) (INT_UNMASK ch) ;;
  io_reg_write (reg_addr DW_MASK_SRC_TRAN) (INT_UNMASK ch) ;;
  io_reg_write (reg_addr DW_MASK_DST_TRAN) (INT_UNMASK ch) ;;
  io_reg_write (reg_addr DW_MASK_ERR) (INT_UNMASK ch) ;;
  io_reg_write (reg_addr DW_DMA_CHAN_EN) (CHAN_ENABLE ch) ;;
  ret 0.

(** The loop of [dw_dma_fifo_work]; the local [schedule] is threaded
    through the iterations. *)
Fixpoint fifo_work_scan (n i : nat) (schedule : Z) : M machine Z :=
  match n with
  | O => ret schedule
  | S n' =>
      c <- get_chan i ;;
      if Z.land (status c) (DMA_STATUS_DRAINING P) =? 0 then
        fifo_work_scan n' (S i) schedule
      else
        cfg <- io_reg_read (reg_addr (DW_CFG_LOW (Z.of_nat i))) ;;
        if negb (Z.land cfg DW_CFG_CH_FIFO_EMPTY =? 0) then
          io_reg_update_bits (reg_addr DW_DMA_CHAN_EN)
            (CHAN_DISABLE (Z.of_nat i)) (CHAN_DISABLE (Z.of_nat i)) ;;
          upd_chan i (fun c =>
            set_status (u8 (Z.land (status c) (Z.lnot (DMA_STATUS_DRAINING P)))) c) ;;
          fifo_work_scan n' (S i) schedule
        else
          fifo_work_scan n' (S i) 1
  end.

(** [dw_dma_fifo_work].  The local [schedule] is declared without an
    initialiser and is assigned only in the loop's else branch; [schedule0]
    is the content of its storage on entry. *)
Definition dw_dma_fifo_work (schedule0 : Z) : M machine Z :=
  schedule <- fifo_work_scan DW_MAX_CHAN 0 schedule0 ;;
  if negb (schedule =? 0) then ret 1 else ret 0.

Definition dw_dma_stop (channel : nat) : M machine Z :=
  io_reg_update_bits (reg_addr (DW_CFG_LOW (Z.of_nat channel)))
    DW_CFG_CH_SUSPEND DW_CFG_CH_SUSPEND ;;
  upd_chan channel (set_status (u8 (DMA_STATUS_DRAINING P))) ;;
  emit (WorkSchedule 1) ;;
  ret 0.

Definition dw_dma_drain (channel : nat) : M machine Z :=
  io_reg_update_bits (reg_addr (DW_CFG_LOW (Z.of_nat channel)))
    (Z.lor DW_CFG_CH_SUSPEND DW_CFG_CH_DRAIN)
    (Z.lor DW_CFG_CH_SUSPEND DW_CFG_CH_DRAIN) ;;
  upd_chan channel (set_status (u8 (DMA_STATUS_DRAINING P))) ;;
  emit (WorkSchedule 1) ;;
  ret 0.

(** ** Descriptor chain builder *)

(** First loop of [dw_dma_set_config]: one [desc_count++] per list element.
    [desc_count] is an [int]; incrementing [INT_MAX] is undefined. *)
Fixpoint count_elems (elems : list dma_sg_elem) : M dma_chan_data unit :=
  match elems with
  | [] => ret tt
  | _ :: rest =>
      c <- get ;;
      (if INT_MAX <=? desc_count c then undef IntOverflow
       else modify (set_desc_count (desc_count c + 1))) ;;
      count_elems rest
  end.

(** [(uint32_t)(lli + k)] for a block at address [base]. *)
Definition desc_addr (base : Z) (k : nat) : Z :=
  u32 (base + Z.of_nat k * lli_size P).

(** Second loop of [dw_dma_set_config]: [lli_desc] is [lli + k]; [rest]
    non-empty is the test [nlist != &config->elem_list]. *)
Fixpoint fill_lli (k : nat) (elems : list dma_sg_elem) : M dma_chan_data unit :=
  match elems with
  | [] => ret tt
  | e :: rest =>
      upd_desc k (set_sar (u32 (src e))) ;;
      upd_desc k (set_dar (u32 (dest e))) ;;
      (match rest with
       | _ :: _ =>
           c <- get ;;
           match lli c with
           | None => undef NullDeref
           | Some b =>
               upd_desc k (set_llp (desc_addr (lli_base b) (S k))) ;;
               upd_desc k
                 (ctrl_lo_or (Z.lor (DWC_CTLL_LLP_S_EN P) (DWC_CTLL_LLP_D_EN P)))
           end
       | [] =>
           upd_desc k (set_llp 0) ;;
           upd_desc k
             (ctrl_lo_clear (Z.lor (DWC_CTLL_LLP_S_EN P) (DWC_CTLL_LLP_D_EN P))) ;;
           modify
             (cfg_lo_clear (Z.lor (DWC_CFGL_RELOAD_SAR P) (DWC_CFGL_RELOAD_DAR P)))
       end) ;;
      fill_lli (S k) rest
  end.

(** The [switch (config->direction)]; the case labels are distinct
    constants, tested here in the order they are written. *)
Definition config_direction (dir : Z) : M dma_chan_data unit :=
  if dir =? DMA_DIR_MEM_TO_MEM P then
    upd_desc 0 (ctrl_lo_or (Z.lor (DWC_CTLL_SRC_INC P) (DWC_CTLL_DST_INC P)))
  else if dir =? DMA_DIR_MEM_TO_DEV P then
    upd_desc 0 (ctrl_lo_or (Z.lor (DWC_CTLL_SRC_INC P) (DWC_CTLL_DST_FIX P))) ;;
    modify (cfg_hi_or (DWC_CFGH_DST_PER P 0))
  else if dir =? DMA_DIR_DEV_TO_MEM P then
    upd_desc 0 (ctrl_lo_or (Z.lor (DWC_CTLL_SRC_FIX P) (DWC_CTLL_DST_INC P))) ;;
    modify (cfg_hi_or (DWC_CFGH_SRC_PER P 0))
  else if dir =? DMA_DIR_DEV_TO_DEV P then
    upd_desc 0 (ctrl_lo_or (Z.lor (DWC_CTLL_SRC_FIX P) (DWC_CTLL_DST_FIX P))) ;;
    modify (cfg_hi_or (Z.lor (DWC_CFGH_SRC_PER P 0) (DWC_CFGH_DST_PER P 0)))
  else ret tt.

(** Body of [dw_dma_set_config] on the slot [p->chan[channel]].  [rmalloc]
    is the allocator's answer to a request of the given number of bytes:
    [None] for a null result, otherwise the block with the contents its
    memory happens to hold. *)
Definition set_config_chan (rmalloc : Z -> option lli_block)
    (config : dma_sg_config) : M dma_chan_data Z :=
  count_elems (elem_list config) ;;
  c <- get ;;
  emit (Rmalloc (u32 (lli_size P * desc_count c))) ;;
  modify (set_lli (rmalloc (u32 (lli_size P * desc_count c)))) ;;
  upd_desc 0 (ctrl_lo_or (DWC_CTLL_FC P (direction config))) ;;
  upd_desc 0 (ctrl_lo_or (DWC_CTLL_SRC_WIDTH P (src_width config))) ;;
  upd_desc 0 (ctrl_lo_or (DWC_CTLL_DST_WIDTH P (dest_width config))) ;;
  upd_desc 0 (ctrl_lo_or (DWC_CTLL_SRC_MSIZE P 0)) ;;
  upd_desc 0 (ctrl_lo_or (DWC_CTLL_DST_MSIZE P 0)) ;;
  config_direction (direction config) ;;
  upd_desc 0 (ctrl_hi_clear (DWC_CTLH_DONE P)) ;;
  fill_lli 0 (elem_list config) ;;
  ret 0.

Definition dw_dma_set_config (rmalloc : Z -> option lli_block)
    (channel : nat) (config : dma_sg_config) : M machine Z :=
  on_chan channel (set_config_chan rmalloc config).

Definition dw_dma_set_cb (channel : nat) (fn data : Z) : M machine unit :=
  upd_chan channel (set_cb fn) ;;
  upd_chan channel (set_cb_data data).

(** ** Interrupt dispatcher *)

(** What the client function at address [fn] does to the machine when it is
    called with [data]. *)
Variable client : Z -> Z -> machine -> machine.

Definition call_cb (i : nat) (fn data : Z) : M machine unit :=
  fun m => (Ret tt, client fn data m, [ClientCb i fn data]).

(** The loop of [dw_dma_irq_handler]. *)
Fixpoint irq_scan (n i : nat) : M machine unit :=
  match n with
  | O => ret tt
  | S n' =>
      c <- get_chan i ;;
      (if negb (status c =? DMA_STATUS_FREE P) && negb (cb c =? 0) then
         io_reg_write (reg_addr DW_MASK_BLOCK) (INT_MASK (Z.of_nat i)) ;;
         c <- get_chan i ;;
         call_cb i (cb c) (cb_data c)
       else ret tt) ;;
      irq_scan n' (S i)
  end.

Definition dw_dma_irq_handler : M machine unit :=
  emit (TracePoint 0x9999) ;;
  emit (IrqDisable (dma_irq P)) ;;
  status_block <- io_reg_read (reg_addr DW_STATUS_BLOCK) ;;
  (if status_block =? 0 then ret tt else irq_scan DW_MAX_CHAN 0) ;;
  emit (IrqClear (dma_irq P)) ;;
  emit (IrqEnable (dma_irq P)).

End Driver.

(** ** Specification vocabulary *)

(** The five interrupt-clear writes of [dw_dma_channel_get] for channel [i],
    in program order. *)
Definition clear_writes (P : dw_platform) (i : nat) : list event :=
  [ IoWrite (reg_addr P DW_CLEAR_TFR) (Z.shiftl 1 (Z.of_nat i));
    IoWrite (reg_addr P DW_CLEAR_BLOCK) (Z.shiftl 1 (Z.of_nat i));
    IoWrite (reg_addr P DW_CLEAR_SRC_TRAN) (Z.shiftl 1 (Z.of_nat i));
    IoWrite (reg_addr P DW_CLEAR_DST_TRAN) (Z.shiftl 1 (Z.of_nat i));
    IoWrite (reg_addr P DW_CLEAR_ERR) (Z.shiftl 1 (Z.of_nat i)) ].

(** The machine after channel [i], whose slot was [c], has been claimed:
    the slot is Idle and the five clear registers hold the channel's bit. *)
Definition claimed (P : dw_platform) (i : nat) (c : dma_chan_data)
    (m : machine) : machine :=
  mk_machine
    (<[i := set_status (DMA_STATUS_IDLE P) c]> (chan m))
    (<[reg_addr P DW_CLEAR_ERR := Z.shiftl 1 (Z.of_nat i)]>
       (<[reg_addr P DW_CLEAR_DST_TRAN := Z.shiftl 1 (Z.of_nat i)]>
          (<[reg_addr P DW_CLEAR_SRC_TRAN := Z.shiftl 1 (Z.of_nat i)]>
             (<[reg_addr P DW_CLEAR_BLOCK := Z.shiftl 1 (Z.of_nat i)]>
                (<[reg_addr P DW_CLEAR_TFR := Z.shiftl 1 (Z.of_nat i)]>
                   (regs m)))))).

(** No slot of the pool is Free. *)
Definition no_free_slot (P : dw_platform) (m : machine) : Prop :=
  forall j cj, chan m !! j = Some cj -> status cj <> DMA_STATUS_FREE P.

(** What [io_reg_update_bits reg bits bits] leaves in a register that held
    [old]. *)
Definition with_bits (bits old : Z) : Z :=
  u32 (Z.lor (Z.land old (Z.lnot bits)) (Z.land bits bits)).

(** One dispatch of the interrupt handler: the channel index, the client
    function and its argument. *)
Record fired_cb := mk_fired {
  f_chan : nat;
  f_fn : Z;
  f_data : Z
}.

(** The handler's two actions for a dispatch: the write masking the
    channel's block-complete interrupt, then the call. *)
Definition dispatch_events (P : dw_platform) (f : fired_cb) : list event :=
  [ IoWrite (reg_addr P DW_MASK_BLOCK) (INT_MASK (Z.of_nat (f_chan f)));
    ClientCb (f_chan f) (f_fn f) (f_data f) ].

(** A segment follows in the list. *)
Definition has_next (rest : list dma_sg_elem) : bool :=
  match rest with
  | [] => false
  | _ :: _ => true
  end.

(** A computation on a slot that performs no event and leaves the slot's
    descriptor count alone, whatever its result. *)
Definition quiet {A} (x : M dma_chan_data A) : Prop :=
  forall c, snd (x c) = [] /\ desc_count (snd (fst (x c))) = desc_count c.

(** What the second loop of [dw_dma_set_config] stores into descriptor [k]
    for segment [e]: the addresses, then the link ([has_next] tells whether a
    segment follows). *)
Definition chain_desc (P : dw_platform) (base : Z) (k : nat) (e : dma_sg_elem)
    (has_next : bool) (d : dw_lli1) : dw_lli1 :=
  let d1 := set_dar (u32 (dest e)) (set_sar (u32 (src e)) d) in
  if has_next then
    ctrl_lo_or (Z.lor (DWC_CTLL_LLP_S_EN P) (DWC_CTLL_LLP_D_EN P))
      (set_llp (desc_addr P base (S k)) d1)
  else
    ctrl_lo_clear (Z.lor (DWC_CTLL_LLP_S_EN P) (DWC_CTLL_LLP_D_EN P))
      (set_llp 0 d1).

(** The chain the controller follows from the head of a descriptor array:
    the descriptors up to and including the first one whose link pointer is
    the terminator 0, each link leading to the next array slot. *)
Fixpoint lli_chain (cells : list dw_lli1) : list dw_lli1 :=
  match cells with
  | [] => []
  | d :: rest => if llp d =? 0 then [d] else d :: lli_chain rest
  end.

(** All bits of [flags] are set in [word]; none of them is. *)
Definition flags_set (flags word : Z) : Prop := Z.land word flags = flags.
Definition flags_clear (flags word : Z) : Prop := Z.land word flags = 0.

(** ** A concrete platform and pool, used to instantiate the statements *)

(** Bit positions of the DesignWare AHB DMA controller's CTLx and CFGx
    registers, the status and direction numbering of the audio firmware, a
    seven-word descriptor. *)
Definition example_platform : dw_platform :=
  {| DMA_STATUS_FREE := 0;
     DMA_STATUS_IDLE := 1;
     DMA_STATUS_RUNNING := 2;
     DMA_STATUS_DRAINING := 4;
     DMA_DIR_MEM_TO_MEM := 0;
     DMA_DIR_MEM_TO_DEV := 1;
     DMA_DIR_DEV_TO_MEM := 2;
     DMA_DIR_DEV_TO_DEV := 3;
     DWC_CTLL_FC := fun n => Z.shiftl n 20;
     DWC_CTLL_SRC_WIDTH := fun n => Z.shiftl n 4;
     DWC_CTLL_DST_WIDTH := fun n => Z.shiftl n 1;
     DWC_CTLL_SRC_MSIZE := fun n => Z.shiftl n 14;
     DWC_CTLL_DST_MSIZE := fun n => Z.shiftl n 11;
     DWC_CTLL_SRC_INC := Z.shiftl 0 9;
     DWC_CTLL_DST_INC := Z.shiftl 0 7;
     DWC_CTLL_SRC_FIX := Z.shiftl 2 9;
     DWC_CTLL_DST_FIX := Z.shiftl 2 7;
     DWC_CTLL_LLP_S_EN := Z.shiftl 1 28;
     DWC_CTLL_LLP_D_EN := Z.shiftl 1 27;
     DWC_CTLH_DONE := 0x1000;
     DWC_CFGH_SRC_PER := fun x => Z.shiftl x 7;
     DWC_CFGH_DST_PER := fun x => Z.shiftl x 11;
     DWC_CFGL_RELOAD_SAR := Z.shiftl 1 30;
     DWC_CFGL_RELOAD_DAR := Z.shiftl 1 31;
     lli_size := 28;
     dma_base := 0xFF298000;
     dma_irq := 9 |}.

(** A slot as [bzero] in [dw_dma_probe] leaves it. *)
Definition zero_chan : dma_chan_data := mk_chan 0 None 0 0 0 0 0.

(** The pool right after probe. *)
Definition probed : machine := mk_machine (replicate 8 zero_chan) ∅.

(** A descriptor in zeroed memory. *)
Definition zero_lli : dw_lli1 := mk_lli 0 0 0 0 0.

(** An allocator that answers every request with a zeroed block of [n]
    descriptors at address 0x2000, and one that has no memory left. *)
Definition alloc_zeroed (n : nat) : Z -> option lli_block :=
  fun _ => Some (mk_block 0x2000 (replicate n zero_lli)).
Definition alloc_fails : Z -> option lli_block := fun _ => None.

(** Two transfer requests: three segments memory to memory, two segments
    memory to device. *)
Definition mem_to_mem_3 : dma_sg_config :=
  mk_config 0 2 2 [mk_elem 0x100 0x900; mk_elem 0x200 0xA00; mk_elem 0x300 0xB00].
Definition mem_to_dev_2 : dma_sg_config :=
  mk_config 1 2 2 [mk_elem 0x100 0x900; mk_elem 0x200 0x900].

(** A pool in use: channel 0 Draining, channel 1 Running with a one-descriptor
    chain and a callback, channel 2 Free, channel 3 Idle with a callback and
    no chain, the others Free; the block-complete status register reads 2. *)
Definition draining_chan : dma_chan_data := mk_chan 4 None 0 0 0 0 0.
Definition running_chan : dma_chan_data :=
  mk_chan 2 (Some (mk_block 0x3000 [mk_lli 0x100 0x900 0 0x100 0])) 1 0 0
    0x4000 7.
Definition idle_chan : dma_chan_data := mk_chan 1 None 0 0 0 0x5000 9.

Definition busy_pool : machine :=
  mk_machine
    [ draining_chan; running_chan; zero_chan; idle_chan;
      zero_chan; zero_chan; zero_chan; zero_chan ]
    {[ reg_addr example_platform DW_STATUS_BLOCK := 2 ]}.

(** A pool with no channel in Draining: channel 1 Running, the others
    Free. *)
Definition calm_pool : machine :=
  mk_machine
    [ zero_chan; running_chan;
      zero_chan; zero_chan; zero_chan; zero_chan; zero_chan; zero_chan ]
    ∅.

(** A client whose callbacks re-arm their channel: the function at [fn]
    writes [data] to the block mask register. *)
Definition rearm_client : Z -> Z -> machine -> machine :=
  fun fn data m =>
    mk_machine (chan m)
      (<[reg_addr example_platform DW_MASK_BLOCK := data]> (regs m)).

(** ** Controller setup *)

(** [dw_dma_setup]: masks the five interrupt classes of all eight channels
    and enables the controller. *)
Definition dw_dma_setup (P : dw_platform) : M machine Z :=
  io_reg_write (reg_addr P DW_MASK_TFR) 0x0000ff00 ;;
  io_reg_write (reg_addr P DW_MASK_BLOCK) 0x0000ff00 ;;
  io_reg_write (reg_addr P DW_MASK_SRC_TRAN) 0x0000ff00 ;;
  io_reg_write (reg_addr P DW_MASK_DST_TRAN) 0x0000ff00 ;;
  io_reg_write (reg_addr P DW_MASK_ERR) 0x0000ff00 ;;
  io_reg_write (reg_addr P DW_DMA_CFG) 1 ;;
  ret 0.

(** [k] successive calls of [dw_dma_channel_get], with their results. *)
Fixpoint acquire_many (P : dw_platform) (k : nat) : M machine (list Z) :=
  match k with
  | O => ret []
  | S k' =>
      r <- dw_dma_channel_get P ;;
      rs <- acquire_many P k' ;;
      ret (r :: rs)
  end.

(** ** Vocabulary for the drain poller, the dispatcher and the pool *)

(** The tests of [dw_dma_fifo_work] on channel [i]: its slot has the
    Draining bit; its config-low register, as the machine [m] holds it, has
    the FIFO-empty bit. *)
Definition is_draining (P : dw_platform) (c : dma_chan_data) : bool :=
  negb (Z.land (status c) (DMA_STATUS_DRAINING P) =? 0).

Definition fifo_empty (P : dw_platform) (m : machine) (i : nat) : bool :=
  negb (Z.land (regs m !!! reg_addr P (DW_CFG_LOW (Z.of_nat i)))
               DW_CFG_CH_FIFO_EMPTY =? 0).

(** A slot whose Draining bit has been cleared. *)
Definition drained (P : dw_platform) (c : dma_chan_data) : dma_chan_data :=
  set_status (u8 (Z.land (status c) (Z.lnot (DMA_STATUS_DRAINING P)))) c.

(** The slot of channel [i] after one pass of the poller over machine [m]. *)
Definition poll_chan (P : dw_platform) (m : machine) (i : nat)
    (c : dma_chan_data) : dma_chan_data :=
  if is_draining P c && fifo_empty P m i then drained P c else c.

(** The poller's register traffic: reads, and writes to the channel-enable
    register only. *)
Definition poller_event (P : dw_platform) (e : event) : Prop :=
  match e with
  | IoRead _ _ => True
  | IoWrite a _ => a = reg_addr P DW_DMA_CHAN_EN
  | _ => False
  end.

(** The channels the dispatcher calls back for a channel array [cs] whose
    first slot has index [i]: those that are not Free and have a callback. *)
Fixpoint dispatched (P : dw_platform) (i : nat) (cs : list dma_chan_data) :
    list fired_cb :=
  match cs with
  | [] => []
  | c :: rest =>
      (if negb (status c =? DMA_STATUS_FREE P) && negb (cb c =? 0)
       then [mk_fired i (cb c) (cb_data c)] else [])
      ++ dispatched P (S i) rest
  end.

(** A pool whose channels below [k] are Idle and the others Free. *)
Definition pool_split (P : dw_platform) (k : nat) (m : machine) : Prop :=
  length (chan m) = DW_MAX_CHAN /\
  forall j c, chan m !! j = Some c ->
    ((j < k)%nat -> status c = DMA_STATUS_IDLE P) /\
    ((k <= j)%nat -> status c = DMA_STATUS_FREE P).

(** The head descriptor after the five stores of transfer type, widths and
    burst sizes that open [dw_dma_set_config]. *)
Definition head_pre (P : dw_platform) (config : dma_sg_config) (d : dw_lli1) :
    dw_lli1 :=
  ctrl_lo_or (DWC_CTLL_DST_MSIZE P 0)
    (ctrl_lo_or (DWC_CTLL_SRC_MSIZE P 0)
       (ctrl_lo_or (DWC_CTLL_DST_WIDTH P (dest_width config))
          (ctrl_lo_or (DWC_CTLL_SRC_WIDTH P (src_width config))
             (ctrl_lo_or (DWC_CTLL_FC P (direction config)) d)))).

(** A computation on a slot that leaves the slot's state, callback and
    callback argument alone, whatever its result. *)
Definition keeps_owner {A} (x : M dma_chan_data A) : Prop :=
  forall c,
    status (snd (fst (x c))) = status c /\
    cb (snd (fst (x c))) = cb c /\
    cb_data (snd (fst (x c))) = cb_data c.

(** A pool whose channel 0 is Draining with the FIFO-empty bit set in its
    config-low register, and a request without segments. *)
Definition drained_pool : machine :=
  mk_machine
    [ draining_chan; running_chan; zero_chan; idle_chan;
      zero_chan; zero_chan; zero_chan; zero_chan ]
    {[ reg_addr example_platform (DW_CFG_LOW 0) := 0x200 ]}.

Definition empty_request : dma_sg_config := mk_config 0 2 2 [].

(** The machine one dispatch leaves: the channel's block-complete interrupt
    masked, then the client function run. *)
Definition after_dispatch (P : dw_platform)
    (client : Z -> Z -> machine -> machine) (f : fired_cb) (m : machine) :
    machine :=
  client (f_fn f) (f_data f)
    (mk_machine (chan m)
       (<[reg_addr P DW_MASK_BLOCK := INT_MASK (Z.of_nat (f_chan f))]> (regs m))).

(** The machine the dispatcher's loop finds when it reaches channel [i],
    for a pass that started on [m] and makes the dispatches [fired] (in
    ascending channel order): [m] after the dispatches of the channels
    below [i]. *)
Fixpoint machine_at (P : dw_platform) (client : Z -> Z -> machine -> machine)
    (fired : list fired_cb) (m : machine) (i : nat) : machine :=
  match fired with
  | [] => m
  | f :: rest =>
      if (f_chan f <? i)%nat
      then machine_at P client rest (after_dispatch P client f m) i
      else m
  end.

(** ** Sequencing lemmas *)

Section Sequencing.

Context {S A B : Type}.

Lemma bind_ret (x : M S A) (f : A -> M S B) s a s1 t1 :
  x s = (Ret a, s1, t1) ->
  bind x f s = (fst (fst (f a s1)), snd (fst (f a s1)), t1 ++ snd (f a s1)).
Proof.
  intros Hx. unfold bind. rewrite Hx. destruct (f a s1) as [[r s2] t2].
  reflexivity.
Qed.

Lemma bind_silent (x : M S A) (f : A -> M S B) s a s1 :
  x s = (Ret a, s1, []) -> bind x f s = f a s1.
Proof.
  intros Hx. unfold bind. rewrite Hx. destruct (f a s1) as [[r s2] t2].
  reflexivity.
Qed.

Lemma bind_undef (x : M S A) (f : A -> M S B) s u s1 t1 :
  x s = (Undef u, s1, t1) -> bind x f s = (Undef u, s1, t1).
Proof. intros Hx. unfold bind. rewrite Hx. reflexivity. Qed.

End Sequencing.

Lemma get_chan_some i m c :
  chan m !! i = Some c -> get_chan i m = (Ret c, m, []).
Proof. intros H. unfold get_chan. rewrite H. reflexivity. Qed.

Lemma upd_chan_some i f m c :
  chan m !! i = Some c ->
  upd_chan i f m = (Ret tt, mk_machine (<[i := f c]> (chan m)) (regs m), []).
Proof. intros H. unfold upd_chan. rewrite H. reflexivity. Qed.

Lemma u32_shiftl_1 (i : nat) :
  (i < 32)%nat -> u32 (Z.shiftl 1 (Z.of_nat i)) = Z.shiftl 1 (Z.of_nat i).
Proof.
  intros Hi. unfold u32. rewrite Z.shiftl_1_l. apply Z.mod_small. split.
  - apply Z.pow_nonneg. lia.
  - apply Z.pow_lt_mono_r; lia.
Qed.

Lemma u8_small x : 0 <= x < 256 -> u8 x = x.
Proof. intros H. unfold u8. apply Z.mod_small. change (2 ^ 8) with 256. lia. Qed.

(** ** Channel pool: acquire *)

Section ChannelGet.

Variable P : dw_platform.
Hypothesis free_not_draining : DMA_STATUS_FREE P <> DMA_STATUS_DRAINING P.

(** One claim step, as the code computes it. *)
Lemma channel_get_claim i c m :
  chan m !! i = Some c ->
  (upd_chan i (set_status (u8 (DMA_STATUS_IDLE P))) ;;
   io_reg_write (reg_addr P DW_CLEAR_TFR) (Z.shiftl 0x1 (Z.of_nat i)) ;;
   io_reg_write (reg_addr P DW_CLEAR_BLOCK) (Z.shiftl 0x1 (Z.of_nat i)) ;;
   io_reg_write (reg_addr P DW_CLEAR_SRC_TRAN) (Z.shiftl 0x1 (Z.of_nat i)) ;;
   io_reg_write (reg_addr P DW_CLEAR_DST_TRAN) (Z.shiftl 0x1 (Z.of_nat i)) ;;
   io_reg_write (reg_addr P DW_CLEAR_ERR) (Z.shiftl 0x1 (Z.of_nat i)) ;;
   ret (Z.of_nat i)) m
  = (Ret (Z.of_nat i),
     mk_machine
       (<[i := set_status (u8 (DMA_STATUS_IDLE P)) c]> (chan m))
       (<[reg_addr P DW_CLEAR_ERR := u32 (Z.shiftl 1 (Z.of_nat i))]>
          (<[reg_addr P DW_CLEAR_DST_TRAN := u32 (Z.shiftl 1 (Z.of_nat i))]>
             (<[reg_addr P DW_CLEAR_SRC_TRAN := u32 (Z.shiftl 1 (Z.of_nat i))]>
                (<[reg_addr P DW_CLEAR_BLOCK := u32 (Z.shiftl 1 (Z.of_nat i))]>
                   (<[reg_addr P DW_CLEAR_TFR := u32 (Z.shiftl 1 (Z.of_nat i))]>
                      (regs m)))))),
     [ IoWrite (reg_addr P DW_CLEAR_TFR) (u32 (Z.shiftl 1 (Z.of_nat i)));
       IoWrite (reg_addr P DW_CLEAR_BLOCK) (u32 (Z.shiftl 1 (Z.of_nat i)));
       IoWrite (reg_addr P DW_CLEAR_SRC_TRAN) (u32 (Z.shiftl 1 (Z.of_nat i)));
       IoWrite (reg_addr P DW_CLEAR_DST_TRAN) (u32 (Z.shiftl 1 (Z.of_nat i)));
       IoWrite (reg_addr P DW_CLEAR_ERR) (u32 (Z.shiftl 1 (Z.of_nat i))) ]).
Proof.
  intros Hc. rewrite (bind_silent _ _ _ _ _ (upd_chan_some _ _ _ _ Hc)).
  reflexivity.
Qed.

Lemma channel_get_scan_spec n :
  forall i m,
    (i + n)%nat = length (chan m) ->
    (exists k c,
        (i <= k)%nat /\ chan m !! k = Some c /\
        status c = DMA_STATUS_FREE P /\
        (forall j cj, (i <= j < k)%nat -> chan m !! j = Some cj ->
                      status cj <> DMA_STATUS_FREE P) /\
        channel_get_scan P n i m
        = (upd_chan k (set_status (u8 (DMA_STATUS_IDLE P))) ;;
           io_reg_write (reg_addr P DW_CLEAR_TFR) (Z.shiftl 0x1 (Z.of_nat k)) ;;
           io_reg_write (reg_addr P DW_CLEAR_BLOCK) (Z.shiftl 0x1 (Z.of_nat k)) ;;
           io_reg_write (reg_addr P DW_CLEAR_SRC_TRAN) (Z.shiftl 0x1 (Z.of_nat k)) ;;
           io_reg_write (reg_addr P DW_CLEAR_DST_TRAN) (Z.shiftl 0x1 (Z.of_nat k)) ;;
           io_reg_write (reg_addr P DW_CLEAR_ERR) (Z.shiftl 0x1 (Z.of_nat k)) ;;
           ret (Z.of_nat k)) m)
    \/
    ((forall j cj, (i <= j)%nat -> chan m !! j = Some cj ->
                   status cj <> DMA_STATUS_FREE P) /\
     channel_get_scan P n i m = (Ret (- ENODEV), m, [])).
Proof.
  induction n as [|n IH]; intros i m Hlen.
  - right. split; [|reflexivity].
    intros j cj Hj Hcj. apply lookup_lt_Some in Hcj. lia.
  - assert (Hi : (i < length (chan m))%nat) by lia.
    destruct (lookup_lt_is_Some_2 _ _ Hi) as [c Hc].
    cbn [channel_get_scan].
    rewrite (bind_silent _ _ _ _ _ (get_chan_some _ _ _ Hc)).
    assert (Hskip : status c <> DMA_STATUS_FREE P ->
      forall k, (S i <= k)%nat ->
        (forall j cj, (S i <= j < k)%nat -> chan m !! j = Some cj ->
                      status cj <> DMA_STATUS_FREE P) ->
        forall j cj, (i <= j < k)%nat -> chan m !! j = Some cj ->
                     status cj <> DMA_STATUS_FREE P).
    { intros Hnf k Hk Hrest j cj Hj Hcj.
      destruct (decide (j = i)) as [->|Hne].
      - rewrite Hc in Hcj. injection Hcj as <-. exact Hnf.
      - apply (Hrest j cj); [lia | exact Hcj]. }
    assert (Hnext : status c <> DMA_STATUS_FREE P ->
      (exists k c0,
        (i <= k)%nat /\ chan m !! k = Some c0 /\
        status c0 = DMA_STATUS_FREE P /\
        (forall j cj, (i <= j < k)%nat -> chan m !! j = Some cj ->
                      status cj <> DMA_STATUS_FREE P) /\
        channel_get_scan P n (S i) m
        = (upd_chan k (set_status (u8 (DMA_STATUS_IDLE P))) ;;
           io_reg_write (reg_addr P DW_CLEAR_TFR) (Z.shiftl 0x1 (Z.of_nat k)) ;;
           io_reg_write (reg_addr P DW_CLEAR_BLOCK) (Z.shiftl 0x1 (Z.of_nat k)) ;;
           io_reg_write (reg_addr P DW_CLEAR_SRC_TRAN) (Z.shiftl 0x1 (Z.of_nat k)) ;;
           io_reg_write (reg_addr P DW_CLEAR_DST_TRAN) (Z.shiftl 0x1 (Z.of_nat k)) ;;
           io_reg_write (reg_addr P DW_CLEAR_ERR) (Z.shiftl 0x1 (Z.of_nat k)) ;;
           ret (Z.of_nat k)) m)
      \/
      ((forall j cj, (i <= j)%nat -> chan m !! j = Some cj ->
                     status cj <> DMA_STATUS_FREE P) /\
       channel_get_scan P n (S i) m = (Ret (- ENODEV), m, []))).
    { intros Hnf. destruct (IH (S i) m) as [(k & c0 & Hk & Hc0 & Hf & Hpre & Hrun)|[Hnone Hrun]].
      - lia.
      - left. exists k, c0. repeat split; try assumption; try lia.
        apply (Hskip Hnf k Hk Hpre).
      - right. split; [|exact Hrun].
        intros j cj Hj Hcj. destruct (decide (j = i)) as [->|Hne].
        + rewrite Hc in Hcj. injection Hcj as <-. exact Hnf.
        + apply (Hnone j cj); [lia | exact Hcj]. }
    destruct (Z.eqb_spec (status c) (DMA_STATUS_DRAINING P)) as [Hd|Hd].
    + apply Hnext. congruence.
    + destruct (Z.eqb_spec (status c) (DMA_STATUS_FREE P)) as [Hf|Hf].
      * left. exists i, c. repeat split; try assumption; try lia.
      * apply Hnext. exact Hf.
Qed.

(** C1: acquire scans the slots in ascending index order; the slot it
    returns was Free (hence not Draining) and no slot before it was Free; the
    claimed slot becomes Idle and the five interrupt-clear registers
    (transfer, block, source-transaction, destination-transaction, error)
    are written, in that order, before the index is returned; the result is
    the error -ENODEV exactly when no slot is Free, and then nothing is
    written. *)
Theorem channel_get_first_free (m : machine) :
  length (chan m) = DW_MAX_CHAN ->
  0 <= DMA_STATUS_IDLE P < 256 ->
  ((exists i c,
       chan m !! i = Some c /\
       status c = DMA_STATUS_FREE P /\
       status c <> DMA_STATUS_DRAINING P /\
       (forall j cj, (j < i)%nat -> chan m !! j = Some cj ->
                     status cj <> DMA_STATUS_FREE P) /\
       dw_dma_channel_get P m
       = (Ret (Z.of_nat i), claimed P i c m, clear_writes P i))
   \/
   (no_free_slot P m /\ dw_dma_channel_get P m = (Ret (- ENODEV), m, [])))
  /\
  (fst (fst (dw_dma_channel_get P m)) = Ret (- ENODEV) <-> no_free_slot P m).
Proof.
  intros Hlen Hidle.
  assert (Hmain :
    (exists i c,
       chan m !! i = Some c /\
       status c = DMA_STATUS_FREE P /\
       status c <> DMA_STATUS_DRAINING P /\
       (forall j cj, (j < i)%nat -> chan m !! j = Some cj ->
                     status cj <> DMA_STATUS_FREE P) /\
       dw_dma_channel_get P m
       = (Ret (Z.of_nat i), claimed P i c m, clear_writes P i))
    \/
    (no_free_slot P m /\ dw_dma_channel_get P m = (Ret (- ENODEV), m, []))).
  { unfold dw_dma_channel_get.
    destruct (channel_get_scan_spec DW_MAX_CHAN 0 m)
      as [(k & c & _ & Hc & Hf & Hpre & Hrun)|[Hnone Hrun]].
    - rewrite Hlen. reflexivity.
    - left. exists k, c. repeat split; try assumption.
      + congruence.
      + intros j cj Hj. apply Hpre. lia.
      + rewrite Hrun, (channel_get_claim k c m Hc).
        assert (Hk : (k < 32)%nat).
        { apply lookup_lt_Some in Hc. rewrite Hlen in Hc.
          unfold DW_MAX_CHAN in Hc. lia. }
        unfold claimed, clear_writes.
        rewrite (u32_shiftl_1 k Hk), (u8_small _ Hidle). reflexivity.
    - right. split; [|exact Hrun].
      intros j cj Hcj. apply (Hnone j cj); [lia | exact Hcj]. }
  split; [exact Hmain|].
  destruct Hmain as [(i & c & Hc & Hf & _ & _ & Hrun)|[Hnone Hrun]].
  - rewrite Hrun. cbn [fst]. split.
    + intros H. injection H as H. unfold ENODEV in H. lia.
    + intros Hnone. exfalso. exact (Hnone i c Hc Hf).
  - rewrite Hrun. cbn [fst]. split; [intros _; exact Hnone | reflexivity].
Qed.

End ChannelGet.

(** ** Channel control: stop and drain *)

Lemma update_bits_testbit old bits n :
  0 <= n < 32 ->
  Z.testbit (u32 (Z.lor (Z.land old (Z.lnot bits)) (Z.land bits bits))) n
  = Z.testbit bits n || Z.testbit old n.
Proof.
  intros Hn. unfold u32.
  rewrite Z.mod_pow2_bits_low by lia.
  rewrite Z.lor_spec, !Z.land_spec, Z.lnot_spec by lia.
  destruct (Z.testbit bits n), (Z.testbit old n); reflexivity.
Qed.

Lemma suspend_is_bit_8 n : Z.testbit DW_CFG_CH_SUSPEND n = (n =? 8).
Proof.
  change DW_CFG_CH_SUSPEND with (2 ^ 8).
  rewrite Z.pow2_bits_eqb by lia. apply Z.eqb_sym.
Qed.

Lemma suspend_drain_bits n :
  Z.testbit (Z.lor DW_CFG_CH_SUSPEND DW_CFG_CH_DRAIN) n = (n =? 8) || (n =? 10).
Proof.
  rewrite Z.lor_spec, suspend_is_bit_8. f_equal.
  change DW_CFG_CH_DRAIN with (2 ^ 10).
  rewrite Z.pow2_bits_eqb by lia. apply Z.eqb_sym.
Qed.

Section StopDrain.

Variable P : dw_platform.

Lemma suspend_run bits channel m c :
  chan m !! channel = Some c ->
  (io_reg_update_bits (reg_addr P (DW_CFG_LOW (Z.of_nat channel))) bits bits ;;
   upd_chan channel (set_status (u8 (DMA_STATUS_DRAINING P))) ;;
   emit (WorkSchedule 1) ;;
   ret 0) m
  = (Ret 0,
     mk_machine
       (<[channel := set_status (u8 (DMA_STATUS_DRAINING P)) c]> (chan m))
       (<[reg_addr P (DW_CFG_LOW (Z.of_nat channel)) :=
            with_bits bits (regs m !!! reg_addr P (DW_CFG_LOW (Z.of_nat channel)))]>
          (regs m)),
     [ IoRead (reg_addr P (DW_CFG_LOW (Z.of_nat channel)))
         (regs m !!! reg_addr P (DW_CFG_LOW (Z.of_nat channel)));
       IoWrite (reg_addr P (DW_CFG_LOW (Z.of_nat channel)))
         (with_bits bits (regs m !!! reg_addr P (DW_CFG_LOW (Z.of_nat channel))));
       WorkSchedule 1 ]).
Proof.
  intros Hc. unfold bind at 1. unfold io_reg_update_bits, bind at 1.
  cbn [io_reg_read io_reg_write]. cbn [app].
  unfold bind at 1.
  rewrite (upd_chan_some channel _ (mk_machine (chan m) _) c Hc).
  reflexivity.
Qed.

(** C8: stop sets exactly the suspend bit (bit 8) of the channel's
    config-low register, drain sets exactly the suspend and drain bits (bits
    8 and 10); every other bit of the register keeps its value.  Both leave
    the channel in Draining, schedule the drain poller with delay 1 and
    return 0. *)
Theorem stop_drain_suspend_bits (channel : nat) (m : machine) (c : dma_chan_data) :
  chan m !! channel = Some c ->
  0 <= DMA_STATUS_DRAINING P < 256 ->
  exists after_stop after_drain,
    dw_dma_stop P channel m
    = (Ret 0,
       mk_machine
         (<[channel := set_status (DMA_STATUS_DRAINING P) c]> (chan m))
         (<[reg_addr P (DW_CFG_LOW (Z.of_nat channel)) := after_stop]> (regs m)),
       [ IoRead (reg_addr P (DW_CFG_LOW (Z.of_nat channel)))
           (regs m !!! reg_addr P (DW_CFG_LOW (Z.of_nat channel)));
         IoWrite (reg_addr P (DW_CFG_LOW (Z.of_nat channel))) after_stop;
         WorkSchedule 1 ]) /\
    (forall n, 0 <= n < 32 ->
       Z.testbit after_stop n
       = (n =? 8) || Z.testbit (regs m !!! reg_addr P (DW_CFG_LOW (Z.of_nat channel))) n) /\
    dw_dma_drain P channel m
    = (Ret 0,
       mk_machine
         (<[channel := set_status (DMA_STATUS_DRAINING P) c]> (chan m))
         (<[reg_addr P (DW_CFG_LOW (Z.of_nat channel)) := after_drain]> (regs m)),
       [ IoRead (reg_addr P (DW_CFG_LOW (Z.of_nat channel)))
           (regs m !!! reg_addr P (DW_CFG_LOW (Z.of_nat channel)));
         IoWrite (reg_addr P (DW_CFG_LOW (Z.of_nat channel))) after_drain;
         WorkSchedule 1 ]) /\
    (forall n, 0 <= n < 32 ->
       Z.testbit after_drain n
       = (n =? 8) || (n =? 10)
         || Z.testbit (regs m !!! reg_addr P (DW_CFG_LOW (Z.of_nat channel))) n) /\
    DW_CFG_CH_SUSPEND = 2 ^ 8 /\
    DW_CFG_CH_DRAIN = 2 ^ 10.
Proof.
  intros Hc Hdr.
  exists (with_bits DW_CFG_CH_SUSPEND
            (regs m !!! reg_addr P (DW_CFG_LOW (Z.of_nat channel)))).
  exists (with_bits (Z.lor DW_CFG_CH_SUSPEND DW_CFG_CH_DRAIN)
            (regs m !!! reg_addr P (DW_CFG_LOW (Z.of_nat channel)))).
  rewrite <- (u8_small _ Hdr).
  split; [apply suspend_run; exact Hc|].
  split.
  { intros n Hn. unfold with_bits.
    rewrite update_bits_testbit by exact Hn.
    rewrite suspend_is_bit_8. reflexivity. }
  split; [apply suspend_run; exact Hc|].
  split.
  { intros n Hn. unfold with_bits.
    rewrite update_bits_testbit by exact Hn.
    rewrite suspend_drain_bits. reflexivity. }
  split; reflexivity.
Qed.

End StopDrain.

(** ** Interrupt dispatcher *)

Lemma u32_INT_MASK (i : nat) :
  (i < 8)%nat -> u32 (INT_MASK (Z.of_nat i)) = INT_MASK (Z.of_nat i).
Proof.
  intros Hi. unfold u32, INT_MASK.
  rewrite Z.shiftl_mul_pow2 by lia.
  apply Z.mod_small.
  assert (H1 : 0 < 2 ^ Z.of_nat i) by (apply Z.pow_pos_nonneg; lia).
  assert (H2 : 2 ^ Z.of_nat i <= 2 ^ 7) by (apply Z.pow_le_mono_r; lia).
  change (2 ^ 7) with 128 in H2. change (2 ^ 32) with 4294967296. lia.
Qed.

Section IrqHandler.

Variable P : dw_platform.
Variable client : Z -> Z -> machine -> machine.

(** Client functions leave the channel array its (fixed) size. *)
Hypothesis client_keeps_size :
  forall fn data m, length (chan (client fn data m)) = length (chan m).

Lemma machine_at_later fired m i :
  Forall (fun f => (i <= f_chan f)%nat) fired ->
  machine_at P client fired m i = m.
Proof.
  intros Hall. destruct fired as [|f rest]; [reflexivity|].
  apply Forall_cons in Hall as [Hf _]. cbn [machine_at].
  destruct (Nat.ltb_spec (f_chan f) i); [lia | reflexivity].
Qed.

Lemma irq_scan_spec n :
  forall i m,
    (i + n)%nat = DW_MAX_CHAN ->
    length (chan m) = DW_MAX_CHAN ->
    exists fired,
      irq_scan P client n i m
      = (Ret tt, machine_at P client fired m DW_MAX_CHAN,
         flat_map (dispatch_events P) fired) /\
      Forall (fun f => (i <= f_chan f < DW_MAX_CHAN)%nat /\ f_fn f <> 0) fired /\
      StronglySorted (fun a b => (f_chan a < f_chan b)%nat) fired /\
      (forall j, (i <= j < DW_MAX_CHAN)%nat ->
         exists c,
           chan (machine_at P client fired m j) !! j = Some c /\
           (In (mk_fired j (cb c) (cb_data c)) fired <->
            status c <> DMA_STATUS_FREE P /\ cb c <> 0) /\
           (forall f, In f fired -> f_chan f = j ->
                      f = mk_fired j (cb c) (cb_data c))).
Proof.
  induction n as [|n IH]; intros i m Hin Hlen.
  - exists []. split; [reflexivity|]. split; [constructor|].
    split; [constructor|]. intros j Hj. lia.
  - assert (Hi : (i < length (chan m))%nat) by lia.
    assert (Hi8 : (i < 8)%nat) by (unfold DW_MAX_CHAN in Hin; lia).
    destruct (lookup_lt_is_Some_2 _ _ Hi) as [c Hc].
    cbn [irq_scan].
    rewrite (bind_silent _ _ _ _ _ (get_chan_some _ _ _ Hc)).
    destruct (negb (status c =? DMA_STATUS_FREE P) && negb (cb c =? 0))
      eqn:Hfire.
    + (* channel i is dispatched *)
      apply andb_true_iff in Hfire as [Hst Hcb].
      apply negb_true_iff, Z.eqb_neq in Hst.
      apply negb_true_iff, Z.eqb_neq in Hcb.
      set (f0 := mk_fired i (cb c) (cb_data c)).
      set (m2 := after_dispatch P client f0 m).
      assert (Hlen2 : length (chan m2) = DW_MAX_CHAN).
      { unfold m2, after_dispatch. rewrite client_keeps_size. exact Hlen. }
      destruct (IH (S i) m2) as (fired & Hrun & Hall & Hsorted & Hsl);
        [lia | exact Hlen2 |].
      assert (Hat : forall j, (i < j)%nat ->
                machine_at P client (f0 :: fired) m j
                = machine_at P client fired m2 j).
      { intros j Hj. cbn [machine_at f_chan f0].
        destruct (Nat.ltb_spec i j); [reflexivity | lia]. }
      exists (f0 :: fired). split.
      { assert (Hstep :
          (io_reg_write (reg_addr P DW_MASK_BLOCK) (INT_MASK (Z.of_nat i)) ;;
           c0 <- get_chan i ;; call_cb client i (cb c0) (cb_data c0)) m
          = (Ret tt, m2, dispatch_events P f0)).
        { unfold bind at 1. cbn [io_reg_write].
          rewrite u32_INT_MASK by exact Hi8.
          set (m1 := mk_machine (chan m) _).
          assert (Hc1 : chan m1 !! i = Some c) by exact Hc.
          rewrite (bind_silent _ _ _ _ _ (get_chan_some _ _ _ Hc1)).
          reflexivity. }
        rewrite (bind_ret _ _ _ _ _ _ Hstep), Hrun.
        rewrite (Hat DW_MAX_CHAN) by (unfold DW_MAX_CHAN; lia).
        reflexivity. }
      split.
      { constructor.
        - cbn. split; [unfold DW_MAX_CHAN; lia | exact Hcb].
        - eapply Forall_impl; [exact Hall|].
          intros f [Hf Hfn]. split; [lia | exact Hfn]. }
      split.
      { constructor; [exact Hsorted|].
        eapply Forall_impl; [exact Hall|].
        intros f [Hf _]. cbn. lia. }
      intros j Hj. destruct (decide (j = i)) as [->|Hne].
      * exists c. split.
        { cbn [machine_at f_chan f0].
          destruct (Nat.ltb_spec i i); [lia | exact Hc]. }
        split.
        { split; [intros _; split; assumption | intros _; left; reflexivity]. }
        intros f [<-|Hf] Hfi; [reflexivity|].
        rewrite Forall_forall in Hall. apply list_elem_of_In in Hf.
        destruct (Hall f Hf) as [Hge _]. lia.
      * destruct (Hsl j) as (cj & Hcj & Hiff & Huniq); [lia|].
        exists cj. rewrite Hat by lia. split; [exact Hcj|]. split.
        { rewrite <- Hiff. split.
          - intros [Heq|Hin']; [|exact Hin'].
            unfold f0 in Heq. injection Heq as Heq _ _. congruence.
          - intros Hin'. right. exact Hin'. }
        intros f [<-|Hf] Hfj; [cbn in Hfj; congruence|].
        apply Huniq; assumption.
    + (* channel i is skipped *)
      assert (Hskip' : ~ (status c <> DMA_STATUS_FREE P /\ cb c <> 0)).
      { intros [Hst Hcb]. apply Z.eqb_neq in Hst. apply Z.eqb_neq in Hcb.
        rewrite Hst, Hcb in Hfire. discriminate. }
      destruct (IH (S i) m) as (fired & Hrun & Hall & Hsorted & Hsl);
        [lia | exact Hlen |].
      assert (Hge : Forall (fun f => (S i <= f_chan f)%nat) fired).
      { eapply Forall_impl; [exact Hall|]. intros f [Hf _]. lia. }
      exists fired. split.
      { assert (Hskip : @ret machine unit tt m = (Ret tt, m, [])) by reflexivity.
        rewrite (bind_silent _ _ _ _ _ Hskip). exact Hrun. }
      split.
      { eapply Forall_impl; [exact Hall|].
        intros f [Hf Hfn]. split; [lia | exact Hfn]. }
      split; [exact Hsorted|].
      intros j Hj. destruct (decide (j = i)) as [->|Hne].
      * exists c. split.
        { rewrite machine_at_later; [exact Hc|].
          eapply Forall_impl; [exact Hge|]. intros f Hf. cbn in Hf. lia. }
        split.
        { split; [|intros H; contradiction].
          intros Hin'. rewrite Forall_forall in Hge.
          apply list_elem_of_In in Hin'. specialize (Hge _ Hin'). cbn in Hge. lia. }
        intros f Hf Hfi. rewrite Forall_forall in Hge.
        apply list_elem_of_In in Hf. specialize (Hge _ Hf). cbn in Hge. lia.
      * apply Hsl. lia.
Qed.

(** The whole handler: the fixed prologue and epilogue around the loop, and
    what the loop did, channel by channel. *)
Lemma irq_handler_run (m : machine) :
  length (chan m) = DW_MAX_CHAN ->
  exists fired m',
    dw_dma_irq_handler P client m
    = (Ret tt, m',
       [ TracePoint 0x9999;
         IrqDisable (dma_irq P);
         IoRead (reg_addr P DW_STATUS_BLOCK)
           (regs m !!! reg_addr P DW_STATUS_BLOCK) ]
       ++ flat_map (dispatch_events P) fired
       ++ [ IrqClear (dma_irq P); IrqEnable (dma_irq P) ]) /\
    StronglySorted (fun a b => (f_chan a < f_chan b)%nat) fired /\
    Forall (fun f => (f_chan f < DW_MAX_CHAN)%nat /\ f_fn f <> 0) fired /\
    (regs m !!! reg_addr P DW_STATUS_BLOCK = 0 -> fired = [] /\ m' = m) /\
    (regs m !!! reg_addr P DW_STATUS_BLOCK <> 0 ->
     m' = machine_at P client fired m DW_MAX_CHAN /\
     forall j, (j < DW_MAX_CHAN)%nat ->
       exists c,
         chan (machine_at P client fired m j) !! j = Some c /\
         (In (mk_fired j (cb c) (cb_data c)) fired <->
          status c <> DMA_STATUS_FREE P /\ cb c <> 0) /\
         (forall f, In f fired -> f_chan f = j ->
                    f = mk_fired j (cb c) (cb_data c))).
Proof.
  intros Hlen. unfold dw_dma_irq_handler.
  destruct (Z.eqb_spec (regs m !!! reg_addr P DW_STATUS_BLOCK) 0) as [Hz|Hnz].
  - exists [], m. split.
    + unfold bind, emit, io_reg_read, ret. cbn zeta.
      rewrite Hz. reflexivity.
    + split; [constructor|]. split; [constructor|].
      split; [intros _; split; reflexivity | intros H; contradiction].
  - destruct (irq_scan_spec DW_MAX_CHAN 0 m) as (fired & Hrun & Hall & Hs & Hsl);
      [reflexivity | exact Hlen |].
    exists fired, (machine_at P client fired m DW_MAX_CHAN). split.
    + unfold bind at 1. cbn [emit]. unfold bind at 1. cbn [emit].
      unfold bind at 1. unfold io_reg_read at 1. cbn zeta.
      apply Z.eqb_neq in Hnz. rewrite Hnz.
      unfold bind at 1. rewrite Hrun. reflexivity.
    + split; [exact Hs|]. split.
      * eapply Forall_impl; [exact Hall|]. intros f [Hf Hfn].
        split; [lia | exact Hfn].
      * split; [intros H; contradiction|].
        intros _. split; [reflexivity|].
        intros j Hj. apply Hsl. lia.
Qed.

(** C9: the interrupt dispatcher always ends by clearing and then
    re-enabling the device interrupt line.  When the aggregate
    block-complete status reads zero there is no dispatch (no callback, no
    mask write) and the machine is unchanged.  When it reads nonzero the
    loop visits the channels in ascending order: a channel whose slot, when
    the loop reaches it, is not Free and has a callback is dispatched (the
    write that masks its block-complete interrupt immediately followed by
    the call of that callback with that slot's argument); every other
    channel is passed over; so the dispatches are in strictly ascending
    channel order, at most one per channel. *)
Theorem irq_handler_dispatch (m : machine) :
  length (chan m) = DW_MAX_CHAN ->
  exists fired m',
    dw_dma_irq_handler P client m
    = (Ret tt, m',
       [ TracePoint 0x9999;
         IrqDisable (dma_irq P);
         IoRead (reg_addr P DW_STATUS_BLOCK)
           (regs m !!! reg_addr P DW_STATUS_BLOCK) ]
       ++ flat_map (dispatch_events P) fired
       ++ [ IrqClear (dma_irq P); IrqEnable (dma_irq P) ]) /\
    StronglySorted (fun a b => (f_chan a < f_chan b)%nat) fired /\
    Forall (fun f => (f_chan f < DW_MAX_CHAN)%nat /\ f_fn f <> 0) fired /\
    (regs m !!! reg_addr P DW_STATUS_BLOCK = 0 -> fired = [] /\ m' = m) /\
    (regs m !!! reg_addr P DW_STATUS_BLOCK <> 0 ->
     m' = machine_at P client fired m DW_MAX_CHAN /\
     forall j, (j < DW_MAX_CHAN)%nat ->
       exists c,
         chan (machine_at P client fired m j) !! j = Some c /\
         (In (mk_fired j (cb c) (cb_data c)) fired <->
          status c <> DMA_STATUS_FREE P /\ cb c <> 0) /\
         (forall f, In f fired -> f_chan f = j ->
                    f = mk_fired j (cb c) (cb_data c))).
Proof. exact (irq_handler_run m). Qed.

End IrqHandler.

(** ** Channel control: start *)

Section Start.

Variable P : dw_platform.

Lemma lli_head_null channel m c :
  chan m !! channel = Some c -> lli c = None ->
  lli_head channel m = (Undef NullDeref, m, []).
Proof.
  intros Hc Hnull. unfold lli_head.
  rewrite (bind_silent _ _ _ _ _ (get_chan_some _ _ _ Hc)), Hnull.
  reflexivity.
Qed.

(** C4 (as the code has it): [dw_dma_start] does not test the chain
    pointer.  On a channel whose chain is null its first action, the read of
    the head descriptor's source address, goes through the null pointer:
    the call leaves defined behaviour there, no error code is returned, and
    up to that point no register was written and the machine is unchanged. *)
Theorem start_null_chain_undefined (channel : nat) (m : machine)
    (c : dma_chan_data) :
  chan m !! channel = Some c ->
  lli c = None ->
  dw_dma_start P channel m = (Undef NullDeref, m, []).
Proof.
  intros Hc Hnull. unfold dw_dma_start.
  apply bind_undef. apply (lli_head_null channel m c Hc Hnull).
Qed.

End Start.

(** ** Drain poller *)

Section FifoWork.

Variable P : dw_platform.

Lemma fifo_work_scan_idle n :
  forall i schedule m,
    (forall j cj, chan m !! j = Some cj ->
                  Z.land (status cj) (DMA_STATUS_DRAINING P) = 0) ->
    (i + n)%nat = length (chan m) ->
    fifo_work_scan P n i schedule m = (Ret schedule, m, []).
Proof.
  induction n as [|n IH]; intros i schedule m Hnone Hlen.
  - reflexivity.
  - assert (Hi : (i < length (chan m))%nat) by lia.
    destruct (lookup_lt_is_Some_2 _ _ Hi) as [c Hc].
    cbn [fifo_work_scan].
    rewrite (bind_silent _ _ _ _ _ (get_chan_some _ _ _ Hc)).
    rewrite (Hnone i c Hc). cbn [Z.eqb].
    apply IH; [exact Hnone | lia].
Qed.

(** C5 (evaluation of the code): with no channel in Draining the poller
    touches no register and leaves the machine alone, but what it returns is
    decided by the initial content of its uninitialised local [schedule]:
    0 when that content is 0, and 1 (reschedule) otherwise. *)
Theorem fifo_work_no_draining (schedule0 : Z) (m : machine) :
  length (chan m) = DW_MAX_CHAN ->
  (forall j cj, chan m !! j = Some cj ->
                Z.land (status cj) (DMA_STATUS_DRAINING P) = 0) ->
  dw_dma_fifo_work P schedule0 m
  = (Ret (if schedule0 =? 0 then 0 else 1), m, []).
Proof.
  intros Hlen Hnone. unfold dw_dma_fifo_work.
  rewrite (bind_silent _ _ _ _ _
             (fifo_work_scan_idle DW_MAX_CHAN 0 schedule0 m Hnone
                (eq_sym Hlen))).
  destruct (schedule0 =? 0); reflexivity.
Qed.

End FifoWork.

(** ** Channel pool: release *)

Section ChannelPut.

Variable P : dw_platform.

(** C6 (evaluation of the code): release sets the slot's state to Free and
    clears its callback, and leaves the chain pointer as it was: a channel
    released with a chain attached is Free with that chain still attached. *)
Theorem channel_put_keeps_chain (channel : nat) (m : machine)
    (c : dma_chan_data) :
  chan m !! channel = Some c ->
  0 <= DMA_STATUS_FREE P < 256 ->
  exists c',
    dw_dma_channel_put P channel m
    = (Ret tt, mk_machine (<[channel := c']> (chan m)) (regs m), []) /\
    status c' = DMA_STATUS_FREE P /\
    cb c' = 0 /\
    lli c' = lli c.
Proof.
  intros Hc Hfree.
  exists (set_cb 0 (set_status (DMA_STATUS_FREE P) c)).
  split; [|repeat split].
  unfold dw_dma_channel_put.
  rewrite (bind_silent _ _ _ _ _ (upd_chan_some _ _ _ _ Hc)).
  unfold upd_chan. cbn [chan regs].
  rewrite list_lookup_insert_eq by (eapply lookup_lt_Some; exact Hc).
  rewrite list_insert_insert_eq, (u8_small _ Hfree). reflexivity.
Qed.

End ChannelPut.

(** ** Bit-field facts *)

Lemma testbit_above_u32 F n : 0 <= F < 2 ^ 32 -> 32 <= n -> Z.testbit F n = false.
Proof.
  intros HF Hn. destruct (Z.eq_dec F 0) as [->|Hnz].
  - apply Z.bits_0.
  - apply Z.bits_above_log2; [lia|].
    assert (Hlog : Z.log2 F < 32) by (apply Z.log2_lt_pow2; lia). lia.
Qed.

Lemma land_u32_l x F : 0 <= F < 2 ^ 32 -> Z.land (u32 x) F = Z.land x F.
Proof.
  intros HF. apply Z.bits_inj'. intros n Hn. rewrite !Z.land_spec.
  destruct (Z.lt_ge_cases n 32) as [Hlt|Hge].
  - unfold u32. rewrite Z.mod_pow2_bits_low by lia. reflexivity.
  - rewrite (testbit_above_u32 F n HF Hge), !andb_false_r. reflexivity.
Qed.

Lemma land_bit x F n : Z.land x F = F -> Z.testbit F n = true -> Z.testbit x n = true.
Proof.
  intros H HF. apply (f_equal (fun z => Z.testbit z n)) in H.
  rewrite Z.land_spec, HF, andb_true_r in H. exact H.
Qed.

Lemma disjoint_bit F L n : Z.land F L = 0 -> Z.testbit F n = true -> Z.testbit L n = false.
Proof.
  intros H HF. apply (f_equal (fun z => Z.testbit z n)) in H.
  rewrite Z.land_spec, HF, Z.bits_0 in H. exact H.
Qed.

Lemma flags_set_or_same F x : 0 <= F < 2 ^ 32 -> flags_set F (or_bits F x).
Proof.
  intros HF. unfold flags_set, or_bits. rewrite land_u32_l by exact HF.
  apply Z.bits_inj'. intros n Hn. rewrite Z.land_spec, Z.lor_spec.
  destruct (Z.testbit x n), (Z.testbit F n); reflexivity.
Qed.

Lemma flags_set_or_other F L x :
  0 <= F < 2 ^ 32 -> flags_set F x -> flags_set F (or_bits L x).
Proof.
  intros HF Hx. unfold flags_set, or_bits in *. rewrite land_u32_l by exact HF.
  apply Z.bits_inj'. intros n Hn. rewrite Z.land_spec, Z.lor_spec.
  destruct (Z.testbit F n) eqn:HFn; [|apply andb_false_r].
  rewrite (land_bit x F n Hx HFn). reflexivity.
Qed.

Lemma flags_set_clear_other F L x :
  0 <= F < 2 ^ 32 -> Z.land F L = 0 -> flags_set F x ->
  flags_set F (clear_bits L x).
Proof.
  intros HF Hdis Hx. unfold flags_set, clear_bits in *.
  rewrite land_u32_l by exact HF.
  apply Z.bits_inj'. intros n Hn. rewrite !Z.land_spec, Z.lnot_spec by exact Hn.
  destruct (Z.testbit F n) eqn:HFn; [|apply andb_false_r].
  rewrite (land_bit x F n Hx HFn), (disjoint_bit F L n Hdis HFn). reflexivity.
Qed.

Lemma flags_set_or_left S D x : 0 <= S < 2 ^ 32 -> flags_set S (or_bits (Z.lor S D) x).
Proof.
  intros HS. unfold flags_set, or_bits. rewrite land_u32_l by exact HS.
  apply Z.bits_inj'. intros n Hn. rewrite Z.land_spec, !Z.lor_spec.
  destruct (Z.testbit x n), (Z.testbit S n), (Z.testbit D n); reflexivity.
Qed.

Lemma flags_set_or_right S D x : 0 <= D < 2 ^ 32 -> flags_set D (or_bits (Z.lor S D) x).
Proof.
  intros HD. unfold flags_set, or_bits. rewrite land_u32_l by exact HD.
  apply Z.bits_inj'. intros n Hn. rewrite Z.land_spec, !Z.lor_spec.
  destruct (Z.testbit x n), (Z.testbit S n), (Z.testbit D n); reflexivity.
Qed.

Lemma flags_clear_clear_left S D x :
  0 <= S < 2 ^ 32 -> flags_clear S (clear_bits (Z.lor S D) x).
Proof.
  intros HS. unfold flags_clear, clear_bits. rewrite land_u32_l by exact HS.
  apply Z.bits_inj'. intros n Hn.
  rewrite !Z.land_spec, Z.lnot_spec, Z.lor_spec, Z.bits_0 by exact Hn.
  destruct (Z.testbit x n), (Z.testbit S n), (Z.testbit D n); reflexivity.
Qed.

Lemma flags_clear_clear_right S D x :
  0 <= D < 2 ^ 32 -> flags_clear D (clear_bits (Z.lor S D) x).
Proof.
  intros HD. unfold flags_clear, clear_bits. rewrite land_u32_l by exact HD.
  apply Z.bits_inj'. intros n Hn.
  rewrite !Z.land_spec, Z.lnot_spec, Z.lor_spec, Z.bits_0 by exact Hn.
  destruct (Z.testbit x n), (Z.testbit S n), (Z.testbit D n); reflexivity.
Qed.

(** ** Descriptor chain builder: running the code on a slot *)

Lemma set_desc_count_eta c v :
  v = desc_count c -> set_desc_count v c = c.
Proof. intros ->. destruct c. reflexivity. Qed.

Lemma count_elems_run elems :
  forall c,
    desc_count c + Z.of_nat (length elems) <= INT_MAX ->
    count_elems elems c
    = (Ret tt, set_desc_count (desc_count c + Z.of_nat (length elems)) c, []).
Proof.
  induction elems as [|e rest IH]; intros c Hmax.
  - cbn [count_elems length]. unfold ret.
    rewrite set_desc_count_eta by (cbn; lia). reflexivity.
  - cbn [count_elems length] in *.
    assert (Hget : @get dma_chan_data c = (Ret c, c, [])) by reflexivity.
    rewrite (bind_silent _ _ _ _ _ Hget).
    destruct (Z.leb_spec INT_MAX (desc_count c)) as [Hle|Hlt]; [lia|].
    assert (Hmod : modify (set_desc_count (desc_count c + 1)) c
                   = (Ret tt, set_desc_count (desc_count c + 1) c, []))
      by reflexivity.
    rewrite (bind_silent _ _ _ _ _ Hmod), IH by (cbn; lia).
    destruct c. unfold set_desc_count.
    cbn [desc_count status lli cfg_lo cfg_hi cb cb_data].
    rewrite Nat2Z.inj_succ.
    replace (desc_count0 + 1 + Z.of_nat (length rest))
      with (desc_count0 + Z.succ (Z.of_nat (length rest))) by lia.
    reflexivity.
Qed.

Lemma upd_desc_run k f st base cells dc cl ch fn fd d :
  cells !! k = Some d ->
  upd_desc k f (mk_chan st (Some (mk_block base cells)) dc cl ch fn fd)
  = (Ret tt,
     mk_chan st (Some (mk_block base (<[k := f d]> cells))) dc cl ch fn fd,
     []).
Proof. intros H. unfold upd_desc. cbn. rewrite H. reflexivity. Qed.

Lemma upd_desc_null k f c :
  lli c = None -> upd_desc k f c = (Undef NullDeref, c, []).
Proof. intros H. unfold upd_desc. rewrite H. reflexivity. Qed.

Section SetConfigRun.

Variable P : dw_platform.

Ltac desc_step :=
  erewrite bind_silent;
  [| apply upd_desc_run;
     first [ eassumption
           | apply list_lookup_insert_eq; rewrite ?length_insert;
             eapply lookup_lt_Some; eassumption ] ].

Lemma fill_lli_step k e rest st base cells dc cl ch fn fd d :
  cells !! k = Some d ->
  fill_lli P k (e :: rest)
    (mk_chan st (Some (mk_block base cells)) dc cl ch fn fd)
  = fill_lli P (S k) rest
      (mk_chan st
         (Some (mk_block base
                  (<[k := chain_desc P base k e (has_next rest) d]> cells)))
         dc
         (if has_next rest then cl
          else clear_bits
                 (Z.lor (DWC_CFGL_RELOAD_SAR P) (DWC_CFGL_RELOAD_DAR P)) cl)
         ch fn fd).
Proof.
  intros Hd. cbn [fill_lli]. do 2 desc_step.
  destruct rest as [|e' rest']; cbn [has_next].
  - erewrite (bind_silent (_ ;; _ ;; _)).
    + reflexivity.
    + do 2 desc_step. unfold modify, cfg_lo_clear, set_cfg_lo. cbn.
      rewrite !list_insert_insert_eq. reflexivity.
  - erewrite (bind_silent (_ <- get ;; _)).
    + reflexivity.
    + unfold bind at 1. cbn [get lli lli_base].
      desc_step.
      erewrite upd_desc_run
        by (apply list_lookup_insert_eq; rewrite ?length_insert;
            eapply lookup_lt_Some; eassumption).
      rewrite !list_insert_insert_eq. reflexivity.
Qed.

Lemma fill_lli_spec elems :
  forall k st base cells dc cl ch fn fd,
    (k + length elems <= length cells)%nat ->
    exists cells',
      fill_lli P k elems
        (mk_chan st (Some (mk_block base cells)) dc cl ch fn fd)
      = (Ret tt,
         mk_chan st (Some (mk_block base cells')) dc
           (if has_next elems
            then clear_bits
                   (Z.lor (DWC_CFGL_RELOAD_SAR P) (DWC_CFGL_RELOAD_DAR P)) cl
            else cl)
           ch fn fd,
         []) /\
      length cells' = length cells /\
      (forall j, (j < k \/ k + length elems <= j)%nat ->
                 cells' !! j = cells !! j) /\
      (forall j e, elems !! j = Some e ->
         exists d,
           cells !! (k + j)%nat = Some d /\
           cells' !! (k + j)%nat
           = Some (chain_desc P base (k + j) e
                     (has_next (drop (S j) elems)) d)).
Proof.
  induction elems as [|e rest IH]; intros k st base cells dc cl ch fn fd Hlen.
  - exists cells. repeat split; try reflexivity.
    intros j e He. rewrite lookup_nil in He. discriminate.
  - cbn [length] in Hlen.
    assert (Hk : (k < length cells)%nat) by lia.
    destruct (lookup_lt_is_Some_2 _ _ Hk) as [d Hd].
    rewrite (fill_lli_step k e rest st base cells dc cl ch fn fd d Hd).
    set (cells1 := <[k := chain_desc P base k e (has_next rest) d]> cells).
    assert (Hlen1 : length cells1 = length cells) by apply length_insert.
    destruct (IH (S k) st base cells1 dc
                (if has_next rest then cl
                 else clear_bits
                        (Z.lor (DWC_CFGL_RELOAD_SAR P) (DWC_CFGL_RELOAD_DAR P)) cl)
                ch fn fd)
      as (cells' & Hrun & Hlen' & Hout & Hin); [lia|].
    exists cells'. split; [|split; [|split]].
    + rewrite Hrun. cbn [has_next]. destruct rest; reflexivity.
    + lia.
    + intros j Hj. rewrite Hout by (cbn [length] in Hj; lia).
      apply list_lookup_insert_ne. cbn [length] in Hj. lia.
    + intros j e0 He0. destruct j as [|j].
      * cbn in He0. injection He0 as <-. exists d.
        rewrite Nat.add_0_r. split; [exact Hd|].
        rewrite Hout by lia. cbn [drop].
        apply list_lookup_insert_eq. exact Hk.
      * cbn [lookup list_lookup] in He0.
        destruct (Hin j e0 He0) as (d' & Hd' & Hres).
        exists d'. rewrite Nat.add_succ_r. cbn [drop]. split; [|exact Hres].
        rewrite <- Hd'. symmetry. apply list_lookup_insert_ne. lia.
Qed.

Lemma config_direction_run dir st base d0 tl dc cl ch fn fd :
  exists d0' ch',
    config_direction P dir
      (mk_chan st (Some (mk_block base (d0 :: tl))) dc cl ch fn fd)
    = (Ret tt,
       mk_chan st (Some (mk_block base (d0' :: tl))) dc cl ch' fn fd, []) /\
    (dir = DMA_DIR_MEM_TO_DEV P -> dir <> DMA_DIR_MEM_TO_MEM P ->
     d0' = ctrl_lo_or (Z.lor (DWC_CTLL_SRC_INC P) (DWC_CTLL_DST_FIX P)) d0).
Proof.
  unfold config_direction.
  destruct (Z.eqb_spec dir (DMA_DIR_MEM_TO_MEM P)) as [H1|H1].
  { eexists _, _. split; [reflexivity | intros; contradiction]. }
  destruct (Z.eqb_spec dir (DMA_DIR_MEM_TO_DEV P)) as [H2|H2].
  { eexists _, _. split; [reflexivity | intros; reflexivity]. }
  destruct (Z.eqb_spec dir (DMA_DIR_DEV_TO_MEM P)) as [H3|H3].
  { eexists _, _. split; [reflexivity | intros; contradiction]. }
  destruct (Z.eqb_spec dir (DMA_DIR_DEV_TO_DEV P)) as [H4|H4].
  { eexists _, _. split; [reflexivity | intros; contradiction]. }
  exists d0, ch. split; [reflexivity | intros; contradiction].
Qed.

(** A successful run of [set_config_chan]: the allocator returned a block
    with at least one cell and room for every segment. *)
Lemma set_config_chan_run rmalloc config st l0 dc cl ch fn fd base d0 tl :
  dc + Z.of_nat (length (elem_list config)) <= INT_MAX ->
  rmalloc (u32 (lli_size P * (dc + Z.of_nat (length (elem_list config)))))
  = Some (mk_block base (d0 :: tl)) ->
  (length (elem_list config) <= S (length tl))%nat ->
  exists d0' ch' cells',
    set_config_chan P rmalloc config (mk_chan st l0 dc cl ch fn fd)
    = (Ret 0,
       mk_chan st (Some (mk_block base cells'))
         (dc + Z.of_nat (length (elem_list config)))
         (if has_next (elem_list config)
          then clear_bits
                 (Z.lor (DWC_CFGL_RELOAD_SAR P) (DWC_CFGL_RELOAD_DAR P)) cl
          else cl)
         ch' fn fd,
       [Rmalloc (u32 (lli_size P * (dc + Z.of_nat (length (elem_list config)))))])
    /\
    (direction config = DMA_DIR_MEM_TO_DEV P ->
     direction config <> DMA_DIR_MEM_TO_MEM P ->
     exists x,
       ctrl_lo d0'
       = or_bits (Z.lor (DWC_CTLL_SRC_INC P) (DWC_CTLL_DST_FIX P)) x) /\
    length cells' = S (length tl) /\
    (forall j, (length (elem_list config) <= j)%nat ->
               cells' !! j = (d0' :: tl) !! j) /\
    (forall j e, elem_list config !! j = Some e ->
       exists d,
         (d0' :: tl) !! j = Some d /\
         cells' !! j
         = Some (chain_desc P base j e
                   (has_next (drop (S j) (elem_list config))) d)).
Proof.
  intros Hmax Halloc Hroom. unfold set_config_chan.
  rewrite (bind_silent _ _ _ _ _
             (count_elems_run (elem_list config) (mk_chan st l0 dc cl ch fn fd) Hmax)).
  unfold set_desc_count at 1. cbn [status lli desc_count cfg_lo cfg_hi cb cb_data].
  unfold bind at 1. cbn [get desc_count].
  unfold bind at 1. cbn [emit].
  unfold bind at 1. cbn [modify]. rewrite Halloc.
  unfold set_lli. cbn [status lli desc_count cfg_lo cfg_hi cb cb_data].
  do 5 (erewrite bind_silent by (apply upd_desc_run; reflexivity);
        cbn [insert list_insert]).
  match goal with
  | |- context [mk_block base (?d :: tl)] =>
      destruct (config_direction_run (direction config) st base d tl
                  (dc + Z.of_nat (length (elem_list config))) cl ch fn fd)
        as (d1 & ch' & Hdir & Hflag)
  end.
  rewrite (bind_silent _ _ _ _ _ Hdir).
  erewrite bind_silent by (apply upd_desc_run; reflexivity).
  cbn [insert list_insert].
  destruct (fill_lli_spec (elem_list config) 0 st base
              (ctrl_hi_clear (DWC_CTLH_DONE P) d1 :: tl)
              (dc + Z.of_nat (length (elem_list config))) cl ch' fn fd)
    as (cells' & Hrun & Hlen' & Hout & Hin); [cbn [length]; lia|].
  rewrite (bind_silent _ _ _ _ _ Hrun).
  exists (ctrl_hi_clear (DWC_CTLH_DONE P) d1), ch', cells'.
  split; [reflexivity|].
  split.
  { intros Hd Hnm. specialize (Hflag Hd Hnm). subst d1.
    eexists. reflexivity. }
  split; [exact Hlen'|].
  split.
  { intros j Hj. apply Hout. right. lia. }
  intros j e He. destruct (Hin j e He) as (d & Hd & Hres).
  exists d. split; [exact Hd | exact Hres].
Qed.

(** Allocation failure: the null pointer is stored and then dereferenced. *)
Lemma set_config_chan_null rmalloc config c :
  desc_count c + Z.of_nat (length (elem_list config)) <= INT_MAX ->
  rmalloc (u32 (lli_size P
                * (desc_count c + Z.of_nat (length (elem_list config)))))
  = None ->
  set_config_chan P rmalloc config c
  = (Undef NullDeref,
     set_lli None
       (set_desc_count
          (desc_count c + Z.of_nat (length (elem_list config))) c),
     [Rmalloc (u32 (lli_size P
                    * (desc_count c + Z.of_nat (length (elem_list config)))))]).
Proof.
  intros Hmax Halloc. unfold set_config_chan.
  rewrite (bind_silent _ _ _ _ _ (count_elems_run (elem_list config) c Hmax)).
  unfold bind at 1. cbn [get].
  unfold bind at 1. cbn [emit].
  unfold bind at 1. cbn [modify].
  replace (desc_count (set_desc_count _ c))
    with (desc_count c + Z.of_nat (length (elem_list config))) by reflexivity.
  rewrite Halloc.
  erewrite bind_undef by (apply upd_desc_null; reflexivity).
  reflexivity.
Qed.

End SetConfigRun.

(** ** Descriptor chain builder: what every run does *)

Section Quiet.

Context {A B : Type}.

Lemma quiet_bind (x : M dma_chan_data A) (f : A -> M dma_chan_data B) :
  quiet x -> (forall a, quiet (f a)) -> quiet (bind x f).
Proof.
  intros Hx Hf c. unfold bind. specialize (Hx c).
  destruct (x c) as [[r c1] t1]. cbn [fst snd] in Hx. destruct Hx as [-> Hc1].
  destruct r as [a|u].
  - specialize (Hf a c1). destruct (f a c1) as [[r2 c2] t2].
    cbn [fst snd] in *. destruct Hf as [-> Hc2]. split; [reflexivity|lia].
  - cbn [fst snd]. split; [reflexivity|exact Hc1].
Qed.

End Quiet.

Lemma quiet_ret {A} (a : A) : quiet (ret a).
Proof. intros c. split; reflexivity. Qed.

Lemma quiet_undef {A} u : quiet (@undef dma_chan_data A u).
Proof. intros c. split; reflexivity. Qed.

Lemma quiet_get : quiet (@get dma_chan_data).
Proof. intros c. split; reflexivity. Qed.

Lemma quiet_modify f :
  (forall c, desc_count (f c) = desc_count c) -> quiet (modify f).
Proof. intros Hf c. split; [reflexivity | apply Hf]. Qed.

Lemma quiet_upd_desc k f : quiet (upd_desc k f).
Proof.
  intros c. unfold upd_desc. destruct (lli c) as [b|]; [|split; reflexivity].
  destruct (lli_cells b !! k); split; reflexivity.
Qed.

Section SetConfigAlways.

Variable P : dw_platform.

Lemma quiet_fill_lli elems : forall k, quiet (fill_lli P k elems).
Proof.
  induction elems as [|e rest IH]; intros k; cbn [fill_lli].
  - apply quiet_ret.
  - apply quiet_bind; [apply quiet_upd_desc | intros _].
    apply quiet_bind; [apply quiet_upd_desc | intros _].
    apply quiet_bind; [|intros _; apply IH].
    destruct rest as [|e' rest'].
    + apply quiet_bind; [apply quiet_upd_desc | intros _].
      apply quiet_bind; [apply quiet_upd_desc | intros _].
      apply quiet_modify. reflexivity.
    + apply quiet_bind; [apply quiet_get | intros c].
      destruct (lli c) as [b|]; [|apply quiet_undef].
      apply quiet_bind; [apply quiet_upd_desc | intros _].
      apply quiet_upd_desc.
Qed.

Lemma quiet_config_direction dir : quiet (config_direction P dir).
Proof.
  unfold config_direction.
  repeat match goal with
         | |- quiet (if ?b then _ else _) => destruct b
         | |- quiet (bind _ _) => apply quiet_bind; [|intros _]
         | |- quiet (upd_desc _ _) => apply quiet_upd_desc
         | |- quiet (modify _) => apply quiet_modify; reflexivity
         | |- quiet (ret _) => apply quiet_ret
         end.
Qed.

(** Whatever the allocator answers and however the call ends, the only
    event is the allocation request for [desc_count + N] descriptors, and
    the slot's descriptor count ends at [desc_count + N]. *)
Lemma set_config_chan_always rmalloc config c :
  desc_count c + Z.of_nat (length (elem_list config)) <= INT_MAX ->
  exists r c',
    set_config_chan P rmalloc config c
    = (r, c',
       [Rmalloc (u32 (lli_size P
                      * (desc_count c + Z.of_nat (length (elem_list config)))))])
    /\ desc_count c' = desc_count c + Z.of_nat (length (elem_list config)).
Proof.
  intros Hmax. unfold set_config_chan.
  rewrite (bind_silent _ _ _ _ _ (count_elems_run (elem_list config) c Hmax)).
  unfold bind at 1. cbn [get].
  unfold bind at 1. cbn [emit].
  replace (desc_count (set_desc_count _ c))
    with (desc_count c + Z.of_nat (length (elem_list config))) by reflexivity.
  match goal with
  | |- context [match ?x ?s with _ => _ end] =>
      assert (Hq : quiet x); [|specialize (Hq s); destruct (x s) as [[r c'] t]]
  end.
  { apply quiet_bind; [apply quiet_modify; reflexivity | intros _].
    do 5 (apply quiet_bind; [apply quiet_upd_desc | intros _]).
    apply quiet_bind; [apply quiet_config_direction | intros _].
    apply quiet_bind; [apply quiet_upd_desc | intros _].
    apply quiet_bind; [apply quiet_fill_lli | intros _].
    apply quiet_ret. }
  cbn [fst snd] in Hq. destruct Hq as [-> Hcount].
  exists r, c'. split; [reflexivity | exact Hcount].
Qed.

End SetConfigAlways.

Lemma on_chan_run {A} channel (f : M dma_chan_data A) m c r c' t :
  chan m !! channel = Some c ->
  f c = (r, c', t) ->
  on_chan channel f m
  = (r, mk_machine (<[channel := c']> (chan m)) (regs m), t).
Proof. intros Hc Hf. unfold on_chan. rewrite Hc, Hf. reflexivity. Qed.

Lemma has_next_drop (elems : list dma_sg_elem) n :
  has_next (drop n elems) = true <-> (n < length elems)%nat.
Proof.
  pose proof (length_drop elems n) as Hlen.
  destruct (drop n elems) as [|e rest]; cbn [has_next length] in *.
  - split; [discriminate | lia].
  - split; [lia | reflexivity].
Qed.

Lemma lli_chain_prefix cells :
  forall N,
    (1 <= N <= length cells)%nat ->
    (forall i d, (S i < N)%nat -> cells !! i = Some d -> llp d <> 0) ->
    (forall d, cells !! (N - 1)%nat = Some d -> llp d = 0) ->
    lli_chain cells = take N cells.
Proof.
  induction cells as [|d rest IH]; intros N HN Hlink Hlast.
  - cbn [length] in HN. lia.
  - destruct N as [|N']; [lia|]. cbn [lli_chain take].
    destruct N' as [|N''].
    + rewrite (Hlast d) by reflexivity. reflexivity.
    + assert (Hd : llp d <> 0) by (apply (Hlink 0%nat d); [lia | reflexivity]).
      apply Z.eqb_neq in Hd. rewrite Hd. f_equal.
      apply IH.
      * cbn [length] in HN. lia.
      * intros i d' Hi Hd'. apply (Hlink (S i) d'); [lia | exact Hd'].
      * intros d' Hd'. apply Hlast.
        replace (S (S N'') - 1)%nat with (S (S N'' - 1)) by lia. exact Hd'.
Qed.

(** ** Descriptor chain builder: the chain *)

Section SetConfig.

Variable P : dw_platform.

Lemma desc_addr_nonzero base k len :
  0 < base -> 0 < lli_size P ->
  base + Z.of_nat len * lli_size P <= 2 ^ 32 ->
  (k < len)%nat ->
  desc_addr P base k <> 0.
Proof.
  intros Hbase Hsz Hfit Hk. unfold desc_addr, u32.
  assert (Hlt : Z.of_nat k * lli_size P < Z.of_nat len * lli_size P)
    by (apply Z.mul_lt_mono_pos_r; lia).
  assert (Hge : 0 <= Z.of_nat k * lli_size P) by (apply Z.mul_nonneg_nonneg; lia).
  rewrite Z.mod_small by lia. lia.
Qed.

(** What [chain_desc] leaves in a descriptor that has a successor, and in
    the last one. *)
Lemma chain_desc_fields base k e nx d :
  0 <= DWC_CTLL_LLP_S_EN P < 2 ^ 32 ->
  0 <= DWC_CTLL_LLP_D_EN P < 2 ^ 32 ->
  sar (chain_desc P base k e nx d) = u32 (src e) /\
  dar (chain_desc P base k e nx d) = u32 (dest e) /\
  (nx = true ->
   llp (chain_desc P base k e nx d) = desc_addr P base (S k) /\
   flags_set (DWC_CTLL_LLP_S_EN P) (ctrl_lo (chain_desc P base k e nx d)) /\
   flags_set (DWC_CTLL_LLP_D_EN P) (ctrl_lo (chain_desc P base k e nx d))) /\
  (nx = false ->
   llp (chain_desc P base k e nx d) = 0 /\
   flags_clear (DWC_CTLL_LLP_S_EN P) (ctrl_lo (chain_desc P base k e nx d)) /\
   flags_clear (DWC_CTLL_LLP_D_EN P) (ctrl_lo (chain_desc P base k e nx d))).
Proof.
  intros HS HD. unfold chain_desc. destruct nx; cbn zeta.
  - repeat split; try discriminate.
    + apply flags_set_or_left. exact HS.
    + apply flags_set_or_right. exact HD.
  - repeat split; try discriminate.
    + apply flags_clear_clear_left. exact HS.
    + apply flags_clear_clear_right. exact HD.
Qed.

(** C2: for a request of N >= 1 segments, set_config leaves on the channel
    a chain of exactly N descriptors, descriptor i carrying the addresses of
    segment i; every descriptor but the last links to the address of the
    next descriptor and has both link-chain-enable flags set; the last has
    link pointer 0 and both flags cleared. *)
Theorem set_config_builds_chain (rmalloc : Z -> option lli_block)
    (channel : nat) (config : dma_sg_config) (m : machine)
    (c : dma_chan_data) (b : lli_block) :
  chan m !! channel = Some c ->
  elem_list config <> [] ->
  desc_count c + Z.of_nat (length (elem_list config)) <= INT_MAX ->
  rmalloc (u32 (lli_size P
                * (desc_count c + Z.of_nat (length (elem_list config)))))
  = Some b ->
  (length (elem_list config) <= length (lli_cells b))%nat ->
  0 < lli_base b ->
  0 < lli_size P ->
  lli_base b + Z.of_nat (length (lli_cells b)) * lli_size P <= 2 ^ 32 ->
  0 <= DWC_CTLL_LLP_S_EN P < 2 ^ 32 ->
  0 <= DWC_CTLL_LLP_D_EN P < 2 ^ 32 ->
  exists c' cells',
    dw_dma_set_config P rmalloc channel config m
    = (Ret 0, mk_machine (<[channel := c']> (chan m)) (regs m),
       [Rmalloc (u32 (lli_size P
                      * (desc_count c + Z.of_nat (length (elem_list config)))))])
    /\
    lli c' = Some (mk_block (lli_base b) cells') /\
    lli_chain cells' = take (length (elem_list config)) cells' /\
    length (lli_chain cells') = length (elem_list config) /\
    (forall i e, elem_list config !! i = Some e ->
       exists d,
         cells' !! i = Some d /\
         sar d = u32 (src e) /\
         dar d = u32 (dest e) /\
         ((S i < length (elem_list config))%nat ->
          llp d = desc_addr P (lli_base b) (S i) /\
          flags_set (DWC_CTLL_LLP_S_EN P) (ctrl_lo d) /\
          flags_set (DWC_CTLL_LLP_D_EN P) (ctrl_lo d)) /\
         (S i = length (elem_list config) ->
          llp d = 0 /\
          flags_clear (DWC_CTLL_LLP_S_EN P) (ctrl_lo d) /\
          flags_clear (DWC_CTLL_LLP_D_EN P) (ctrl_lo d))).
Proof.
  intros Hc Hne Hmax Halloc Hroom Hbase Hsz Hfit HS HD.
  destruct c as [st l0 dc cl ch fn fd]. destruct b as [base cells].
  cbn [desc_count lli_base lli_cells] in *.
  assert (HN : (1 <= length (elem_list config))%nat).
  { destruct (elem_list config); [contradiction | cbn [length]; lia]. }
  destruct cells as [|d0 tl]; [cbn [length] in Hroom; lia|].
  cbn [length] in Hroom.
  destruct (set_config_chan_run P rmalloc config st l0 dc cl ch fn fd base d0 tl
              Hmax Halloc Hroom)
    as (d0' & ch' & cells' & Hrun & _ & Hlen & _ & Hin).
  assert (Hdesc : forall i e, elem_list config !! i = Some e ->
    exists d,
      cells' !! i = Some d /\
      sar d = u32 (src e) /\
      dar d = u32 (dest e) /\
      ((S i < length (elem_list config))%nat ->
       llp d = desc_addr P base (S i) /\
       flags_set (DWC_CTLL_LLP_S_EN P) (ctrl_lo d) /\
       flags_set (DWC_CTLL_LLP_D_EN P) (ctrl_lo d)) /\
      (S i = length (elem_list config) ->
       llp d = 0 /\
       flags_clear (DWC_CTLL_LLP_S_EN P) (ctrl_lo d) /\
       flags_clear (DWC_CTLL_LLP_D_EN P) (ctrl_lo d))).
  { intros i e He. destruct (Hin i e He) as (d & _ & Hres).
    eexists. split; [exact Hres|].
    destruct (chain_desc_fields base i e
                (has_next (drop (S i) (elem_list config))) d HS HD)
      as (Hsar & Hdar & Hnext & Hlast).
    split; [exact Hsar|]. split; [exact Hdar|]. split.
    - intros Hi. apply Hnext. apply has_next_drop. exact Hi.
    - intros Hi. apply Hlast.
      destruct (has_next (drop (S i) (elem_list config))) eqn:Hnx;
        [|reflexivity].
      apply has_next_drop in Hnx. lia. }
  assert (Hchain : lli_chain cells' = take (length (elem_list config)) cells').
  { apply lli_chain_prefix.
    - lia.
    - intros i d Hi Hd.
      assert (Hi' : (i < length (elem_list config))%nat) by lia.
      destruct (lookup_lt_is_Some_2 _ _ Hi') as [e He].
      destruct (Hdesc i e He) as (d' & Hd' & _ & _ & Hnext & _).
      rewrite Hd in Hd'. injection Hd' as <-.
      destruct (Hnext Hi) as [-> _].
      apply (desc_addr_nonzero base (S i) (length (d0 :: tl)));
        try assumption.
      cbn [length]. lia.
    - intros d Hd.
      assert (Hi' : (length (elem_list config) - 1 < length (elem_list config))%nat)
        by lia.
      destruct (lookup_lt_is_Some_2 _ _ Hi') as [e He].
      destruct (Hdesc _ e He) as (d' & Hd' & _ & _ & _ & Hlast).
      rewrite Hd in Hd'. injection Hd' as <-.
      apply Hlast. lia. }
  eexists _, cells'. split.
  { unfold dw_dma_set_config. apply (on_chan_run _ _ _ _ _ _ _ Hc Hrun). }
  split; [reflexivity|].
  split; [exact Hchain|].
  split; [|exact Hdesc].
  rewrite Hchain, length_take. lia.
Qed.

(** C7 (as the code has it): [dw_dma_set_config] does not test what the
    allocator returned and has no error return.  When the allocation fails
    the channel's chain pointer is null (no partial chain is attached), its
    descriptor count stays increased by the segment count, and the call then
    leaves defined behaviour by storing through the null pointer. *)
Theorem set_config_alloc_failure_undefined (rmalloc : Z -> option lli_block)
    (channel : nat) (config : dma_sg_config) (m : machine)
    (c : dma_chan_data) :
  chan m !! channel = Some c ->
  desc_count c + Z.of_nat (length (elem_list config)) <= INT_MAX ->
  rmalloc (u32 (lli_size P
                * (desc_count c + Z.of_nat (length (elem_list config)))))
  = None ->
  dw_dma_set_config P rmalloc channel config m
  = (Undef NullDeref,
     mk_machine
       (<[channel :=
            set_lli None
              (set_desc_count
                 (desc_count c + Z.of_nat (length (elem_list config))) c)]>
          (chan m))
       (regs m),
     [Rmalloc (u32 (lli_size P
                    * (desc_count c + Z.of_nat (length (elem_list config)))))]).
Proof.
  intros Hc Hmax Halloc. unfold dw_dma_set_config.
  apply (on_chan_run _ _ _ _ _ _ _ Hc
           (set_config_chan_null P rmalloc config c Hmax Halloc)).
Qed.

(** C10: set_config adds the request's segment count to the channel's
    descriptor count without resetting it, and asks the allocator for that
    many descriptors: a call with N1 segments on a channel whose count was
    [desc_count c] requests [desc_count c + N1] descriptors, which is N1
    exactly when the count was zero; a following call with N2 segments on
    the same channel requests [desc_count c + N1 + N2] descriptors (N1 + N2
    on a freshly probed channel). *)
Theorem set_config_count_accumulates (rmalloc1 rmalloc2 : Z -> option lli_block)
    (channel : nat) (config1 config2 : dma_sg_config) (m : machine)
    (c : dma_chan_data) :
  chan m !! channel = Some c ->
  desc_count c + Z.of_nat (length (elem_list config1))
  + Z.of_nat (length (elem_list config2)) <= INT_MAX ->
  exists r1 m1 c1,
    dw_dma_set_config P rmalloc1 channel config1 m
    = (r1, m1,
       [Rmalloc (u32 (lli_size P
                      * (desc_count c + Z.of_nat (length (elem_list config1)))))])
    /\
    chan m1 !! channel = Some c1 /\
    desc_count c1 = desc_count c + Z.of_nat (length (elem_list config1)) /\
    (desc_count c1 = Z.of_nat (length (elem_list config1)) <-> desc_count c = 0) /\
    exists r2 m2 c2,
      dw_dma_set_config P rmalloc2 channel config2 m1
      = (r2, m2,
         [Rmalloc (u32 (lli_size P
                        * (desc_count c + Z.of_nat (length (elem_list config1))
                           + Z.of_nat (length (elem_list config2)))))])
      /\
      chan m2 !! channel = Some c2 /\
      desc_count c2
      = desc_count c + Z.of_nat (length (elem_list config1))
        + Z.of_nat (length (elem_list config2)) /\
      (desc_count c = 0 ->
       desc_count c2
       = Z.of_nat (length (elem_list config1))
         + Z.of_nat (length (elem_list config2))).
Proof.
  intros Hc Hmax.
  assert (Hlt : (channel < length (chan m))%nat)
    by (eapply lookup_lt_Some; exact Hc).
  destruct (set_config_chan_always P rmalloc1 config1 c) as (r1 & c1 & Hrun1 & Hcnt1);
    [lia|].
  set (m1 := mk_machine (<[channel := c1]> (chan m)) (regs m)).
  assert (Hc1 : chan m1 !! channel = Some c1).
  { unfold m1. cbn [chan]. apply list_lookup_insert_eq. exact Hlt. }
  destruct (set_config_chan_always P rmalloc2 config2 c1) as (r2 & c2 & Hrun2 & Hcnt2);
    [lia|].
  exists r1, m1, c1. split.
  { unfold dw_dma_set_config. apply (on_chan_run _ _ _ _ _ _ _ Hc Hrun1). }
  split; [exact Hc1|]. split; [exact Hcnt1|]. split; [lia|].
  exists r2, (mk_machine (<[channel := c2]> (chan m1)) (regs m1)), c2.
  split.
  { unfold dw_dma_set_config. rewrite <- Hcnt1.
    apply (on_chan_run _ _ _ _ _ _ _ Hc1 Hrun2). }
  split.
  { cbn [chan]. apply list_lookup_insert_eq. unfold m1. cbn [chan].
    rewrite length_insert. exact Hlt. }
  split; [lia | intros Hz; lia].
Qed.

Lemma chain_desc_ctrl_lo base k e nx d :
  ctrl_lo (chain_desc P base k e nx d)
  = if nx
    then or_bits (Z.lor (DWC_CTLL_LLP_S_EN P) (DWC_CTLL_LLP_D_EN P)) (ctrl_lo d)
    else clear_bits (Z.lor (DWC_CTLL_LLP_S_EN P) (DWC_CTLL_LLP_D_EN P)) (ctrl_lo d).
Proof. unfold chain_desc. destruct nx; reflexivity. Qed.

(** C3 (as the code has it): for a mem-to-device request of N >= 1
    segments the first descriptor of the chain has the source-increment and
    destination-fixed flags set in its control-low word.  The control-low
    word of every later descriptor is what the allocated memory held, with
    only the link-chain-enable flags set (a successor exists) or cleared
    (last descriptor). *)
Theorem set_config_mem_to_dev_head (rmalloc : Z -> option lli_block)
    (channel : nat) (config : dma_sg_config) (m : machine)
    (c : dma_chan_data) (b : lli_block) :
  chan m !! channel = Some c ->
  elem_list config <> [] ->
  direction config = DMA_DIR_MEM_TO_DEV P ->
  DMA_DIR_MEM_TO_DEV P <> DMA_DIR_MEM_TO_MEM P ->
  desc_count c + Z.of_nat (length (elem_list config)) <= INT_MAX ->
  rmalloc (u32 (lli_size P
                * (desc_count c + Z.of_nat (length (elem_list config)))))
  = Some b ->
  (length (elem_list config) <= length (lli_cells b))%nat ->
  0 <= Z.lor (DWC_CTLL_SRC_INC P) (DWC_CTLL_DST_FIX P) < 2 ^ 32 ->
  Z.land (Z.lor (DWC_CTLL_SRC_INC P) (DWC_CTLL_DST_FIX P))
         (Z.lor (DWC_CTLL_LLP_S_EN P) (DWC_CTLL_LLP_D_EN P)) = 0 ->
  exists c' cells',
    dw_dma_set_config P rmalloc channel config m
    = (Ret 0, mk_machine (<[channel := c']> (chan m)) (regs m),
       [Rmalloc (u32 (lli_size P
                      * (desc_count c + Z.of_nat (length (elem_list config)))))])
    /\
    lli c' = Some (mk_block (lli_base b) cells') /\
    (exists d,
       cells' !! 0%nat = Some d /\
       flags_set (Z.lor (DWC_CTLL_SRC_INC P) (DWC_CTLL_DST_FIX P)) (ctrl_lo d)) /\
    (forall i, (1 <= i < length (elem_list config))%nat ->
       exists d0 d,
         lli_cells b !! i = Some d0 /\
         cells' !! i = Some d /\
         ((S i < length (elem_list config))%nat ->
          ctrl_lo d
          = or_bits (Z.lor (DWC_CTLL_LLP_S_EN P) (DWC_CTLL_LLP_D_EN P))
              (ctrl_lo d0)) /\
         (S i = length (elem_list config) ->
          ctrl_lo d
          = clear_bits (Z.lor (DWC_CTLL_LLP_S_EN P) (DWC_CTLL_LLP_D_EN P))
              (ctrl_lo d0))).
Proof.
  intros Hc Hne Hdir Hdistinct Hmax Halloc Hroom HF Hdisj.
  destruct c as [st l0 dc cl ch fn fd]. destruct b as [base cells].
  cbn [desc_count lli_base lli_cells] in *.
  assert (HN : (1 <= length (elem_list config))%nat).
  { destruct (elem_list config); [contradiction | cbn [length]; lia]. }
  destruct cells as [|d0 tl]; [cbn [length] in Hroom; lia|].
  cbn [length] in Hroom.
  destruct (set_config_chan_run P rmalloc config st l0 dc cl ch fn fd base d0 tl
              Hmax Halloc Hroom)
    as (d0' & ch' & cells' & Hrun & Hflag & Hlen & _ & Hin).
  destruct Hflag as [x Hx]; [exact Hdir | congruence |].
  eexists _, cells'. split.
  { unfold dw_dma_set_config. apply (on_chan_run _ _ _ _ _ _ _ Hc Hrun). }
  split; [reflexivity|]. split.
  - destruct (lookup_lt_is_Some_2 (elem_list config) 0%nat) as [e He]; [lia|].
    destruct (Hin 0%nat e He) as (d & Hd & Hres).
    cbn in Hd. injection Hd as <-.
    eexists. split; [exact Hres|].
    rewrite chain_desc_ctrl_lo, Hx.
    destruct (has_next (drop 1 (elem_list config))).
    + apply flags_set_or_other; [exact HF|].
      apply flags_set_or_same. exact HF.
    + apply flags_set_clear_other; [exact HF | exact Hdisj |].
      apply flags_set_or_same. exact HF.
  - intros i Hi.
    destruct (lookup_lt_is_Some_2 (elem_list config) i) as [e He]; [lia|].
    destruct (Hin i e He) as (d & Hd & Hres).
    destruct i as [|i']; [lia|]. cbn [lookup list_lookup] in Hd |- *.
    exists d. eexists. split; [exact Hd|]. split; [exact Hres|].
    rewrite chain_desc_ctrl_lo. split.
    + intros Hlt. apply has_next_drop in Hlt. rewrite Hlt. reflexivity.
    + intros Heq.
      destruct (has_next (drop (S (S i')) (elem_list config))) eqn:Hnx;
        [|reflexivity].
      apply has_next_drop in Hnx. lia.
Qed.

End SetConfig.

(** ** The statements on concrete inputs *)

(** Side conditions on concrete inputs are settled by evaluation. *)
Ltac by_eval :=
  first [ reflexivity
        | discriminate
        | (unfold INT_MAX; simpl; lia)
        | (simpl; lia)
        | (vm_compute; repeat split; first [reflexivity | discriminate]) ].

Lemma channel_get_first_free_witness :
  ((exists i c,
       chan busy_pool !! i = Some c /\
       status c = DMA_STATUS_FREE example_platform /\
       status c <> DMA_STATUS_DRAINING example_platform /\
       (forall j cj, (j < i)%nat -> chan busy_pool !! j = Some cj ->
                     status cj <> DMA_STATUS_FREE example_platform) /\
       dw_dma_channel_get example_platform busy_pool
       = (Ret (Z.of_nat i), claimed example_platform i c busy_pool,
          clear_writes example_platform i))
   \/
   (no_free_slot example_platform busy_pool /\
    dw_dma_channel_get example_platform busy_pool = (Ret (- ENODEV), busy_pool, [])))
  /\
  (fst (fst (dw_dma_channel_get example_platform busy_pool)) = Ret (- ENODEV)
   <-> no_free_slot example_platform busy_pool).
Proof.
  apply (channel_get_first_free example_platform);
    [simpl; lia | reflexivity | simpl; lia].
Defined.

Lemma stop_drain_suspend_bits_witness :
  exists after_stop after_drain,
    dw_dma_stop example_platform 1 busy_pool
    = (Ret 0,
       mk_machine
         (<[1%nat := set_status (DMA_STATUS_DRAINING example_platform) running_chan]>
            (chan busy_pool))
         (<[reg_addr example_platform (DW_CFG_LOW (Z.of_nat 1)) := after_stop]>
            (regs busy_pool)),
       [ IoRead (reg_addr example_platform (DW_CFG_LOW (Z.of_nat 1)))
           (regs busy_pool !!! reg_addr example_platform (DW_CFG_LOW (Z.of_nat 1)));
         IoWrite (reg_addr example_platform (DW_CFG_LOW (Z.of_nat 1))) after_stop;
         WorkSchedule 1 ]) /\
    (forall n, 0 <= n < 32 ->
       Z.testbit after_stop n
       = (n =? 8)
         || Z.testbit
              (regs busy_pool !!! reg_addr example_platform (DW_CFG_LOW (Z.of_nat 1)))
              n) /\
    dw_dma_drain example_platform 1 busy_pool
    = (Ret 0,
       mk_machine
         (<[1%nat := set_status (DMA_STATUS_DRAINING example_platform) running_chan]>
            (chan busy_pool))
         (<[reg_addr example_platform (DW_CFG_LOW (Z.of_nat 1)) := after_drain]>
            (regs busy_pool)),
       [ IoRead (reg_addr example_platform (DW_CFG_LOW (Z.of_nat 1)))
           (regs busy_pool !!! reg_addr example_platform (DW_CFG_LOW (Z.of_nat 1)));
         IoWrite (reg_addr example_platform (DW_CFG_LOW (Z.of_nat 1))) after_drain;
         WorkSchedule 1 ]) /\
    (forall n, 0 <= n < 32 ->
       Z.testbit after_drain n
       = (n =? 8) || (n =? 10)
         || Z.testbit
              (regs busy_pool !!! reg_addr example_platform (DW_CFG_LOW (Z.of_nat 1)))
              n) /\
    DW_CFG_CH_SUSPEND = 2 ^ 8 /\
    DW_CFG_CH_DRAIN = 2 ^ 10.
Proof.
  apply (stop_drain_suspend_bits example_platform 1 busy_pool running_chan);
    [reflexivity | simpl; lia].
Defined.

Lemma irq_handler_dispatch_witness :
  exists fired m',
    dw_dma_irq_handler example_platform rearm_client busy_pool
    = (Ret tt, m',
       [ TracePoint 0x9999;
         IrqDisable (dma_irq example_platform);
         IoRead (reg_addr example_platform DW_STATUS_BLOCK)
           (regs busy_pool !!! reg_addr example_platform DW_STATUS_BLOCK) ]
       ++ flat_map (dispatch_events example_platform) fired
       ++ [ IrqClear (dma_irq example_platform);
            IrqEnable (dma_irq example_platform) ]) /\
    StronglySorted (fun a b => (f_chan a < f_chan b)%nat) fired /\
    Forall (fun f => (f_chan f < DW_MAX_CHAN)%nat /\ f_fn f <> 0) fired /\
    (regs busy_pool !!! reg_addr example_platform DW_STATUS_BLOCK = 0 ->
     fired = [] /\ m' = busy_pool) /\
    (regs busy_pool !!! reg_addr example_platform DW_STATUS_BLOCK <> 0 ->
     m' = machine_at example_platform rearm_client fired busy_pool DW_MAX_CHAN /\
     forall j, (j < DW_MAX_CHAN)%nat ->
       exists c,
         chan (machine_at example_platform rearm_client fired busy_pool j) !! j
         = Some c /\
         (In (mk_fired j (cb c) (cb_data c)) fired <->
          status c <> DMA_STATUS_FREE example_platform /\ cb c <> 0) /\
         (forall f, In f fired -> f_chan f = j ->
                    f = mk_fired j (cb c) (cb_data c))).
Proof.
  apply (irq_handler_dispatch example_platform rearm_client);
    [intros fn data m; reflexivity | reflexivity].
Defined.

Lemma start_null_chain_undefined_witness :
  dw_dma_start example_platform 3 busy_pool = (Undef NullDeref, busy_pool, []).
Proof.
  apply (start_null_chain_undefined example_platform 3 busy_pool idle_chan);
    reflexivity.
Defined.

(** C4, the claim as stated fails: on the Idle channel 3 of [busy_pool],
    which has no chain, start returns no error code at all. *)
Lemma start_null_chain_no_error :
  chan busy_pool !! 3%nat = Some idle_chan /\
  lli idle_chan = None /\
  dw_dma_start example_platform 3 busy_pool = (Undef NullDeref, busy_pool, []) /\
  ~ (exists e m' t,
       dw_dma_start example_platform 3 busy_pool = (Ret e, m', t)).
Proof.
  split; [reflexivity|]. split; [reflexivity|].
  assert (H : dw_dma_start example_platform 3 busy_pool
              = (Undef NullDeref, busy_pool, [])) by reflexivity.
  split; [exact H|].
  intros (e & m' & t & Hret). rewrite H in Hret. discriminate Hret.
Qed.

Lemma fifo_work_no_draining_witness :
  dw_dma_fifo_work example_platform 1 calm_pool
  = (Ret (if 1 =? 0 then 0 else 1), calm_pool, []).
Proof.
  apply (fifo_work_no_draining example_platform 1 calm_pool); [reflexivity|].
  intros j cj Hj.
  do 8 (destruct j as [|j]; [injection Hj as <-; reflexivity|]).
  discriminate Hj.
Defined.

Lemma channel_put_keeps_chain_witness :
  exists c',
    dw_dma_channel_put example_platform 1 busy_pool
    = (Ret tt, mk_machine (<[1%nat := c']> (chan busy_pool)) (regs busy_pool), [])
    /\
    status c' = DMA_STATUS_FREE example_platform /\
    cb c' = 0 /\
    lli c' = lli running_chan.
Proof.
  apply (channel_put_keeps_chain example_platform 1 busy_pool running_chan);
    [reflexivity | simpl; lia].
Defined.

Lemma set_config_builds_chain_witness :
  exists c' cells',
    dw_dma_set_config example_platform (alloc_zeroed 3) 0 mem_to_mem_3 probed
    = (Ret 0, mk_machine (<[0%nat := c']> (chan probed)) (regs probed),
       [Rmalloc (u32 (lli_size example_platform
                      * (desc_count zero_chan
                         + Z.of_nat (length (elem_list mem_to_mem_3)))))])
    /\
    lli c' = Some (mk_block (lli_base (mk_block 0x2000 (replicate 3 zero_lli))) cells') /\
    lli_chain cells' = take (length (elem_list mem_to_mem_3)) cells' /\
    length (lli_chain cells') = length (elem_list mem_to_mem_3) /\
    (forall i e, elem_list mem_to_mem_3 !! i = Some e ->
       exists d,
         cells' !! i = Some d /\
         sar d = u32 (src e) /\
         dar d = u32 (dest e) /\
         ((S i < length (elem_list mem_to_mem_3))%nat ->
          llp d
          = desc_addr example_platform
              (lli_base (mk_block 0x2000 (replicate 3 zero_lli))) (S i) /\
          flags_set (DWC_CTLL_LLP_S_EN example_platform) (ctrl_lo d) /\
          flags_set (DWC_CTLL_LLP_D_EN example_platform) (ctrl_lo d)) /\
         (S i = length (elem_list mem_to_mem_3) ->
          llp d = 0 /\
          flags_clear (DWC_CTLL_LLP_S_EN example_platform) (ctrl_lo d) /\
          flags_clear (DWC_CTLL_LLP_D_EN example_platform) (ctrl_lo d))).
Proof.
  apply (set_config_builds_chain example_platform (alloc_zeroed 3) 0
           mem_to_mem_3 probed zero_chan
           (mk_block 0x2000 (replicate 3 zero_lli)));
    by_eval.
Defined.

Lemma set_config_mem_to_dev_head_witness :
  exists c' cells',
    dw_dma_set_config example_platform (alloc_zeroed 2) 0 mem_to_dev_2 probed
    = (Ret 0, mk_machine (<[0%nat := c']> (chan probed)) (regs probed),
       [Rmalloc (u32 (lli_size example_platform
                      * (desc_count zero_chan
                         + Z.of_nat (length (elem_list mem_to_dev_2)))))])
    /\
    lli c' = Some (mk_block (lli_base (mk_block 0x2000 (replicate 2 zero_lli))) cells') /\
    (exists d,
       cells' !! 0%nat = Some d /\
       flags_set (Z.lor (DWC_CTLL_SRC_INC example_platform)
                        (DWC_CTLL_DST_FIX example_platform)) (ctrl_lo d)) /\
    (forall i, (1 <= i < length (elem_list mem_to_dev_2))%nat ->
       exists d0 d,
         lli_cells (mk_block 0x2000 (replicate 2 zero_lli)) !! i = Some d0 /\
         cells' !! i = Some d /\
         ((S i < length (elem_list mem_to_dev_2))%nat ->
          ctrl_lo d
          = or_bits (Z.lor (DWC_CTLL_LLP_S_EN example_platform)
                           (DWC_CTLL_LLP_D_EN example_platform))
              (ctrl_lo d0)) /\
         (S i = length (elem_list mem_to_dev_2) ->
          ctrl_lo d
          = clear_bits (Z.lor (DWC_CTLL_LLP_S_EN example_platform)
                              (DWC_CTLL_LLP_D_EN example_platform))
              (ctrl_lo d0))).
Proof.
  apply (set_config_mem_to_dev_head example_platform (alloc_zeroed 2) 0
           mem_to_dev_2 probed zero_chan
           (mk_block 0x2000 (replicate 2 zero_lli)));
    by_eval.
Defined.

(** C3, the claim as stated fails: in the chain built for the two-segment
    mem-to-device request in zeroed memory, the second descriptor's
    control-low word is 0, so the destination-fixed flag is not set in it. *)
Lemma mem_to_dev_second_descriptor_unflagged :
  exists m' c' cells' d,
    dw_dma_set_config example_platform (alloc_zeroed 2) 0 mem_to_dev_2 probed
    = (Ret 0, m', [Rmalloc 56]) /\
    chan m' !! 0%nat = Some c' /\
    lli c' = Some (mk_block 0x2000 cells') /\
    length (lli_chain cells') = 2%nat /\
    lli_chain cells' !! 1%nat = Some d /\
    ctrl_lo d = 0 /\
    ~ flags_set (Z.lor (DWC_CTLL_SRC_INC example_platform)
                       (DWC_CTLL_DST_FIX example_platform)) (ctrl_lo d).
Proof.
  eexists _, _, _, _.
  split; [vm_compute; reflexivity|].
  split; [reflexivity|]. split; [reflexivity|]. split; [reflexivity|].
  split; [reflexivity|]. split; [reflexivity|].
  unfold flags_set. vm_compute. discriminate.
Qed.

Lemma set_config_alloc_failure_undefined_witness :
  dw_dma_set_config example_platform alloc_fails 0 mem_to_mem_3 probed
  = (Undef NullDeref,
     mk_machine
       (<[0%nat :=
            set_lli None
              (set_desc_count
                 (desc_count zero_chan
                  + Z.of_nat (length (elem_list mem_to_mem_3))) zero_chan)]>
          (chan probed))
       (regs probed),
     [Rmalloc (u32 (lli_size example_platform
                    * (desc_count zero_chan
                       + Z.of_nat (length (elem_list mem_to_mem_3)))))]).
Proof.
  apply (set_config_alloc_failure_undefined example_platform alloc_fails 0
           mem_to_mem_3 probed zero_chan);
    by_eval.
Defined.

(** C7, the claim as stated fails: when the allocator has no memory for the
    three-segment request, set_config returns no error code; it ends in the
    store through the null chain pointer, with the channel's descriptor
    count already raised to 3. *)
Lemma set_config_alloc_failure_no_error :
  exists m' c',
    dw_dma_set_config example_platform alloc_fails 0 mem_to_mem_3 probed
    = (Undef NullDeref, m', [Rmalloc 84]) /\
    chan m' !! 0%nat = Some c' /\
    lli c' = None /\
    desc_count c' = 3 /\
    ~ (exists e m'' t,
         dw_dma_set_config example_platform alloc_fails 0 mem_to_mem_3 probed
         = (Ret e, m'', t)).
Proof.
  eexists _, _.
  assert (H : fst (fst (dw_dma_set_config example_platform alloc_fails 0
                          mem_to_mem_3 probed)) = Undef NullDeref)
    by (vm_compute; reflexivity).
  split; [vm_compute; reflexivity|].
  split; [reflexivity|]. split; [reflexivity|]. split; [reflexivity|].
  intros (e & m'' & t & Hret). rewrite Hret in H. discriminate H.
Qed.

Lemma set_config_count_accumulates_witness :
  exists r1 m1 c1,
    dw_dma_set_config example_platform (alloc_zeroed 3) 0 mem_to_mem_3 probed
    = (r1, m1,
       [Rmalloc (u32 (lli_size example_platform
                      * (desc_count zero_chan
                         + Z.of_nat (length (elem_list mem_to_mem_3)))))])
    /\
    chan m1 !! 0%nat = Some c1 /\
    desc_count c1
    = desc_count zero_chan + Z.of_nat (length (elem_list mem_to_mem_3)) /\
    (desc_count c1 = Z.of_nat (length (elem_list mem_to_mem_3))
     <-> desc_count zero_chan = 0) /\
    exists r2 m2 c2,
      dw_dma_set_config example_platform (alloc_zeroed 5) 0 mem_to_dev_2 m1
      = (r2, m2,
         [Rmalloc (u32 (lli_size example_platform
                        * (desc_count zero_chan
                           + Z.of_nat (length (elem_list mem_to_mem_3))
                           + Z.of_nat (length (elem_list mem_to_dev_2)))))])
      /\
      chan m2 !! 0%nat = Some c2 /\
      desc_count c2
      = desc_count zero_chan + Z.of_nat (length (elem_list mem_to_mem_3))
        + Z.of_nat (length (elem_list mem_to_dev_2)) /\
      (desc_count zero_chan = 0 ->
       desc_count c2
       = Z.of_nat (length (elem_list mem_to_mem_3))
         + Z.of_nat (length (elem_list mem_to_dev_2))).
Proof.
  apply (set_config_count_accumulates example_platform
           (alloc_zeroed 3) (alloc_zeroed 5) 0 mem_to_mem_3 mem_to_dev_2
           probed zero_chan);
    by_eval.
Defined.

(** ** Register addresses *)

Lemma reg_addr_inj (P : dw_platform) a b :
  0 <= a < 2 ^ 32 -> 0 <= b < 2 ^ 32 ->
  reg_addr P a = reg_addr P b -> a = b.
Proof.
  intros Ha Hb. unfold reg_addr, u32. intros Heq.
  pose proof (Z.div_mod (dma_base P + a) (2 ^ 32)) as H1.
  pose proof (Z.div_mod (dma_base P + b) (2 ^ 32)) as H2.
  change (2 ^ 32) with 4294967296 in *.
  specialize (H1 ltac:(lia)). specialize (H2 ltac:(lia)).
  rewrite Heq in H1. lia.
Qed.

Lemma reg_addr_neq (P : dw_platform) a b :
  0 <= a < 2 ^ 32 -> 0 <= b < 2 ^ 32 -> a <> b ->
  reg_addr P a <> reg_addr P b.
Proof. intros Ha Hb Hne Heq. apply Hne. exact (reg_addr_inj P a b Ha Hb Heq). Qed.

Lemma u32_idem x : u32 (u32 x) = u32 x.
Proof. unfold u32. apply Z.mod_mod. discriminate. Qed.

Lemma u32_shiftl_0x101 (i : nat) :
  (i < 8)%nat -> u32 (Z.shiftl 0x101 (Z.of_nat i)) = Z.shiftl 0x101 (Z.of_nat i).
Proof.
  intros Hi. unfold u32. rewrite Z.shiftl_mul_pow2 by lia.
  apply Z.mod_small.
  assert (H1 : 0 < 2 ^ Z.of_nat i) by (apply Z.pow_pos_nonneg; lia).
  assert (H2 : 2 ^ Z.of_nat i <= 2 ^ 7) by (apply Z.pow_le_mono_r; lia).
  change (2 ^ 7) with 128 in H2. change (2 ^ 32) with 4294967296. lia.
Qed.

(** ** Channel control: start on a configured channel *)

Section StartRun.

Variable P : dw_platform.

Lemma lli_head_some channel m c b d :
  chan m !! channel = Some c -> lli c = Some b ->
  lli_cells b !! 0%nat = Some d ->
  lli_head channel m = (Ret d, m, []).
Proof.
  intros Hc Hb Hd. unfold lli_head.
  rewrite (bind_silent _ _ _ _ _ (get_chan_some _ _ _ Hc)), Hb, Hd.
  reflexivity.
Qed.

Lemma dw_dma_start_run (channel : nat) (m : machine)
    (c : dma_chan_data) (b : lli_block) (d : dw_lli1) :
  length (chan m) = DW_MAX_CHAN ->
  chan m !! channel = Some c ->
  lli c = Some b ->
  lli_cells b !! 0%nat = Some d ->
  exists rg,
    dw_dma_start P channel m
    = (Ret 0,
       mk_machine
         (<[channel := set_status (u8 (DMA_STATUS_RUNNING P)) c]> (chan m)) rg,
       [ IoWrite (reg_addr P (DW_SAR (Z.of_nat channel))) (u32 (sar d));
         IoWrite (reg_addr P (DW_DAR (Z.of_nat channel))) (u32 (dar d));
         IoWrite (reg_addr P (DW_LLP (Z.of_nat channel))) (u32 (llp d));
         IoWrite (reg_addr P (DW_CTRL_LOW (Z.of_nat channel))) (u32 (ctrl_lo d));
         IoWrite (reg_addr P (DW_CTRL_HIGH (Z.of_nat channel))) (u32 (ctrl_hi d));
         IoWrite (reg_addr P (DW_CFG_LOW (Z.of_nat channel))) (u32 (cfg_lo c));
         IoWrite (reg_addr P (DW_CFG_HIGH (Z.of_nat channel))) (u32 (cfg_hi c));
         IoWrite (reg_addr P DW_MASK_TFR) (INT_UNMASK (Z.of_nat channel));
         IoWrite (reg_addr P DW_MASK_BLOCK) (INT_UNMASK (Z.of_nat channel));
         IoWrite (reg_addr P DW_MASK_SRC_TRAN) (INT_UNMASK (Z.of_nat channel));
         IoWrite (reg_addr P DW_MASK_DST_TRAN) (INT_UNMASK (Z.of_nat channel));
         IoWrite (reg_addr P DW_MASK_ERR) (INT_UNMASK (Z.of_nat channel));
         IoWrite (reg_addr P DW_DMA_CHAN_EN) (CHAN_ENABLE (Z.of_nat channel)) ]).
Proof.
  intros Hlen Hc Hb Hd.
  assert (Hch : (channel < 8)%nat).
  { apply lookup_lt_Some in Hc. rewrite Hlen in Hc. exact Hc. }
  unfold dw_dma_start.
  assert (Hhead : forall rg,
    lli_head channel (mk_machine (chan m) rg) = (Ret d, mk_machine (chan m) rg, [])).
  { intros rg. apply (lli_head_some channel _ c b d); assumption. }
  assert (Hget : forall rg,
    get_chan channel (mk_machine (chan m) rg) = (Ret c, mk_machine (chan m) rg, [])).
  { intros rg. apply get_chan_some. exact Hc. }
  rewrite (bind_silent _ _ _ _ _ (lli_head_some channel m c b d Hc Hb Hd)).
  unfold bind at 1. cbn [io_reg_write]. rewrite (bind_silent _ _ _ _ _ (Hhead _)).
  unfold bind at 1. cbn [io_reg_write chan regs].
  rewrite (bind_silent _ _ _ _ _ (Hhead _)).
  unfold bind at 1. cbn [io_reg_write chan regs].
  rewrite (bind_silent _ _ _ _ _ (Hhead _)).
  unfold bind at 1. cbn [io_reg_write chan regs].
  rewrite (bind_silent _ _ _ _ _ (Hhead _)).
  unfold bind at 1. cbn [io_reg_write chan regs].
  rewrite (bind_silent _ _ _ _ _ (Hget _)).
  unfold bind at 1. cbn [io_reg_write chan regs].
  rewrite (bind_silent _ _ _ _ _ (Hget _)).
  unfold bind at 1. cbn [io_reg_write chan regs].
  erewrite bind_silent by (apply upd_chan_some; exact Hc).
  cbn [chan regs].
  unfold bind, io_reg_write, ret. cbn [chan regs app].
  unfold INT_UNMASK, CHAN_ENABLE.
  rewrite (u32_shiftl_0x101 channel Hch).
  eexists. reflexivity.
Qed.

(** On a channel with a chain attached, start writes the head descriptor's
    source, destination, link and control words and the slot's two config
    words to the channel's registers, marks the slot Running, unmasks the
    five interrupt classes of the channel and enables it: thirteen register
    writes in this order, result 0, every other slot untouched. *)
Theorem start_programs_channel (channel : nat) (m : machine)
    (c : dma_chan_data) (b : lli_block) (d : dw_lli1) :
  length (chan m) = DW_MAX_CHAN ->
  chan m !! channel = Some c ->
  lli c = Some b ->
  lli_cells b !! 0%nat = Some d ->
  exists rg,
    dw_dma_start P channel m
    = (Ret 0,
       mk_machine
         (<[channel := set_status (u8 (DMA_STATUS_RUNNING P)) c]> (chan m)) rg,
       [ IoWrite (reg_addr P (DW_SAR (Z.of_nat channel))) (u32 (sar d));
         IoWrite (reg_addr P (DW_DAR (Z.of_nat channel))) (u32 (dar d));
         IoWrite (reg_addr P (DW_LLP (Z.of_nat channel))) (u32 (llp d));
         IoWrite (reg_addr P (DW_CTRL_LOW (Z.of_nat channel))) (u32 (ctrl_lo d));
         IoWrite (reg_addr P (DW_CTRL_HIGH (Z.of_nat channel))) (u32 (ctrl_hi d));
         IoWrite (reg_addr P (DW_CFG_LOW (Z.of_nat channel))) (u32 (cfg_lo c));
         IoWrite (reg_addr P (DW_CFG_HIGH (Z.of_nat channel))) (u32 (cfg_hi c));
         IoWrite (reg_addr P DW_MASK_TFR) (INT_UNMASK (Z.of_nat channel));
         IoWrite (reg_addr P DW_MASK_BLOCK) (INT_UNMASK (Z.of_nat channel));
         IoWrite (reg_addr P DW_MASK_SRC_TRAN) (INT_UNMASK (Z.of_nat channel));
         IoWrite (reg_addr P DW_MASK_DST_TRAN) (INT_UNMASK (Z.of_nat channel));
         IoWrite (reg_addr P DW_MASK_ERR) (INT_UNMASK (Z.of_nat channel));
         IoWrite (reg_addr P DW_DMA_CHAN_EN) (CHAN_ENABLE (Z.of_nat channel)) ]).
Proof.
  intros Hlen Hc Hb Hd. exact (dw_dma_start_run channel m c b d Hlen Hc Hb Hd).
Qed.

End StartRun.

(** ** Controller setup *)

Section Setup.

Variable P : dw_platform.

(** Setup performs six register writes and returns 0; afterwards each of
    the five mask registers holds 0xff00, the configuration register holds
    1, and the channel array is as before.  For every channel the value
    0xff00 has the channel's write-enable bit set and its mask bit clear,
    as [INT_MASK] of that channel has. *)
Theorem setup_masks_all (m : machine) :
  exists m',
    dw_dma_setup P m
    = (Ret 0, m',
       [ IoWrite (reg_addr P DW_MASK_TFR) 0xff00;
         IoWrite (reg_addr P DW_MASK_BLOCK) 0xff00;
         IoWrite (reg_addr P DW_MASK_SRC_TRAN) 0xff00;
         IoWrite (reg_addr P DW_MASK_DST_TRAN) 0xff00;
         IoWrite (reg_addr P DW_MASK_ERR) 0xff00;
         IoWrite (reg_addr P DW_DMA_CFG) 1 ]) /\
    chan m' = chan m /\
    regs m' !!! reg_addr P DW_MASK_TFR = 0xff00 /\
    regs m' !!! reg_addr P DW_MASK_BLOCK = 0xff00 /\
    regs m' !!! reg_addr P DW_MASK_SRC_TRAN = 0xff00 /\
    regs m' !!! reg_addr P DW_MASK_DST_TRAN = 0xff00 /\
    regs m' !!! reg_addr P DW_MASK_ERR = 0xff00 /\
    regs m' !!! reg_addr P DW_DMA_CFG = 1 /\
    (forall i : nat, (i < DW_MAX_CHAN)%nat ->
       Z.land 0xff00 (INT_UNMASK (Z.of_nat i)) = INT_MASK (Z.of_nat i)).
Proof.
  eexists. split; [reflexivity|]. cbn [chan regs].
  assert (Hne : forall a b, 0 <= a < 2 ^ 32 -> 0 <= b < 2 ^ 32 -> a <> b ->
                            reg_addr P a <> reg_addr P b)
    by (intros a b; apply reg_addr_neq).
  split; [reflexivity|].
  repeat split.
  - rewrite !lookup_total_insert_ne by (apply Hne; by_eval).
    rewrite lookup_total_insert_eq. reflexivity.
  - rewrite !lookup_total_insert_ne by (apply Hne; by_eval).
    rewrite lookup_total_insert_eq. reflexivity.
  - rewrite !lookup_total_insert_ne by (apply Hne; by_eval).
    rewrite lookup_total_insert_eq. reflexivity.
  - rewrite !lookup_total_insert_ne by (apply Hne; by_eval).
    rewrite lookup_total_insert_eq. reflexivity.
  - rewrite !lookup_total_insert_ne by (apply Hne; by_eval).
    rewrite lookup_total_insert_eq. reflexivity.
  - rewrite lookup_total_insert_eq. reflexivity.
  - intros i Hi. unfold DW_MAX_CHAN in Hi.
    do 8 (destruct i as [|i]; [reflexivity|]). lia.
Qed.

End Setup.

(** ** Drain poller: one pass *)

Section FifoWorkPass.

Variable P : dw_platform.

Lemma cfg_low_not_chan_en (j : nat) :
  (j < 8)%nat ->
  reg_addr P (DW_CFG_LOW (Z.of_nat j)) <> reg_addr P DW_DMA_CHAN_EN.
Proof.
  intros Hj. apply reg_addr_neq;
    unfold DW_CFG_LOW, BYT_CHAN_OFFSET, DW_CH_SIZE, DW_DMA_CHAN_EN;
    change (2 ^ 32) with 4294967296; lia.
Qed.

Lemma fifo_empty_agree m1 m2 j :
  (j < 8)%nat ->
  (forall a, a <> reg_addr P DW_DMA_CHAN_EN -> regs m2 !!! a = regs m1 !!! a) ->
  fifo_empty P m2 j = fifo_empty P m1 j.
Proof.
  intros Hj Hagree. unfold fifo_empty.
  rewrite (Hagree _ (cfg_low_not_chan_en j Hj)). reflexivity.
Qed.

Lemma fifo_work_scan_spec n :
  forall i s m,
    (i + n)%nat = DW_MAX_CHAN ->
    length (chan m) = DW_MAX_CHAN ->
    exists s' m' t,
      fifo_work_scan P n i s m = (Ret s', m', t) /\
      length (chan m') = DW_MAX_CHAN /\
      (forall j c, chan m !! j = Some c ->
         chan m' !! j
         = Some (if decide (i <= j)%nat then poll_chan P m j c else c)) /\
      (forall a, a <> reg_addr P DW_DMA_CHAN_EN ->
                 regs m' !!! a = regs m !!! a) /\
      (s' = 1 \/ s' = s) /\
      ((exists j c, (i <= j)%nat /\ chan m !! j = Some c /\
                    is_draining P c = true /\ fifo_empty P m j = false) ->
       s' = 1) /\
      ((forall j c, (i <= j)%nat -> chan m !! j = Some c ->
                    is_draining P c = true -> fifo_empty P m j = true) ->
       s' = s) /\
      Forall (poller_event P) t.
Proof.
  induction n as [|n IH]; intros i s m Hin Hlen.
  - exists s, m, []. split; [reflexivity|]. split; [exact Hlen|].
    split.
    { intros j c Hc. rewrite Hc. f_equal.
      apply lookup_lt_Some in Hc. rewrite Hlen in Hc.
      destruct (decide (i <= j)%nat); [lia | reflexivity]. }
    split; [reflexivity|]. split; [right; reflexivity|].
    split.
    { intros (j & c & Hj & Hc & _). apply lookup_lt_Some in Hc. lia. }
    split; [reflexivity | constructor].
  - assert (Hi : (i < length (chan m))%nat) by lia.
    assert (Hi8 : (i < 8)%nat) by (unfold DW_MAX_CHAN in Hin; lia).
    destruct (lookup_lt_is_Some_2 _ _ Hi) as [c Hc].
    cbn [fifo_work_scan].
    rewrite (bind_silent _ _ _ _ _ (get_chan_some _ _ _ Hc)).
    destruct (Z.land (status c) (DMA_STATUS_DRAINING P) =? 0) eqn:Hdr.
    + (* not draining: skipped *)
      assert (Hnd : is_draining P c = false) by (unfold is_draining; rewrite Hdr; reflexivity).
      destruct (IH (S i) s m) as (s' & m' & t & Hrun & Hlen' & Hch & Hrg & Hor & Hpend & Hnone & Hev);
        [lia | exact Hlen |].
      exists s', m', t. split; [exact Hrun|]. split; [exact Hlen'|].
      split.
      { intros j c0 Hc0. rewrite (Hch j c0 Hc0). f_equal.
        destruct (decide (S i <= j)%nat), (decide (i <= j)%nat);
          try reflexivity; try lia.
        assert (j = i) by lia. subst j. rewrite Hc in Hc0. injection Hc0 as <-.
        unfold poll_chan. rewrite Hnd. reflexivity. }
      split; [exact Hrg|]. split; [exact Hor|]. split.
      { intros (j & c0 & Hj & Hc0 & Hd0 & Hf0). apply Hpend.
        exists j, c0. repeat split; try assumption.
        destruct (decide (j = i)) as [->|Hne]; [|lia].
        rewrite Hc in Hc0. injection Hc0 as <-. congruence. }
      split; [|exact Hev].
      intros Hall. apply Hnone. intros j c0 Hj. apply Hall. lia.
    + (* draining: the FIFO-empty bit decides *)
      assert (Hd : is_draining P c = true) by (unfold is_draining; rewrite Hdr; reflexivity).
      unfold bind at 1. cbn [io_reg_read]. cbn zeta.
      destruct (negb (Z.land (regs m !!! reg_addr P (DW_CFG_LOW (Z.of_nat i)))
                             DW_CFG_CH_FIFO_EMPTY =? 0)) eqn:Hfe.
      * (* empty: disable the channel, clear the Draining bit *)
        assert (Hfe' : fifo_empty P m i = true) by exact Hfe.
        set (v := Z.lor
                    (Z.land (regs m !!! reg_addr P DW_DMA_CHAN_EN)
                            (Z.lnot (CHAN_DISABLE (Z.of_nat i))))
                    (Z.land (CHAN_DISABLE (Z.of_nat i)) (CHAN_DISABLE (Z.of_nat i)))).
        set (m1 := mk_machine (chan m) (<[reg_addr P DW_DMA_CHAN_EN := u32 v]> (regs m))).
        set (m2 := mk_machine (<[i := drained P c]> (chan m)) (regs m1)).
        assert (Hupd : io_reg_update_bits (reg_addr P DW_DMA_CHAN_EN)
                         (CHAN_DISABLE (Z.of_nat i)) (CHAN_DISABLE (Z.of_nat i)) m
                       = (Ret tt, m1,
                          [IoRead (reg_addr P DW_DMA_CHAN_EN)
                             (regs m !!! reg_addr P DW_DMA_CHAN_EN);
                           IoWrite (reg_addr P DW_DMA_CHAN_EN) (u32 v)]))
          by reflexivity.
        assert (Hst : upd_chan i (fun c0 =>
                        set_status (u8 (Z.land (status c0)
                                          (Z.lnot (DMA_STATUS_DRAINING P)))) c0) m1
                      = (Ret tt, m2, [])).
        { apply (upd_chan_some i _ m1 c). exact Hc. }
        assert (Hlen2 : length (chan m2) = DW_MAX_CHAN).
        { unfold m2. cbn [chan]. rewrite length_insert. exact Hlen. }
        assert (Hrg2 : forall a, a <> reg_addr P DW_DMA_CHAN_EN ->
                                 regs m2 !!! a = regs m !!! a).
        { intros a Ha. unfold m2, m1. cbn [regs].
          apply lookup_total_insert_ne. congruence. }
        destruct (IH (S i) s m2) as (s' & m' & t & Hrun & Hlen' & Hch & Hrg & Hor & Hpend & Hnone & Hev);
          [lia | exact Hlen2 |].
        rewrite (bind_ret _ _ _ _ _ _ Hupd).
        rewrite (bind_silent _ _ _ _ _ Hst), Hrun. cbn [fst snd].
        eexists s', m', _. split; [reflexivity|]. split; [exact Hlen'|].
        split.
        { intros j c0 Hc0.
          assert (Hj8 : (j < 8)%nat).
          { apply lookup_lt_Some in Hc0. rewrite Hlen in Hc0. exact Hc0. }
          destruct (decide (j = i)) as [->|Hne].
          - rewrite Hc in Hc0. injection Hc0 as <-.
            rewrite (Hch i (drained P c)).
            + destruct (decide (S i <= i)%nat); [lia|].
              destruct (decide (i <= i)%nat); [|lia].
              unfold poll_chan. rewrite Hd, Hfe'. reflexivity.
            + unfold m2. cbn [chan]. apply list_lookup_insert_eq. exact Hi.
          - rewrite (Hch j c0).
            + destruct (decide (S i <= j)%nat), (decide (i <= j)%nat);
                try reflexivity; try lia.
              unfold poll_chan. rewrite (fifo_empty_agree m m2 j Hj8 Hrg2).
              reflexivity.
            + unfold m2. cbn [chan]. rewrite list_lookup_insert_ne by congruence.
              exact Hc0. }
        split.
        { intros a Ha. rewrite (Hrg a Ha). apply Hrg2. exact Ha. }
        split; [exact Hor|]. split.
        { intros (j & c0 & Hj & Hc0 & Hd0 & Hf0). apply Hpend.
          assert (Hj8 : (j < 8)%nat).
          { apply lookup_lt_Some in Hc0. rewrite Hlen in Hc0. exact Hc0. }
          assert (Hne : j <> i).
          { intros ->. rewrite Hfe' in Hf0. discriminate. }
          exists j, c0. split; [lia|]. split.
          - unfold m2. cbn [chan]. rewrite list_lookup_insert_ne by congruence.
            exact Hc0.
          - split; [exact Hd0|].
            rewrite (fifo_empty_agree m m2 j Hj8 Hrg2). exact Hf0. }
        split.
        { intros Hall. apply Hnone. intros j c0 Hj Hc0 Hd0.
          assert (Hne : j <> i) by lia.
          unfold m2 in Hc0. cbn [chan] in Hc0.
          rewrite list_lookup_insert_ne in Hc0 by congruence.
          assert (Hj8 : (j < 8)%nat).
          { apply lookup_lt_Some in Hc0. rewrite Hlen in Hc0. exact Hc0. }
          rewrite (fifo_empty_agree m m2 j Hj8 Hrg2).
          apply (Hall j c0); [lia | exact Hc0 | exact Hd0]. }
        constructor; [exact I|]. constructor; [reflexivity|].
        constructor; [reflexivity|]. exact Hev.
      * (* not empty: reschedule *)
        assert (Hfe' : fifo_empty P m i = false) by exact Hfe.
        destruct (IH (S i) 1 m) as (s' & m' & t & Hrun & Hlen' & Hch & Hrg & Hor & Hpend & Hnone & Hev);
          [lia | exact Hlen |].
        rewrite Hrun.
        assert (Hs1 : s' = 1) by (destruct Hor; assumption).
        eexists s', m', _. split; [reflexivity|]. split; [exact Hlen'|].
        split.
        { intros j c0 Hc0. rewrite (Hch j c0 Hc0). f_equal.
          destruct (decide (S i <= j)%nat), (decide (i <= j)%nat);
            try reflexivity; try lia.
          assert (j = i) by lia. subst j. rewrite Hc in Hc0. injection Hc0 as <-.
          unfold poll_chan. rewrite Hd, Hfe'. reflexivity. }
        split; [exact Hrg|]. split; [left; exact Hs1|].
        split; [intros _; exact Hs1|]. split.
        { intros Hall. specialize (Hall i c ltac:(lia) Hc Hd).
          rewrite Hfe' in Hall. discriminate. }
        constructor; [exact I | exact Hev].
Qed.

(** Whatever the uninitialised local held, the poller asks to be
    rescheduled when some channel with the Draining bit has a FIFO that is
    not yet empty. *)
Theorem fifo_work_pending_reschedules (schedule0 : Z) (m : machine) :
  length (chan m) = DW_MAX_CHAN ->
  (exists j c, chan m !! j = Some c /\ is_draining P c = true /\
               fifo_empty P m j = false) ->
  fst (fst (dw_dma_fifo_work P schedule0 m)) = Ret 1.
Proof.
  intros Hlen (j & c & Hc & Hd & Hf).
  destruct (fifo_work_scan_spec DW_MAX_CHAN 0 schedule0 m)
    as (s' & m' & t & Hrun & _ & _ & _ & _ & Hpend & _); [reflexivity | exact Hlen |].
  unfold dw_dma_fifo_work. rewrite (bind_ret _ _ _ _ _ _ Hrun).
  rewrite Hpend by (exists j, c; repeat split; try assumption; lia).
  reflexivity.
Qed.

(** One pass of the poller always returns; it clears the Draining bit of
    exactly the channels that have it and whose FIFO-empty bit reads 1, and
    leaves every other slot as it was; it writes no register but the
    channel-enable register, and no register other than that one changes. *)
Theorem fifo_work_pass (schedule0 : Z) (m : machine) :
  length (chan m) = DW_MAX_CHAN ->
  exists r m' t,
    dw_dma_fifo_work P schedule0 m = (Ret r, m', t) /\
    (r = 0 \/ r = 1) /\
    (forall j c, chan m !! j = Some c ->
                 chan m' !! j = Some (poll_chan P m j c)) /\
    (forall a, a <> reg_addr P DW_DMA_CHAN_EN -> regs m' !!! a = regs m !!! a) /\
    Forall (poller_event P) t.
Proof.
  intros Hlen.
  destruct (fifo_work_scan_spec DW_MAX_CHAN 0 schedule0 m)
    as (s' & m' & t & Hrun & _ & Hch & Hrg & _ & _ & _ & Hev);
    [reflexivity | exact Hlen |].
  unfold dw_dma_fifo_work. rewrite (bind_ret _ _ _ _ _ _ Hrun).
  exists (if negb (s' =? 0) then 1 else 0), m', t.
  split.
  { destruct (negb (s' =? 0)); cbn; rewrite app_nil_r; reflexivity. }
  split; [destruct (negb (s' =? 0)); [right | left]; reflexivity|].
  split.
  { intros j c Hc. rewrite (Hch j c Hc).
    destruct (decide (0 <= j)%nat); [reflexivity | lia]. }
  split; [exact Hrg | exact Hev].
Qed.

(** Drain completion: a channel whose state is exactly Draining and whose
    FIFO-empty bit reads 1 ends the pass with state value 0, its chain,
    descriptor count, config words and callback untouched. *)
Theorem fifo_work_completes_to_zero (schedule0 : Z) (m : machine)
    (channel : nat) (c : dma_chan_data) :
  length (chan m) = DW_MAX_CHAN ->
  chan m !! channel = Some c ->
  status c = DMA_STATUS_DRAINING P ->
  DMA_STATUS_DRAINING P <> 0 ->
  fifo_empty P m channel = true ->
  exists r m' t,
    dw_dma_fifo_work P schedule0 m = (Ret r, m', t) /\
    chan m' !! channel = Some (set_status 0 c).
Proof.
  intros Hlen Hc Hst Hnz Hfe.
  destruct (fifo_work_scan_spec DW_MAX_CHAN 0 schedule0 m)
    as (s' & m' & t & Hrun & _ & Hch & _); [reflexivity | exact Hlen |].
  unfold dw_dma_fifo_work. rewrite (bind_ret _ _ _ _ _ _ Hrun).
  exists (if negb (s' =? 0) then 1 else 0), m', t. split.
  { destruct (negb (s' =? 0)); cbn; rewrite app_nil_r; reflexivity. }
  rewrite (Hch channel c Hc).
  destruct (decide (0 <= channel)%nat); [|lia].
  unfold poll_chan, is_draining. rewrite Hfe, Hst, Z.land_diag.
  apply Z.eqb_neq in Hnz. rewrite Hnz. cbn [negb andb].
  unfold drained. rewrite Hst, Z.land_lnot_diag. reflexivity.
Qed.

End FifoWorkPass.

(** ** Interrupt dispatcher: who is called back *)

Lemma dispatched_spec (P : dw_platform) cs :
  forall i f,
    In f (dispatched P i cs) <->
    exists k c,
      cs !! k = Some c /\
      status c <> DMA_STATUS_FREE P /\
      cb c <> 0 /\
      f = mk_fired (i + k) (cb c) (cb_data c).
Proof.
  induction cs as [|c0 rest IH]; intros i f; cbn [dispatched].
  - split; [intros [] | intros (k & c & Hk & _)].
    rewrite lookup_nil in Hk. discriminate.
  - rewrite in_app_iff, IH. split.
    + intros [Hhead | (k & c & Hk & Hs & Hcb & ->)].
      * destruct (negb (status c0 =? DMA_STATUS_FREE P) && negb (cb c0 =? 0))
          eqn:Hfire; [|destruct Hhead].
        destruct Hhead as [<-|[]].
        apply andb_true_iff in Hfire as [Hs Hcb].
        apply negb_true_iff, Z.eqb_neq in Hs.
        apply negb_true_iff, Z.eqb_neq in Hcb.
        exists 0%nat, c0. rewrite Nat.add_0_r. repeat split; assumption.
      * exists (S k), c. rewrite Nat.add_succ_r. repeat split; assumption.
    + intros (k & c & Hk & Hs & Hcb & ->). destruct k as [|k].
      * left. cbn in Hk. injection Hk as <-.
        apply Z.eqb_neq in Hs. apply Z.eqb_neq in Hcb.
        rewrite Hs, Hcb. cbn [negb andb]. rewrite Nat.add_0_r.
        left. reflexivity.
      * right. exists k, c. rewrite Nat.add_succ_r.
        repeat split; assumption.
Qed.

Section IrqExact.

Variable P : dw_platform.
Variable client : Z -> Z -> machine -> machine.

(** Client functions that do not touch the channel array. *)
Hypothesis client_keeps_chan :
  forall fn data m, chan (client fn data m) = chan m.

Lemma irq_scan_exact n :
  forall i m,
    (i + n)%nat = length (chan m) ->
    length (chan m) = DW_MAX_CHAN ->
    exists m',
      irq_scan P client n i m
      = (Ret tt, m',
         flat_map (dispatch_events P) (dispatched P i (drop i (chan m)))) /\
      chan m' = chan m.
Proof.
  induction n as [|n IH]; intros i m Hin Hlen.
  - exists m. split; [|reflexivity].
    rewrite drop_ge by lia. reflexivity.
  - assert (Hi : (i < length (chan m))%nat) by lia.
    destruct (lookup_lt_is_Some_2 _ _ Hi) as [c Hc].
    cbn [irq_scan].
    rewrite (bind_silent _ _ _ _ _ (get_chan_some _ _ _ Hc)).
    rewrite (drop_S _ _ _ Hc). cbn [dispatched].
    destruct (negb (status c =? DMA_STATUS_FREE P) && negb (cb c =? 0))
      eqn:Hfire.
    + set (m1 := mk_machine (chan m)
                   (<[reg_addr P DW_MASK_BLOCK := INT_MASK (Z.of_nat i)]> (regs m))).
      set (m2 := client (cb c) (cb_data c) m1).
      assert (Hchan2 : chan m2 = chan m).
      { unfold m2. rewrite client_keeps_chan. reflexivity. }
      destruct (IH (S i) m2) as (m' & Hrun & Hchan');
        [rewrite Hchan2; lia | rewrite Hchan2; exact Hlen |].
      exists m'. split; [|congruence].
      assert (Hstep :
        (io_reg_write (reg_addr P DW_MASK_BLOCK) (INT_MASK (Z.of_nat i)) ;;
         c0 <- get_chan i ;; call_cb client i (cb c0) (cb_data c0)) m
        = (Ret tt, m2,
           dispatch_events P (mk_fired i (cb c) (cb_data c)))).
      { unfold bind at 1. cbn [io_reg_write].
        rewrite u32_INT_MASK by (rewrite Hlen in Hi; exact Hi).
        fold m1.
        assert (Hc1 : chan m1 !! i = Some c) by exact Hc.
        rewrite (bind_silent _ _ _ _ _ (get_chan_some _ _ _ Hc1)).
        reflexivity. }
      rewrite (bind_ret _ _ _ _ _ _ Hstep), Hrun, Hchan2. reflexivity.
    + destruct (IH (S i) m) as (m' & Hrun & Hchan'); [lia | exact Hlen |].
      exists m'. split; [|exact Hchan'].
      assert (Hskip : @ret machine unit tt m = (Ret tt, m, [])) by reflexivity.
      rewrite (bind_silent _ _ _ _ _ Hskip). exact Hrun.
Qed.

Lemma irq_handler_exact (m : machine) :
  length (chan m) = DW_MAX_CHAN ->
  regs m !!! reg_addr P DW_STATUS_BLOCK <> 0 ->
  exists m',
    dw_dma_irq_handler P client m
    = (Ret tt, m',
       [ TracePoint 0x9999;
         IrqDisable (dma_irq P);
         IoRead (reg_addr P DW_STATUS_BLOCK)
           (regs m !!! reg_addr P DW_STATUS_BLOCK) ]
       ++ flat_map (dispatch_events P) (dispatched P 0 (chan m))
       ++ [ IrqClear (dma_irq P); IrqEnable (dma_irq P) ]) /\
    chan m' = chan m.
Proof.
  intros Hlen Hnz.
  destruct (irq_scan_exact DW_MAX_CHAN 0 m) as (m' & Hrun & Hchan);
    [rewrite Hlen; reflexivity | exact Hlen |].
  exists m'. split; [|exact Hchan].
  unfold dw_dma_irq_handler.
  unfold bind at 1. cbn [emit]. unfold bind at 1. cbn [emit].
  unfold bind at 1. unfold io_reg_read at 1. cbn zeta.
  apply Z.eqb_neq in Hnz. rewrite Hnz.
  unfold bind at 1. rewrite Hrun. reflexivity.
Qed.

Lemma in_dispatch_events f i fn data :
  In (ClientCb i fn data) (dispatch_events P f) <-> f = mk_fired i fn data.
Proof.
  unfold dispatch_events. cbn [In]. split.
  - intros [H|[H|[]]]; [discriminate H|].
    injection H as <- <- <-. destruct f. reflexivity.
  - intros ->. right. left. reflexivity.
Qed.

Lemma irq_handler_callbacks (m : machine) i fn data :
  length (chan m) = DW_MAX_CHAN ->
  regs m !!! reg_addr P DW_STATUS_BLOCK <> 0 ->
  In (ClientCb i fn data) (snd (dw_dma_irq_handler P client m)) <->
  exists c,
    chan m !! i = Some c /\
    status c <> DMA_STATUS_FREE P /\
    cb c <> 0 /\ fn = cb c /\ data = cb_data c.
Proof.
  intros Hlen Hnz.
  destruct (irq_handler_exact m Hlen Hnz) as (m' & Hrun & _).
  rewrite Hrun. cbn [snd]. rewrite !in_app_iff, in_flat_map. split.
  - intros [Hpre | [(f & Hf & Hin) | Hpost]].
    + cbn [In] in Hpre. destruct Hpre as [H|[H|[H|[]]]]; discriminate H.
    + apply in_dispatch_events in Hin. subst f.
      apply dispatched_spec in Hf as (k & c & Hk & Hs & Hcb & Heq).
      injection Heq as -> -> ->. exists c. cbn [Nat.add]. repeat split; assumption.
    + cbn [In] in Hpost. destruct Hpost as [H|[H|[]]]; discriminate H.
  - intros (c & Hc & Hs & Hcb & -> & ->). right. left.
    exists (mk_fired i (cb c) (cb_data c)). split.
    + apply dispatched_spec. exists i, c. repeat split; assumption.
    + apply in_dispatch_events. reflexivity.
Qed.

(** When the block-complete status reads nonzero (whichever bits are set),
    the dispatcher calls back, once each and in ascending order, exactly the
    channels that are not Free and have a callback, each call preceded by
    the write masking that channel; the channel array is as before. *)
Theorem irq_handler_calls_every_active (m : machine) :
  length (chan m) = DW_MAX_CHAN ->
  regs m !!! reg_addr P DW_STATUS_BLOCK <> 0 ->
  exists m',
    dw_dma_irq_handler P client m
    = (Ret tt, m',
       [ TracePoint 0x9999;
         IrqDisable (dma_irq P);
         IoRead (reg_addr P DW_STATUS_BLOCK)
           (regs m !!! reg_addr P DW_STATUS_BLOCK) ]
       ++ flat_map (dispatch_events P) (dispatched P 0 (chan m))
       ++ [ IrqClear (dma_irq P); IrqEnable (dma_irq P) ]) /\
    chan m' = chan m /\
    (forall i fn data,
       In (mk_fired i fn data) (dispatched P 0 (chan m)) <->
       exists c,
         chan m !! i = Some c /\
         status c <> DMA_STATUS_FREE P /\
         cb c <> 0 /\ fn = cb c /\ data = cb_data c).
Proof.
  intros Hlen Hnz.
  destruct (irq_handler_exact m Hlen Hnz) as (m' & Hrun & Hchan).
  exists m'. split; [exact Hrun|]. split; [exact Hchan|].
  intros i fn data. rewrite dispatched_spec. split.
  - intros (k & c & Hk & Hs & Hcb & Heq). injection Heq as -> -> ->.
    exists c. cbn [Nat.add]. repeat split; assumption.
  - intros (c & Hc & Hs & Hcb & -> & ->). exists i, c.
    repeat split; assumption.
Qed.

End IrqExact.

(** ** Release, registration and the next dispatch *)

Section IrqSlot.

Variable P : dw_platform.
Variable client : Z -> Z -> machine -> machine.
Variable channel : nat.

(** Client functions keep the channel array's size and do not change the
    slot of [channel]; they may change every other slot and the
    registers. *)
Hypothesis client_keeps_size :
  forall fn data m, length (chan (client fn data m)) = length (chan m).
Hypothesis client_keeps_slot :
  forall fn data m, chan (client fn data m) !! channel = chan m !! channel.

Lemma machine_at_slot fired :
  forall m j,
    chan (machine_at P client fired m j) !! channel = chan m !! channel.
Proof.
  induction fired as [|f rest IH]; intros m j; [reflexivity|].
  cbn [machine_at]. destruct (f_chan f <? j)%nat; [|reflexivity].
  rewrite IH. unfold after_dispatch. rewrite client_keeps_slot. reflexivity.
Qed.

Lemma in_handler_trace (m : machine) fired m' fn data :
  dw_dma_irq_handler P client m
  = (Ret tt, m',
     [ TracePoint 0x9999;
       IrqDisable (dma_irq P);
       IoRead (reg_addr P DW_STATUS_BLOCK)
         (regs m !!! reg_addr P DW_STATUS_BLOCK) ]
     ++ flat_map (dispatch_events P) fired
     ++ [ IrqClear (dma_irq P); IrqEnable (dma_irq P) ]) ->
  In (ClientCb channel fn data) (snd (dw_dma_irq_handler P client m)) <->
  In (mk_fired channel fn data) fired.
Proof.
  intros Hrun. rewrite Hrun. cbn [snd].
  rewrite !in_app_iff, in_flat_map. split.
  - intros [Hpre | [(f & Hf & Hin) | Hpost]].
    + cbn [In] in Hpre. destruct Hpre as [H|[H|[H|[]]]]; discriminate H.
    + apply in_dispatch_events in Hin. subst f. exact Hf.
    + cbn [In] in Hpost. destruct Hpost as [H|[H|[]]]; discriminate H.
  - intros Hf. right. left. exists (mk_fired channel fn data).
    split; [exact Hf | apply in_dispatch_events; reflexivity].
Qed.

(** A released channel is not called back.  Provided that client callbacks
    keep the channel array's size and do not change the slot of [channel]
    (they are free to change the other slots and the registers): after
    [dw_dma_channel_put] on [channel], the trace of the dispatcher holds no
    call for that channel, whatever the block-complete status reads. *)
Theorem released_channel_not_called (m : machine) fn data :
  length (chan m) = DW_MAX_CHAN ->
  (channel < DW_MAX_CHAN)%nat ->
  0 <= DMA_STATUS_FREE P < 256 ->
  ~ In (ClientCb channel fn data)
       (snd (dw_dma_irq_handler P client
               (snd (fst (dw_dma_channel_put P channel m))))).
Proof.
  intros Hlen Hch Hfree.
  assert (Hlt : (channel < length (chan m))%nat) by lia.
  destruct (lookup_lt_is_Some_2 _ _ Hlt) as [c Hc].
  assert (Hput : dw_dma_channel_put P channel m
                 = (Ret tt,
                    mk_machine
                      (<[channel := set_cb 0 (set_status (DMA_STATUS_FREE P) c)]>
                         (chan m)) (regs m), [])).
  { unfold dw_dma_channel_put.
    rewrite (bind_silent _ _ _ _ _ (upd_chan_some _ _ _ _ Hc)).
    unfold upd_chan. cbn [chan regs].
    rewrite list_lookup_insert_eq by exact Hlt.
    rewrite list_insert_insert_eq, (u8_small _ Hfree). reflexivity. }
  rewrite Hput. cbn [fst snd].
  set (m1 := mk_machine _ (regs m)).
  assert (Hlen1 : length (chan m1) = DW_MAX_CHAN).
  { unfold m1. cbn [chan]. rewrite length_insert. exact Hlen. }
  destruct (irq_handler_run P client client_keeps_size m1 Hlen1)
    as (fired & m' & Hrun & _ & _ & Hzero & Hnonzero).
  rewrite (in_handler_trace m1 fired m' fn data Hrun). intros Hin.
  destruct (Z.eq_dec (regs m1 !!! reg_addr P DW_STATUS_BLOCK) 0) as [Hz|Hnz].
  - destruct (Hzero Hz) as [Hnil _]. rewrite Hnil in Hin. exact Hin.
  - destruct (Hnonzero Hnz) as [_ Hslots].
    destruct (Hslots channel Hch) as (c' & Hc' & Hiff & Huniq).
    rewrite machine_at_slot in Hc'. unfold m1 in Hc'. cbn [chan] in Hc'.
    rewrite list_lookup_insert_eq in Hc' by exact Hlt.
    injection Hc' as <-.
    pose proof (Huniq _ Hin eq_refl) as Heq. rewrite Heq in Hin.
    apply Hiff in Hin as [Hs _]. apply Hs. reflexivity.
Qed.

(** A registered callback is called.  Provided that client callbacks keep
    the channel array's size and do not change the slot of [channel], and
    that the block-complete status reads nonzero: a non-null callback
    registered with [dw_dma_set_cb] on a channel that is not Free is
    called, with the registered argument, by the next dispatch. *)
Theorem registered_callback_is_called (m : machine) (c : dma_chan_data)
    fn data :
  length (chan m) = DW_MAX_CHAN ->
  chan m !! channel = Some c ->
  status c <> DMA_STATUS_FREE P ->
  fn <> 0 ->
  regs m !!! reg_addr P DW_STATUS_BLOCK <> 0 ->
  In (ClientCb channel fn data)
     (snd (dw_dma_irq_handler P client
             (snd (fst (dw_dma_set_cb channel fn data m))))).
Proof.
  intros Hlen Hc Hs Hfn Hnz.
  assert (Hlt : (channel < length (chan m))%nat)
    by (eapply lookup_lt_Some; exact Hc).
  assert (Hset : dw_dma_set_cb channel fn data m
                 = (Ret tt,
                    mk_machine
                      (<[channel := set_cb_data data (set_cb fn c)]> (chan m))
                      (regs m), [])).
  { unfold dw_dma_set_cb.
    rewrite (bind_silent _ _ _ _ _ (upd_chan_some _ _ _ _ Hc)).
    unfold upd_chan. cbn [chan regs].
    rewrite list_lookup_insert_eq by exact Hlt.
    rewrite list_insert_insert_eq. reflexivity. }
  rewrite Hset. cbn [fst snd].
  set (m1 := mk_machine _ (regs m)).
  assert (Hlen1 : length (chan m1) = DW_MAX_CHAN).
  { unfold m1. cbn [chan]. rewrite length_insert. exact Hlen. }
  destruct (irq_handler_run P client client_keeps_size m1 Hlen1)
    as (fired & m' & Hrun & _ & _ & _ & Hnonzero).
  rewrite (in_handler_trace m1 fired m' fn data Hrun).
  destruct (Hnonzero Hnz) as [_ Hslots].
  assert (Hch : (channel < DW_MAX_CHAN)%nat) by lia.
  destruct (Hslots channel Hch) as (c' & Hc' & Hiff & _).
  rewrite machine_at_slot in Hc'. unfold m1 in Hc'. cbn [chan] in Hc'.
  rewrite list_lookup_insert_eq in Hc' by exact Hlt.
  injection Hc' as <-.
  apply Hiff. split; assumption.
Qed.

End IrqSlot.


(** ** Channel pool: successive acquires and release *)

Section PoolUse.

Variable P : dw_platform.
Hypothesis free_not_draining : DMA_STATUS_FREE P <> DMA_STATUS_DRAINING P.

Lemma channel_get_cases (m : machine) :
  length (chan m) = DW_MAX_CHAN ->
  (exists k c rg t,
      chan m !! k = Some c /\
      status c = DMA_STATUS_FREE P /\
      (forall j cj, (j < k)%nat -> chan m !! j = Some cj ->
                    status cj <> DMA_STATUS_FREE P) /\
      dw_dma_channel_get P m
      = (Ret (Z.of_nat k),
         mk_machine (<[k := set_status (u8 (DMA_STATUS_IDLE P)) c]> (chan m)) rg,
         t))
  \/
  (no_free_slot P m /\ dw_dma_channel_get P m = (Ret (- ENODEV), m, [])).
Proof.
  intros Hlen. unfold dw_dma_channel_get.
  destruct (channel_get_scan_spec P free_not_draining DW_MAX_CHAN 0 m)
    as [(k & c & _ & Hc & Hf & Hpre & Hrun)|[Hnone Hrun]].
  - rewrite Hlen. reflexivity.
  - left. exists k, c. eexists _, _. split; [exact Hc|]. split; [exact Hf|].
    split.
    + intros j cj Hj. apply Hpre. lia.
    + rewrite Hrun, (channel_get_claim P k c m Hc). reflexivity.
  - right. split; [|exact Hrun].
    intros j cj Hcj. apply (Hnone j cj); [lia | exact Hcj].
Qed.

(** No double allocation: the index an acquire returned is not returned
    again by the next acquire. *)
Theorem acquire_twice_distinct (m m1 : machine) (i : nat) (t1 : list event) :
  length (chan m) = DW_MAX_CHAN ->
  0 <= DMA_STATUS_IDLE P < 256 ->
  DMA_STATUS_IDLE P <> DMA_STATUS_FREE P ->
  dw_dma_channel_get P m = (Ret (Z.of_nat i), m1, t1) ->
  fst (fst (dw_dma_channel_get P m1)) <> Ret (Z.of_nat i).
Proof.
  intros Hlen Hidle Hne Hrun.
  destruct (channel_get_cases m Hlen)
    as [(k & c & rg & t & Hc & Hf & _ & Hget)|[_ Hget]];
    rewrite Hget in Hrun.
  - injection Hrun as Hk <- _. apply Nat2Z.inj in Hk. subst k.
    assert (Hlt : (i < length (chan m))%nat) by (eapply lookup_lt_Some; exact Hc).
    set (m1 := mk_machine
                 (<[i := set_status (u8 (DMA_STATUS_IDLE P)) c]> (chan m)) rg).
    assert (Hlen1 : length (chan m1) = DW_MAX_CHAN).
    { unfold m1. cbn [chan]. rewrite length_insert. exact Hlen. }
    destruct (channel_get_cases m1 Hlen1)
      as [(k2 & c2 & rg2 & t2 & Hc2 & Hf2 & _ & Hget2)|[_ Hget2]];
      rewrite Hget2; cbn [fst].
    + intros Heq. injection Heq as Hk. apply Nat2Z.inj in Hk. subst k2.
      unfold m1 in Hc2. cbn [chan] in Hc2.
      rewrite list_lookup_insert_eq in Hc2 by exact Hlt.
      injection Hc2 as <-. cbn [status set_status] in Hf2.
      rewrite (u8_small _ Hidle) in Hf2. contradiction.
    + intros Heq. injection Heq as Heq. unfold ENODEV in Heq. lia.
  - injection Hrun as Hk _ _. unfold ENODEV in Hk. lia.
Qed.

(** After a release an acquire succeeds, with the released channel or a
    lower one. *)
Theorem release_then_acquire (m : machine) (channel : nat) :
  length (chan m) = DW_MAX_CHAN ->
  (channel < DW_MAX_CHAN)%nat ->
  0 <= DMA_STATUS_FREE P < 256 ->
  exists k m' t,
    dw_dma_channel_get P (snd (fst (dw_dma_channel_put P channel m)))
    = (Ret (Z.of_nat k), m', t) /\
    (k <= channel)%nat.
Proof.
  intros Hlen Hch Hfree.
  assert (Hlt : (channel < length (chan m))%nat) by lia.
  destruct (lookup_lt_is_Some_2 _ _ Hlt) as [c Hc].
  assert (Hput : dw_dma_channel_put P channel m
                 = (Ret tt,
                    mk_machine
                      (<[channel := set_cb 0 (set_status (DMA_STATUS_FREE P) c)]>
                         (chan m)) (regs m), [])).
  { unfold dw_dma_channel_put.
    rewrite (bind_silent _ _ _ _ _ (upd_chan_some _ _ _ _ Hc)).
    unfold upd_chan. cbn [chan regs].
    rewrite list_lookup_insert_eq by exact Hlt.
    rewrite list_insert_insert_eq, (u8_small _ Hfree). reflexivity. }
  rewrite Hput. cbn [fst snd].
  set (m1 := mk_machine _ (regs m)).
  assert (Hlen1 : length (chan m1) = DW_MAX_CHAN).
  { unfold m1. cbn [chan]. rewrite length_insert. exact Hlen. }
  assert (Hc1 : chan m1 !! channel
                = Some (set_cb 0 (set_status (DMA_STATUS_FREE P) c))).
  { unfold m1. cbn [chan]. apply list_lookup_insert_eq. exact Hlt. }
  destruct (channel_get_cases m1 Hlen1)
    as [(k & c' & rg & t & Hc' & Hf & Hpre & Hget)|[Hnone _]].
  - exists k. eexists _, _. split; [exact Hget|].
    destruct (le_lt_dec k channel) as [Hle|Hgt]; [exact Hle|].
    exfalso. apply (Hpre channel _ Hgt Hc1). reflexivity.
  - exfalso. apply (Hnone channel _ Hc1). reflexivity.
Qed.

Lemma get_on_split (k : nat) (m : machine) :
  0 <= DMA_STATUS_IDLE P < 256 ->
  DMA_STATUS_IDLE P <> DMA_STATUS_FREE P ->
  pool_split P k m ->
  (k < DW_MAX_CHAN)%nat ->
  exists m' t,
    dw_dma_channel_get P m = (Ret (Z.of_nat k), m', t) /\
    pool_split P (S k) m'.
Proof.
  intros Hidle Hne [Hlen Hsplit] Hk.
  assert (Hlt : (k < length (chan m))%nat) by lia.
  destruct (lookup_lt_is_Some_2 _ _ Hlt) as [ck Hck].
  destruct (channel_get_cases m Hlen)
    as [(k' & c & rg & t & Hc & Hf & Hpre & Hget)|[Hnone _]].
  - assert (k' = k).
    { destruct (lt_eq_lt_dec k' k) as [[Hlt'|Heq]|Hgt]; [|exact Heq|].
      - exfalso. destruct (Hsplit k' c Hc) as [Hidle' _].
        specialize (Hidle' Hlt'). congruence.
      - exfalso. apply (Hpre k ck Hgt Hck).
        destruct (Hsplit k ck Hck) as [_ Hfree]. apply Hfree. lia. }
    subst k'. eexists _, _. split; [exact Hget|].
    split; [cbn [chan]; rewrite length_insert; exact Hlen|].
    intros j cj Hcj. cbn [chan] in Hcj.
    destruct (decide (j = k)) as [->|Hjk].
    + rewrite list_lookup_insert_eq in Hcj by exact Hlt.
      injection Hcj as <-. cbn [status set_status].
      rewrite (u8_small _ Hidle). split; [reflexivity | lia].
    + rewrite list_lookup_insert_ne in Hcj by congruence.
      destruct (Hsplit j cj Hcj) as [Hlow Hhigh].
      split; [intros Hj; apply Hlow; lia | intros Hj; apply Hhigh; lia].
  - exfalso. apply (Hnone k ck Hck).
    destruct (Hsplit k ck Hck) as [_ Hfree]. apply Hfree. lia.
Qed.

Lemma get_on_full (m : machine) :
  DMA_STATUS_IDLE P <> DMA_STATUS_FREE P ->
  pool_split P DW_MAX_CHAN m ->
  dw_dma_channel_get P m = (Ret (- ENODEV), m, []).
Proof.
  intros Hne [Hlen Hsplit].
  destruct (channel_get_cases m Hlen)
    as [(k & c & rg & t & Hc & Hf & _ & _)|[_ Hget]]; [|exact Hget].
  exfalso. destruct (Hsplit k c Hc) as [Hidle _].
  assert (Hk : (k < DW_MAX_CHAN)%nat).
  { apply lookup_lt_Some in Hc. rewrite Hlen in Hc. exact Hc. }
  specialize (Hidle Hk). congruence.
Qed.

Lemma acquire_many_split n :
  forall k m,
    0 <= DMA_STATUS_IDLE P < 256 ->
    DMA_STATUS_IDLE P <> DMA_STATUS_FREE P ->
    (k + n)%nat = DW_MAX_CHAN ->
    pool_split P k m ->
    fst (fst (acquire_many P (S n) m))
    = Ret (map Z.of_nat (seq k n) ++ [- ENODEV]).
Proof.
  induction n as [|n IH]; intros k m Hidle Hne Hkn Hsplit.
  - rewrite Nat.add_0_r in Hkn. subst k.
    cbn [acquire_many].
    rewrite (bind_silent _ _ _ _ _ (get_on_full m Hne Hsplit)).
    reflexivity.
  - destruct (get_on_split k m Hidle Hne Hsplit) as (m' & t & Hget & Hsplit');
      [lia|].
    specialize (IH (S k) m' Hidle Hne ltac:(lia) Hsplit').
    change (acquire_many P (S (S n)) m)
      with ((r <- dw_dma_channel_get P ;;
             rs <- acquire_many P (S n) ;; ret (r :: rs)) m).
    rewrite (bind_ret _ _ _ _ _ _ Hget). cbn [fst].
    unfold bind at 1.
    destruct (acquire_many P (S n) m') as [[r2 m2] t2]. cbn [fst] in IH.
    subst r2. reflexivity.
Qed.

(** From a pool whose eight channels are all Free, eight successive
    acquires return 0, 1, ..., 7 and the ninth returns -ENODEV. *)
Theorem acquire_all_then_fail (m : machine) :
  0 <= DMA_STATUS_IDLE P < 256 ->
  DMA_STATUS_IDLE P <> DMA_STATUS_FREE P ->
  length (chan m) = DW_MAX_CHAN ->
  (forall j c, chan m !! j = Some c -> status c = DMA_STATUS_FREE P) ->
  fst (fst (acquire_many P 9 m))
  = Ret [0; 1; 2; 3; 4; 5; 6; 7; - ENODEV].
Proof.
  intros Hidle Hne Hlen Hfree.
  apply (acquire_many_split 8 0 m Hidle Hne eq_refl).
  split; [exact Hlen|].
  intros j c Hc. split; [lia | intros _; apply (Hfree j c Hc)].
Qed.

End PoolUse.

(** ** Descriptor chain builder: what it leaves alone *)

Section KeepsOwner.

Context {A B : Type}.

Lemma keeps_owner_bind (x : M dma_chan_data A) (f : A -> M dma_chan_data B) :
  keeps_owner x -> (forall a, keeps_owner (f a)) -> keeps_owner (bind x f).
Proof.
  intros Hx Hf c. unfold bind. specialize (Hx c).
  destruct (x c) as [[r c1] t1]. cbn [fst snd] in Hx.
  destruct Hx as (Hs & Hcb & Hd).
  destruct r as [a|u].
  - specialize (Hf a c1). destruct (f a c1) as [[r2 c2] t2].
    cbn [fst snd] in *. destruct Hf as (Hs2 & Hcb2 & Hd2).
    repeat split; congruence.
  - cbn [fst snd]. repeat split; assumption.
Qed.

End KeepsOwner.

Lemma keeps_owner_pure {A} (r : res A) :
  keeps_owner (fun c : dma_chan_data => (r, c, [])).
Proof. intros c. repeat split. Qed.

Lemma keeps_owner_emit e : keeps_owner (@emit dma_chan_data e).
Proof. intros c. repeat split. Qed.

Lemma keeps_owner_get : keeps_owner (@get dma_chan_data).
Proof. intros c. repeat split. Qed.

Lemma keeps_owner_modify f :
  (forall c, status (f c) = status c /\ cb (f c) = cb c /\
             cb_data (f c) = cb_data c) ->
  keeps_owner (modify f).
Proof. intros Hf c. apply Hf. Qed.

Lemma keeps_owner_upd_desc k f : keeps_owner (upd_desc k f).
Proof.
  intros c. unfold upd_desc. destruct (lli c) as [b|]; [|repeat split].
  destruct (lli_cells b !! k); repeat split.
Qed.

Section SetConfigFrame.

Variable P : dw_platform.

Lemma keeps_owner_count_elems elems : keeps_owner (count_elems elems).
Proof.
  induction elems as [|e rest IH]; cbn [count_elems].
  - apply (keeps_owner_pure (Ret tt)).
  - apply keeps_owner_bind; [apply keeps_owner_get | intros c].
    apply keeps_owner_bind; [|intros _; exact IH].
    destruct (INT_MAX <=? desc_count c).
    + apply (keeps_owner_pure (Undef IntOverflow)).
    + apply keeps_owner_modify. intros c0. repeat split.
Qed.

Lemma keeps_owner_fill_lli elems : forall k, keeps_owner (fill_lli P k elems).
Proof.
  induction elems as [|e rest IH]; intros k; cbn [fill_lli].
  - apply (keeps_owner_pure (Ret tt)).
  - apply keeps_owner_bind; [apply keeps_owner_upd_desc | intros _].
    apply keeps_owner_bind; [apply keeps_owner_upd_desc | intros _].
    apply keeps_owner_bind; [|intros _; apply IH].
    destruct rest as [|e' rest'].
    + apply keeps_owner_bind; [apply keeps_owner_upd_desc | intros _].
      apply keeps_owner_bind; [apply keeps_owner_upd_desc | intros _].
      apply keeps_owner_modify. intros c0. repeat split.
    + apply keeps_owner_bind; [apply keeps_owner_get | intros c].
      destruct (lli c) as [b|]; [|apply (keeps_owner_pure (Undef NullDeref))].
      apply keeps_owner_bind; [apply keeps_owner_upd_desc | intros _].
      apply keeps_owner_upd_desc.
Qed.

Lemma keeps_owner_config_direction dir : keeps_owner (config_direction P dir).
Proof.
  unfold config_direction.
  repeat match goal with
         | |- keeps_owner (if ?b then _ else _) => destruct b
         | |- keeps_owner (bind _ _) => apply keeps_owner_bind; [|intros _]
         | |- keeps_owner (upd_desc _ _) => apply keeps_owner_upd_desc
         | |- keeps_owner (modify _) =>
             apply keeps_owner_modify; intros c0; repeat split
         | |- keeps_owner (ret _) => apply (keeps_owner_pure (Ret tt))
         end.
Qed.

Lemma keeps_owner_set_config_chan rmalloc config :
  keeps_owner (set_config_chan P rmalloc config).
Proof.
  unfold set_config_chan.
  apply keeps_owner_bind; [apply keeps_owner_count_elems | intros _].
  apply keeps_owner_bind; [apply keeps_owner_get | intros c].
  apply keeps_owner_bind; [apply keeps_owner_emit | intros _].
  apply keeps_owner_bind;
    [apply keeps_owner_modify; intros c0; repeat split | intros _].
  do 5 (apply keeps_owner_bind; [apply keeps_owner_upd_desc | intros _]).
  apply keeps_owner_bind; [apply keeps_owner_config_direction | intros _].
  apply keeps_owner_bind; [apply keeps_owner_upd_desc | intros _].
  apply keeps_owner_bind; [apply keeps_owner_fill_lli | intros _].
  apply (keeps_owner_pure (Ret 0)).
Qed.

(** set_config neither tests nor changes the state of the channel it is
    given: however the call ends, the slot keeps its state (Free, Idle,
    Running or Draining alike), its callback and callback argument; every
    other slot and every register are as before. *)
Theorem set_config_keeps_state (rmalloc : Z -> option lli_block)
    (channel : nat) (config : dma_sg_config) (m : machine)
    (c : dma_chan_data) :
  chan m !! channel = Some c ->
  exists r c' t,
    dw_dma_set_config P rmalloc channel config m
    = (r, mk_machine (<[channel := c']> (chan m)) (regs m), t) /\
    status c' = status c /\
    cb c' = cb c /\
    cb_data c' = cb_data c.
Proof.
  intros Hc.
  pose proof (keeps_owner_set_config_chan rmalloc config c) as Hk.
  destruct (set_config_chan P rmalloc config c) as [[r c'] t] eqn:Hrun.
  cbn [fst snd] in Hk. exists r, c', t. split; [|exact Hk].
  unfold dw_dma_set_config. apply (on_chan_run _ _ _ _ _ _ _ Hc Hrun).
Qed.

End SetConfigFrame.

(** ** Descriptor chain builder: the head descriptor and the config words *)

Lemma flags_clear_clear_same D x :
  0 <= D < 2 ^ 32 -> flags_clear D (clear_bits D x).
Proof.
  intros HD. unfold flags_clear, clear_bits. rewrite land_u32_l by exact HD.
  apply Z.bits_inj'. intros n Hn.
  rewrite !Z.land_spec, Z.lnot_spec, Z.bits_0 by exact Hn.
  destruct (Z.testbit x n), (Z.testbit D n); reflexivity.
Qed.

Section SetConfigHead.

Variable P : dw_platform.

(** A successful run, given what the direction switch did to the head
    descriptor and to the high config word. *)
Lemma set_config_chan_run_with rmalloc config st l0 dc cl ch fn fd base d0 tl
    d1 ch' :
  dc + Z.of_nat (length (elem_list config)) <= INT_MAX ->
  rmalloc (u32 (lli_size P * (dc + Z.of_nat (length (elem_list config)))))
  = Some (mk_block base (d0 :: tl)) ->
  (length (elem_list config) <= S (length tl))%nat ->
  config_direction P (direction config)
    (mk_chan st (Some (mk_block base (head_pre P config d0 :: tl)))
       (dc + Z.of_nat (length (elem_list config))) cl ch fn fd)
  = (Ret tt,
     mk_chan st (Some (mk_block base (d1 :: tl)))
       (dc + Z.of_nat (length (elem_list config))) cl ch' fn fd,
     []) ->
  exists cells',
    set_config_chan P rmalloc config (mk_chan st l0 dc cl ch fn fd)
    = (Ret 0,
       mk_chan st (Some (mk_block base cells'))
         (dc + Z.of_nat (length (elem_list config)))
         (if has_next (elem_list config)
          then clear_bits
                 (Z.lor (DWC_CFGL_RELOAD_SAR P) (DWC_CFGL_RELOAD_DAR P)) cl
          else cl)
         ch' fn fd,
       [Rmalloc (u32 (lli_size P * (dc + Z.of_nat (length (elem_list config)))))])
    /\
    (forall j e, elem_list config !! j = Some e ->
       exists d,
         (ctrl_hi_clear (DWC_CTLH_DONE P) d1 :: tl) !! j = Some d /\
         cells' !! j
         = Some (chain_desc P base j e
                   (has_next (drop (S j) (elem_list config))) d)).
Proof.
  intros Hmax Halloc Hroom Hdir. unfold set_config_chan.
  rewrite (bind_silent _ _ _ _ _
             (count_elems_run (elem_list config) (mk_chan st l0 dc cl ch fn fd) Hmax)).
  unfold set_desc_count at 1. cbn [status lli desc_count cfg_lo cfg_hi cb cb_data].
  unfold bind at 1. cbn [get desc_count].
  unfold bind at 1. cbn [emit].
  unfold bind at 1. cbn [modify]. rewrite Halloc.
  unfold set_lli. cbn [status lli desc_count cfg_lo cfg_hi cb cb_data].
  do 5 (erewrite bind_silent by (apply upd_desc_run; reflexivity);
        cbn [insert list_insert]).
  fold (head_pre P config d0).
  rewrite (bind_silent _ _ _ _ _ Hdir).
  erewrite bind_silent by (apply upd_desc_run; reflexivity).
  cbn [insert list_insert].
  destruct (fill_lli_spec P (elem_list config) 0 st base
              (ctrl_hi_clear (DWC_CTLH_DONE P) d1 :: tl)
              (dc + Z.of_nat (length (elem_list config))) cl ch' fn fd)
    as (cells' & Hrun & _ & _ & Hin); [cbn [length]; lia|].
  rewrite (bind_silent _ _ _ _ _ Hrun).
  exists cells'. split; [reflexivity|].
  intros j e He. destruct (Hin j e He) as (d & Hd & Hres).
  exists d. split; [exact Hd | exact Hres].
Qed.

(** The direction switch stores only into the head's control-low word and
    the slot's high config word. *)
Lemma config_direction_total dir st base d tl dc cl ch fn fd :
  exists d1 ch',
    config_direction P dir
      (mk_chan st (Some (mk_block base (d :: tl))) dc cl ch fn fd)
    = (Ret tt, mk_chan st (Some (mk_block base (d1 :: tl))) dc cl ch' fn fd, [])
    /\ ctrl_hi d1 = ctrl_hi d.
Proof.
  unfold config_direction.
  repeat match goal with
         | |- context [if ?b then _ else _] => destruct b
         end;
    eexists _, _; (split; [reflexivity | reflexivity]).
Qed.

Lemma config_direction_addresses dir st base d tl dc cl ch fn fd :
  exists d1 ch',
    config_direction P dir
      (mk_chan st (Some (mk_block base (d :: tl))) dc cl ch fn fd)
    = (Ret tt, mk_chan st (Some (mk_block base (d1 :: tl))) dc cl ch' fn fd, [])
    /\ sar d1 = sar d /\ dar d1 = dar d /\ llp d1 = llp d
    /\ ctrl_hi d1 = ctrl_hi d.
Proof.
  unfold config_direction.
  repeat match goal with
         | |- context [if ?b then _ else _] => destruct b
         end;
    eexists _, _; (split; [reflexivity | repeat split]).
Qed.

(** An empty request builds no chain.  On a channel whose descriptor count
    is at least 1 (left by earlier requests), a request with an empty
    segment list for which the allocator returns a block of at least one
    descriptor returns 0 after the one allocation; the descriptor count and
    the low config word are as before, and of the fresh block only the
    head's control words are written: the head's source address,
    destination address and next-descriptor pointer, and every later
    descriptor, are what the allocated memory held, so no terminator is
    written and the reload bits are not cleared. *)
Theorem set_config_empty_builds_no_chain (rmalloc : Z -> option lli_block)
    (channel : nat) (config : dma_sg_config) (m : machine)
    (c : dma_chan_data) base d0 tl :
  chan m !! channel = Some c ->
  elem_list config = [] ->
  0 < desc_count c ->
  rmalloc (u32 (lli_size P * desc_count c)) = Some (mk_block base (d0 :: tl)) ->
  exists d1 ch',
    dw_dma_set_config P rmalloc channel config m
    = (Ret 0,
       mk_machine
         (<[channel := mk_chan (status c) (Some (mk_block base (d1 :: tl)))
                         (desc_count c) (cfg_lo c) ch' (cb c) (cb_data c)]>
            (chan m))
         (regs m),
       [Rmalloc (u32 (lli_size P * desc_count c))]) /\
    sar d1 = sar d0 /\ dar d1 = dar d0 /\ llp d1 = llp d0 /\
    ctrl_hi d1 = clear_bits (DWC_CTLH_DONE P) (ctrl_hi d0).
Proof.
  intros Hc Hnil _ Halloc. destruct c as [st l0 dc cl ch fn fd].
  cbn [status lli desc_count cfg_lo cfg_hi cb cb_data] in *.
  destruct (config_direction_addresses (direction config) st base
              (head_pre P config d0) tl dc cl ch fn fd)
    as (d1 & ch' & Hdir & Hsar & Hdar & Hllp & Hhi).
  exists (ctrl_hi_clear (DWC_CTLH_DONE P) d1), ch'. split.
  - unfold dw_dma_set_config. apply (on_chan_run _ _ _ _ _ _ _ Hc).
    unfold set_config_chan. rewrite Hnil. cbn [count_elems fill_lli].
    unfold bind at 1. cbn [ret].
    unfold bind at 1. cbn [get desc_count].
    unfold bind at 1. cbn [emit].
    unfold bind at 1. cbn [modify]. rewrite Halloc.
    unfold set_lli. cbn [status lli desc_count cfg_lo cfg_hi cb cb_data].
    do 5 (erewrite bind_silent by (apply upd_desc_run; reflexivity);
          cbn [insert list_insert]).
    fold (head_pre P config d0).
    rewrite (bind_silent _ _ _ _ _ Hdir).
    erewrite bind_silent by (apply upd_desc_run; reflexivity).
    cbn [insert list_insert]. reflexivity.
  - unfold ctrl_hi_clear, set_ctrl_hi, head_pre, ctrl_lo_or, set_ctrl_lo in *.
    cbn [sar dar llp ctrl_lo ctrl_hi] in *.
    rewrite Hsar, Hdar, Hllp, Hhi. repeat split.
Qed.

(** The head of the chain when the switch or-ed [F] into its control-low
    word. *)
Lemma set_config_chan_head_flags F x rmalloc config st l0 dc cl ch fn fd base
    d0 tl d1 ch' :
  elem_list config <> [] ->
  dc + Z.of_nat (length (elem_list config)) <= INT_MAX ->
  rmalloc (u32 (lli_size P * (dc + Z.of_nat (length (elem_list config)))))
  = Some (mk_block base (d0 :: tl)) ->
  (length (elem_list config) <= S (length tl))%nat ->
  config_direction P (direction config)
    (mk_chan st (Some (mk_block base (head_pre P config d0 :: tl)))
       (dc + Z.of_nat (length (elem_list config))) cl ch fn fd)
  = (Ret tt,
     mk_chan st (Some (mk_block base (d1 :: tl)))
       (dc + Z.of_nat (length (elem_list config))) cl ch' fn fd,
     []) ->
  ctrl_lo d1 = or_bits F x ->
  0 <= F < 2 ^ 32 ->
  Z.land F (Z.lor (DWC_CTLL_LLP_S_EN P) (DWC_CTLL_LLP_D_EN P)) = 0 ->
  exists c' cells' d,
    set_config_chan P rmalloc config (mk_chan st l0 dc cl ch fn fd)
    = (Ret 0, c',
       [Rmalloc (u32 (lli_size P * (dc + Z.of_nat (length (elem_list config)))))])
    /\
    lli c' = Some (mk_block base cells') /\
    cells' !! 0%nat = Some d /\
    flags_set F (ctrl_lo d) /\
    cfg_hi c' = ch'.
Proof.
  intros Hne Hmax Halloc Hroom Hdir Hlo HF Hdisj.
  destruct (set_config_chan_run_with rmalloc config st l0 dc cl ch fn fd base
              d0 tl d1 ch' Hmax Halloc Hroom Hdir) as (cells' & Hrun & Hin).
  destruct (elem_list config) as [|e rest] eqn:Helems; [contradiction|].
  destruct (Hin 0%nat e eq_refl) as (d & Hd & Hres).
  cbn in Hd. injection Hd as <-.
  eexists _, cells', _. split; [exact Hrun|]. split; [reflexivity|].
  split; [exact Hres|]. split; [|reflexivity].
  rewrite chain_desc_ctrl_lo.
  assert (Hset : flags_set F (ctrl_lo (ctrl_hi_clear (DWC_CTLH_DONE P) d1))).
  { cbn [ctrl_hi_clear set_ctrl_hi ctrl_lo]. rewrite Hlo.
    apply flags_set_or_same. exact HF. }
  destruct (has_next (drop 1 (e :: rest))).
  - apply flags_set_or_other; [exact HF | exact Hset].
  - apply flags_set_clear_other; [exact HF | exact Hdisj | exact Hset].
Qed.

End SetConfigHead.

Lemma chain_desc_addrs (P : dw_platform) base k e nx d :
  sar (chain_desc P base k e nx d) = u32 (src e) /\
  dar (chain_desc P base k e nx d) = u32 (dest e) /\
  llp (chain_desc P base k e nx d)
  = (if nx then desc_addr P base (S k) else 0) /\
  ctrl_hi (chain_desc P base k e nx d) = ctrl_hi d.
Proof. unfold chain_desc. destruct nx; repeat split. Qed.

Section SetConfigMore.

Variable P : dw_platform.

Ltac direction_case Hdir :=
  unfold config_direction;
  repeat match goal with
         | H : ?a = ?b |- context [?a =? ?b] => rewrite (proj2 (Z.eqb_eq a b) H)
         | H : ?a <> ?b |- context [?a =? ?b] => rewrite (proj2 (Z.eqb_neq a b) H)
         end;
  reflexivity.

(** The addressing flags and the peripheral field by direction: the head
    descriptor of the chain has source/destination increment or fixed
    flags as the direction says, and the slot's high config word gets the
    destination id (mem to device), the source id (device to mem), both
    (device to device) or is left alone (mem to mem). *)
Theorem set_config_direction_table (rmalloc : Z -> option lli_block)
    (channel : nat) (config : dma_sg_config) (m : machine)
    (c : dma_chan_data) (b : lli_block) :
  chan m !! channel = Some c ->
  elem_list config <> [] ->
  desc_count c + Z.of_nat (length (elem_list config)) <= INT_MAX ->
  rmalloc (u32 (lli_size P
                * (desc_count c + Z.of_nat (length (elem_list config)))))
  = Some b ->
  (length (elem_list config) <= length (lli_cells b))%nat ->
  NoDup [DMA_DIR_MEM_TO_MEM P; DMA_DIR_MEM_TO_DEV P;
         DMA_DIR_DEV_TO_MEM P; DMA_DIR_DEV_TO_DEV P] ->
  Forall (fun F =>
            0 <= F < 2 ^ 32 /\
            Z.land F (Z.lor (DWC_CTLL_LLP_S_EN P) (DWC_CTLL_LLP_D_EN P)) = 0)
         [Z.lor (DWC_CTLL_SRC_INC P) (DWC_CTLL_DST_INC P);
          Z.lor (DWC_CTLL_SRC_INC P) (DWC_CTLL_DST_FIX P);
          Z.lor (DWC_CTLL_SRC_FIX P) (DWC_CTLL_DST_INC P);
          Z.lor (DWC_CTLL_SRC_FIX P) (DWC_CTLL_DST_FIX P)] ->
  exists c' cells' d,
    dw_dma_set_config P rmalloc channel config m
    = (Ret 0, mk_machine (<[channel := c']> (chan m)) (regs m),
       [Rmalloc (u32 (lli_size P
                      * (desc_count c + Z.of_nat (length (elem_list config)))))])
    /\
    lli c' = Some (mk_block (lli_base b) cells') /\
    cells' !! 0%nat = Some d /\
    (direction config = DMA_DIR_MEM_TO_MEM P ->
     flags_set (Z.lor (DWC_CTLL_SRC_INC P) (DWC_CTLL_DST_INC P)) (ctrl_lo d) /\
     cfg_hi c' = cfg_hi c) /\
    (direction config = DMA_DIR_MEM_TO_DEV P ->
     flags_set (Z.lor (DWC_CTLL_SRC_INC P) (DWC_CTLL_DST_FIX P)) (ctrl_lo d) /\
     cfg_hi c' = or_bits (DWC_CFGH_DST_PER P 0) (cfg_hi c)) /\
    (direction config = DMA_DIR_DEV_TO_MEM P ->
     flags_set (Z.lor (DWC_CTLL_SRC_FIX P) (DWC_CTLL_DST_INC P)) (ctrl_lo d) /\
     cfg_hi c' = or_bits (DWC_CFGH_SRC_PER P 0) (cfg_hi c)) /\
    (direction config = DMA_DIR_DEV_TO_DEV P ->
     flags_set (Z.lor (DWC_CTLL_SRC_FIX P) (DWC_CTLL_DST_FIX P)) (ctrl_lo d) /\
     cfg_hi c' = or_bits (Z.lor (DWC_CFGH_SRC_PER P 0) (DWC_CFGH_DST_PER P 0))
                   (cfg_hi c)).
Proof.
  intros Hc Hne Hmax Halloc Hroom Hnd HF.
  destruct c as [st l0 dc cl ch fn fd]. destruct b as [base cells].
  cbn [desc_count lli_base lli_cells cfg_hi] in *.
  assert (HN : (1 <= length (elem_list config))%nat).
  { destruct (elem_list config); [contradiction | cbn [length]; lia]. }
  destruct cells as [|d0 tl]; [cbn [length] in Hroom; lia|].
  cbn [length] in Hroom.
  apply Forall_cons in HF as [[HF1 HD1] HF].
  apply Forall_cons in HF as [[HF2 HD2] HF].
  apply Forall_cons in HF as [[HF3 HD3] HF].
  apply Forall_cons in HF as [[HF4 HD4] _].
  apply NoDup_cons in Hnd as [Hn1 Hnd].
  apply NoDup_cons in Hnd as [Hn2 Hnd].
  apply NoDup_cons in Hnd as [Hn3 _].
  apply not_elem_of_cons in Hn1 as [H12 Hn1].
  apply not_elem_of_cons in Hn1 as [H13 Hn1].
  apply not_elem_of_cons in Hn1 as [H14 _].
  apply not_elem_of_cons in Hn2 as [H23 Hn2].
  apply not_elem_of_cons in Hn2 as [H24 _].
  apply not_elem_of_cons in Hn3 as [H34 _].
  apply not_eq_sym in H12, H13, H14, H23, H24, H34.
  assert (Hlift : forall c',
    set_config_chan P rmalloc config (mk_chan st l0 dc cl ch fn fd)
    = (Ret 0, c',
       [Rmalloc (u32 (lli_size P * (dc + Z.of_nat (length (elem_list config)))))]) ->
    dw_dma_set_config P rmalloc channel config m
    = (Ret 0, mk_machine (<[channel := c']> (chan m)) (regs m),
       [Rmalloc (u32 (lli_size P * (dc + Z.of_nat (length (elem_list config)))))])).
  { intros c' Hrun. unfold dw_dma_set_config.
    apply (on_chan_run _ _ _ _ _ _ _ Hc Hrun). }
  destruct (Z.eq_dec (direction config) (DMA_DIR_MEM_TO_MEM P)) as [E1|E1].
  { edestruct (set_config_chan_head_flags P
                 (Z.lor (DWC_CTLL_SRC_INC P) (DWC_CTLL_DST_INC P)))
      as (c' & cells' & d & Hrun & Hlli & Hd & Hfl & Hhi);
      [exact Hne | exact Hmax | exact Halloc | exact Hroom
      | direction_case E1 | reflexivity | exact HF1 | exact HD1 |].
    exists c', cells', d. split; [exact (Hlift c' Hrun)|].
    split; [exact Hlli|]. split; [exact Hd|].
    repeat split; intros; try congruence; assumption. }
  destruct (Z.eq_dec (direction config) (DMA_DIR_MEM_TO_DEV P)) as [E2|E2].
  { edestruct (set_config_chan_head_flags P
                 (Z.lor (DWC_CTLL_SRC_INC P) (DWC_CTLL_DST_FIX P)))
      as (c' & cells' & d & Hrun & Hlli & Hd & Hfl & Hhi);
      [exact Hne | exact Hmax | exact Halloc | exact Hroom
      | direction_case E2 | reflexivity | exact HF2 | exact HD2 |].
    exists c', cells', d. split; [exact (Hlift c' Hrun)|].
    split; [exact Hlli|]. split; [exact Hd|].
    repeat split; intros; try congruence; assumption. }
  destruct (Z.eq_dec (direction config) (DMA_DIR_DEV_TO_MEM P)) as [E3|E3].
  { edestruct (set_config_chan_head_flags P
                 (Z.lor (DWC_CTLL_SRC_FIX P) (DWC_CTLL_DST_INC P)))
      as (c' & cells' & d & Hrun & Hlli & Hd & Hfl & Hhi);
      [exact Hne | exact Hmax | exact Halloc | exact Hroom
      | direction_case E3 | reflexivity | exact HF3 | exact HD3 |].
    exists c', cells', d. split; [exact (Hlift c' Hrun)|].
    split; [exact Hlli|]. split; [exact Hd|].
    repeat split; intros; try congruence; assumption. }
  destruct (Z.eq_dec (direction config) (DMA_DIR_DEV_TO_DEV P)) as [E4|E4].
  { edestruct (set_config_chan_head_flags P
                 (Z.lor (DWC_CTLL_SRC_FIX P) (DWC_CTLL_DST_FIX P)))
      as (c' & cells' & d & Hrun & Hlli & Hd & Hfl & Hhi);
      [exact Hne | exact Hmax | exact Halloc | exact Hroom
      | direction_case E4 | reflexivity | exact HF4 | exact HD4 |].
    exists c', cells', d. split; [exact (Hlift c' Hrun)|].
    split; [exact Hlli|]. split; [exact Hd|].
    repeat split; intros; try congruence; assumption. }
  destruct (config_direction_total P (direction config) st base
              (head_pre P config d0) tl
              (dc + Z.of_nat (length (elem_list config))) cl ch fn fd)
    as (d1 & ch' & Hdir & _).
  destruct (set_config_chan_run_with P rmalloc config st l0 dc cl ch fn fd base
              d0 tl d1 ch' Hmax Halloc Hroom Hdir) as (cells' & Hrun & Hin).
  destruct (lookup_lt_is_Some_2 (elem_list config) 0%nat) as [e He]; [lia|].
  destruct (Hin 0%nat e He) as (d & _ & Hres).
  eexists _, cells', _. split; [exact (Hlift _ Hrun)|].
  split; [reflexivity|]. split; [exact Hres|].
  repeat split; intros; contradiction.
Qed.

(** For a request of N >= 1 segments the head descriptor's done flag is
    cleared in its control-high word, and the channel's reload-source and
    reload-destination flags are cleared in its low config word. *)
Theorem set_config_clears_done_and_reload (rmalloc : Z -> option lli_block)
    (channel : nat) (config : dma_sg_config) (m : machine)
    (c : dma_chan_data) (b : lli_block) :
  chan m !! channel = Some c ->
  elem_list config <> [] ->
  desc_count c + Z.of_nat (length (elem_list config)) <= INT_MAX ->
  rmalloc (u32 (lli_size P
                * (desc_count c + Z.of_nat (length (elem_list config)))))
  = Some b ->
  (length (elem_list config) <= length (lli_cells b))%nat ->
  0 <= DWC_CTLH_DONE P < 2 ^ 32 ->
  0 <= DWC_CFGL_RELOAD_SAR P < 2 ^ 32 ->
  0 <= DWC_CFGL_RELOAD_DAR P < 2 ^ 32 ->
  exists c' cells' d,
    dw_dma_set_config P rmalloc channel config m
    = (Ret 0, mk_machine (<[channel := c']> (chan m)) (regs m),
       [Rmalloc (u32 (lli_size P
                      * (desc_count c + Z.of_nat (length (elem_list config)))))])
    /\
    lli c' = Some (mk_block (lli_base b) cells') /\
    cells' !! 0%nat = Some d /\
    flags_clear (DWC_CTLH_DONE P) (ctrl_hi d) /\
    flags_clear (DWC_CFGL_RELOAD_SAR P) (cfg_lo c') /\
    flags_clear (DWC_CFGL_RELOAD_DAR P) (cfg_lo c').
Proof.
  intros Hc Hne Hmax Halloc Hroom HD HS HR.
  destruct c as [st l0 dc cl ch fn fd]. destruct b as [base cells].
  cbn [desc_count lli_base lli_cells] in *.
  assert (HN : (1 <= length (elem_list config))%nat).
  { destruct (elem_list config); [contradiction | cbn [length]; lia]. }
  destruct cells as [|d0 tl]; [cbn [length] in Hroom; lia|].
  cbn [length] in Hroom.
  destruct (config_direction_total P (direction config) st base
              (head_pre P config d0) tl
              (dc + Z.of_nat (length (elem_list config))) cl ch fn fd)
    as (d1 & ch' & Hdir & _).
  destruct (set_config_chan_run_with P rmalloc config st l0 dc cl ch fn fd base
              d0 tl d1 ch' Hmax Halloc Hroom Hdir) as (cells' & Hrun & Hin).
  destruct (lookup_lt_is_Some_2 (elem_list config) 0%nat) as [e He]; [lia|].
  destruct (Hin 0%nat e He) as (d & Hd & Hres).
  cbn in Hd. injection Hd as <-.
  eexists _, cells', _. split.
  { unfold dw_dma_set_config. apply (on_chan_run _ _ _ _ _ _ _ Hc Hrun). }
  split; [reflexivity|]. split; [exact Hres|].
  assert (Hnx : has_next (elem_list config) = true).
  { destruct (elem_list config); [contradiction | reflexivity]. }
  cbn [cfg_lo]. rewrite Hnx.
  split.
  { destruct (chain_desc_addrs P base 0 e
                (has_next (drop 1 (elem_list config)))
                (ctrl_hi_clear (DWC_CTLH_DONE P) d1)) as (_ & _ & _ & ->).
    cbn [ctrl_hi_clear set_ctrl_hi ctrl_hi].
    apply flags_clear_clear_same. exact HD. }
  split.
  - apply flags_clear_clear_left. exact HS.
  - apply flags_clear_clear_right. exact HR.
Qed.

(** Configure, then start: after a successful set_config for segments
    [e0 :: rest], start writes segment [e0]'s source and destination
    addresses to the channel's address registers and, to its link register,
    the address of the second descriptor (0 when [e0] is the only segment);
    the slot ends Running with the chain attached. *)
Theorem set_config_then_start (rmalloc : Z -> option lli_block)
    (channel : nat) (config : dma_sg_config) (m : machine)
    (c : dma_chan_data) (b : lli_block) (e0 : dma_sg_elem)
    (rest : list dma_sg_elem) :
  length (chan m) = DW_MAX_CHAN ->
  chan m !! channel = Some c ->
  elem_list config = e0 :: rest ->
  desc_count c + Z.of_nat (length (elem_list config)) <= INT_MAX ->
  rmalloc (u32 (lli_size P
                * (desc_count c + Z.of_nat (length (elem_list config)))))
  = Some b ->
  (length (elem_list config) <= length (lli_cells b))%nat ->
  exists m1 m2 c2 tail,
    dw_dma_set_config P rmalloc channel config m
    = (Ret 0, m1,
       [Rmalloc (u32 (lli_size P
                      * (desc_count c + Z.of_nat (length (elem_list config)))))])
    /\
    dw_dma_start P channel m1
    = (Ret 0, m2,
       IoWrite (reg_addr P (DW_SAR (Z.of_nat channel))) (u32 (src e0))
       :: IoWrite (reg_addr P (DW_DAR (Z.of_nat channel))) (u32 (dest e0))
       :: IoWrite (reg_addr P (DW_LLP (Z.of_nat channel)))
            (if has_next rest then desc_addr P (lli_base b) 1 else 0)
       :: tail) /\
    chan m2 !! channel = Some c2 /\
    status c2 = u8 (DMA_STATUS_RUNNING P) /\
    lli c2 <> None.
Proof.
  intros Hlen Hc Helems Hmax Halloc Hroom.
  assert (Hlt : (channel < length (chan m))%nat)
    by (eapply lookup_lt_Some; exact Hc).
  destruct c as [st l0 dc cl ch fn fd]. destruct b as [base cells].
  cbn [desc_count lli_base lli_cells] in *.
  destruct cells as [|d0 tl];
    [rewrite Helems in Hroom; cbn [length] in Hroom; lia|].
  cbn [length] in Hroom.
  destruct (set_config_chan_run P rmalloc config st l0 dc cl ch fn fd base d0 tl
              Hmax Halloc Hroom)
    as (d0' & ch' & cells' & Hrun & _ & _ & _ & Hin).
  assert (He0 : elem_list config !! 0%nat = Some e0) by (rewrite Helems; reflexivity).
  destruct (Hin 0%nat e0 He0) as (d & _ & Hres).
  rewrite Helems in Hres. change (drop 1 (e0 :: rest)) with rest in Hres.
  match type of Hrun with _ = (_, ?c1, _) => set (c1' := c1) in * end.
  set (m1 := mk_machine (<[channel := c1']> (chan m)) (regs m)).
  assert (Hc1 : chan m1 !! channel = Some c1').
  { unfold m1. cbn [chan]. apply list_lookup_insert_eq. exact Hlt. }
  assert (Hlen1 : length (chan m1) = DW_MAX_CHAN).
  { unfold m1. cbn [chan]. rewrite length_insert. exact Hlen. }
  destruct (dw_dma_start_run P channel m1 c1' (mk_block base cells') _
              Hlen1 Hc1 eq_refl Hres) as (rg & Hstart).
  destruct (chain_desc_addrs P base 0 e0 (has_next rest) d)
    as (Hsar & Hdar & Hllp & _).
  rewrite Hsar, Hdar, Hllp, !u32_idem in Hstart.
  assert (Hl : u32 (if has_next rest then desc_addr P base 1 else 0)
               = (if has_next rest then desc_addr P base 1 else 0)).
  { destruct (has_next rest); [apply u32_idem | reflexivity]. }
  rewrite Hl in Hstart.
  eexists m1, _, _, _. split.
  { unfold dw_dma_set_config. apply (on_chan_run _ _ _ _ _ _ _ Hc Hrun). }
  split; [exact Hstart|].
  split.
  { cbn [chan]. apply list_lookup_insert_eq. unfold m1. cbn [chan].
    rewrite length_insert. exact Hlt. }
  split; [reflexivity | discriminate].
Qed.

End SetConfigMore.

(** ** Stop, then poll *)

Lemma suspend_keeps_fifo_empty old :
  Z.land (with_bits DW_CFG_CH_SUSPEND old) DW_CFG_CH_FIFO_EMPTY
  = Z.land old DW_CFG_CH_FIFO_EMPTY.
Proof.
  apply Z.bits_inj'. intros n Hn. rewrite !Z.land_spec.
  change DW_CFG_CH_FIFO_EMPTY with (2 ^ 9).
  rewrite Z.pow2_bits_eqb by lia.
  destruct (Z.eqb_spec 9 n) as [<-|Hne]; [|rewrite !andb_false_r; reflexivity].
  unfold with_bits. rewrite update_bits_testbit by lia. reflexivity.
Qed.

Section StopThenPoll.

Variable P : dw_platform.

(** After [dw_dma_stop] on a channel, the next pass of the poller either
    finds the channel's FIFO empty and leaves the slot with state value 0,
    or finds it not empty, leaves the slot Draining and asks to be
    rescheduled. *)
Theorem stop_then_poll (schedule0 : Z) (channel : nat) (m : machine)
    (c : dma_chan_data) :
  length (chan m) = DW_MAX_CHAN ->
  chan m !! channel = Some c ->
  0 < DMA_STATUS_DRAINING P < 256 ->
  exists r m2 t,
    dw_dma_fifo_work P schedule0 (snd (fst (dw_dma_stop P channel m)))
    = (Ret r, m2, t) /\
    (fifo_empty P m channel = true ->
     chan m2 !! channel = Some (set_status 0 c)) /\
    (fifo_empty P m channel = false ->
     r = 1 /\
     chan m2 !! channel = Some (set_status (DMA_STATUS_DRAINING P) c)).
Proof.
  intros Hlen Hc Hdr.
  assert (Hlt : (channel < length (chan m))%nat)
    by (eapply lookup_lt_Some; exact Hc).
  assert (Hch8 : (channel < 8)%nat) by (rewrite Hlen in Hlt; exact Hlt).
  unfold dw_dma_stop. rewrite (suspend_run P _ channel m c Hc). cbn [fst snd].
  rewrite (u8_small (DMA_STATUS_DRAINING P)) by lia.
  set (c1 := set_status (DMA_STATUS_DRAINING P) c).
  set (m1 := mk_machine (<[channel := c1]> (chan m)) _).
  assert (Hlen1 : length (chan m1) = DW_MAX_CHAN).
  { unfold m1. cbn [chan]. rewrite length_insert. exact Hlen. }
  assert (Hc1 : chan m1 !! channel = Some c1).
  { unfold m1. cbn [chan]. apply list_lookup_insert_eq. exact Hlt. }
  assert (Hd1 : is_draining P c1 = true).
  { unfold is_draining, c1. cbn [status set_status]. rewrite Z.land_diag.
    apply negb_true_iff, Z.eqb_neq. lia. }
  assert (Hfe : fifo_empty P m1 channel = fifo_empty P m channel).
  { unfold fifo_empty, m1. cbn [regs].
    rewrite lookup_total_insert_eq, suspend_keeps_fifo_empty. reflexivity. }
  destruct (fifo_work_scan_spec P DW_MAX_CHAN 0 schedule0 m1)
    as (s' & m2 & t & Hrun & _ & Hch & _ & _ & Hpend & _);
    [reflexivity | exact Hlen1 |].
  unfold dw_dma_fifo_work. rewrite (bind_ret _ _ _ _ _ _ Hrun).
  exists (if negb (s' =? 0) then 1 else 0), m2, t. split.
  { destruct (negb (s' =? 0)); cbn; rewrite app_nil_r; reflexivity. }
  specialize (Hch channel c1 Hc1).
  destruct (decide (0 <= channel)%nat); [|lia].
  unfold poll_chan in Hch. rewrite Hd1, Hfe in Hch. split.
  - intros Hempty. rewrite Hempty in Hch. rewrite Hch. f_equal.
    unfold drained, c1. cbn [status set_status].
    rewrite Z.land_lnot_diag. destruct c. reflexivity.
  - intros Hfull. rewrite Hfull in Hch. split; [|exact Hch].
    rewrite Hpend; [reflexivity|].
    exists channel, c1. split; [lia|]. split; [exact Hc1|].
    split; [exact Hd1|]. rewrite Hfe. exact Hfull.
Qed.

End StopThenPoll.

(** ** The further statements on concrete inputs *)

Ltac by_check :=
  first [ by_eval
        | (unfold DW_MAX_CHAN; lia)
        | (vm_compute; lia)
        | (vm_compute; discriminate) ].

Lemma start_programs_channel_witness :
  exists rg,
    dw_dma_start example_platform 1 busy_pool
    = (Ret 0,
       mk_machine
         (<[1%nat := set_status (u8 (DMA_STATUS_RUNNING example_platform))
                       running_chan]> (chan busy_pool)) rg,
       [ IoWrite (reg_addr example_platform (DW_SAR (Z.of_nat 1)))
           (u32 (sar (mk_lli 0x100 0x900 0 0x100 0)));
         IoWrite (reg_addr example_platform (DW_DAR (Z.of_nat 1)))
           (u32 (dar (mk_lli 0x100 0x900 0 0x100 0)));
         IoWrite (reg_addr example_platform (DW_LLP (Z.of_nat 1)))
           (u32 (llp (mk_lli 0x100 0x900 0 0x100 0)));
         IoWrite (reg_addr example_platform (DW_CTRL_LOW (Z.of_nat 1)))
           (u32 (ctrl_lo (mk_lli 0x100 0x900 0 0x100 0)));
         IoWrite (reg_addr example_platform (DW_CTRL_HIGH (Z.of_nat 1)))
           (u32 (ctrl_hi (mk_lli 0x100 0x900 0 0x100 0)));
         IoWrite (reg_addr example_platform (DW_CFG_LOW (Z.of_nat 1)))
           (u32 (cfg_lo running_chan));
         IoWrite (reg_addr example_platform (DW_CFG_HIGH (Z.of_nat 1)))
           (u32 (cfg_hi running_chan));
         IoWrite (reg_addr example_platform DW_MASK_TFR) (INT_UNMASK (Z.of_nat 1));
         IoWrite (reg_addr example_platform DW_MASK_BLOCK) (INT_UNMASK (Z.of_nat 1));
         IoWrite (reg_addr example_platform DW_MASK_SRC_TRAN) (INT_UNMASK (Z.of_nat 1));
         IoWrite (reg_addr example_platform DW_MASK_DST_TRAN) (INT_UNMASK (Z.of_nat 1));
         IoWrite (reg_addr example_platform DW_MASK_ERR) (INT_UNMASK (Z.of_nat 1));
         IoWrite (reg_addr example_platform DW_DMA_CHAN_EN) (CHAN_ENABLE (Z.of_nat 1)) ]).
Proof.
  apply (start_programs_channel example_platform 1 busy_pool running_chan
           (mk_block 0x3000 [mk_lli 0x100 0x900 0 0x100 0])
           (mk_lli 0x100 0x900 0 0x100 0));
    reflexivity.
Defined.

Lemma fifo_work_pending_reschedules_witness :
  fst (fst (dw_dma_fifo_work example_platform 0 busy_pool)) = Ret 1.
Proof.
  apply (fifo_work_pending_reschedules example_platform 0 busy_pool);
    [reflexivity|].
  exists 0%nat, draining_chan. repeat split; reflexivity.
Defined.

Lemma fifo_work_pass_witness :
  exists r m' t,
    dw_dma_fifo_work example_platform 0 drained_pool = (Ret r, m', t) /\
    (r = 0 \/ r = 1) /\
    (forall j c, chan drained_pool !! j = Some c ->
                 chan m' !! j = Some (poll_chan example_platform drained_pool j c)) /\
    (forall a, a <> reg_addr example_platform DW_DMA_CHAN_EN ->
               regs m' !!! a = regs drained_pool !!! a) /\
    Forall (poller_event example_platform) t.
Proof.
  apply (fifo_work_pass example_platform 0 drained_pool). reflexivity.
Defined.

Lemma fifo_work_completes_to_zero_witness :
  exists r m' t,
    dw_dma_fifo_work example_platform 0 drained_pool = (Ret r, m', t) /\
    chan m' !! 0%nat = Some (set_status 0 draining_chan).
Proof.
  apply (fifo_work_completes_to_zero example_platform 0 drained_pool 0
           draining_chan); by_check.
Defined.

Lemma irq_handler_calls_every_active_witness :
  exists m',
    dw_dma_irq_handler example_platform rearm_client busy_pool
    = (Ret tt, m',
       [ TracePoint 0x9999;
         IrqDisable (dma_irq example_platform);
         IoRead (reg_addr example_platform DW_STATUS_BLOCK)
           (regs busy_pool !!! reg_addr example_platform DW_STATUS_BLOCK) ]
       ++ flat_map (dispatch_events example_platform)
            (dispatched example_platform 0 (chan busy_pool))
       ++ [ IrqClear (dma_irq example_platform);
            IrqEnable (dma_irq example_platform) ]) /\
    chan m' = chan busy_pool /\
    (forall i fn data,
       In (mk_fired i fn data) (dispatched example_platform 0 (chan busy_pool)) <->
       exists c,
         chan busy_pool !! i = Some c /\
         status c <> DMA_STATUS_FREE example_platform /\
         cb c <> 0 /\ fn = cb c /\ data = cb_data c).
Proof.
  apply (irq_handler_calls_every_active example_platform rearm_client);
    [intros fn data m; reflexivity | reflexivity | by_check].
Defined.

Lemma released_channel_not_called_witness :
  length (chan busy_pool) = DW_MAX_CHAN /\
  ~ In (ClientCb 1 0x4000 7)
       (snd (dw_dma_irq_handler example_platform rearm_client
               (snd (fst (dw_dma_channel_put example_platform 1 busy_pool))))).
Proof.
  split; [reflexivity|].
  apply (released_channel_not_called example_platform rearm_client 1%nat);
    [intros fn data m; reflexivity | intros fn data m; reflexivity
    | reflexivity | by_check | by_check].
Defined.

Lemma registered_callback_is_called_witness :
  In (ClientCb 3 0x6000 5)
     (snd (dw_dma_irq_handler example_platform rearm_client
             (snd (fst (dw_dma_set_cb 3 0x6000 5 busy_pool))))).
Proof.
  apply (registered_callback_is_called example_platform rearm_client 3%nat
           (fun _ _ _ => eq_refl) (fun _ _ _ => eq_refl) busy_pool idle_chan);
    by_check.
Defined.

Lemma acquire_twice_distinct_witness :
  dw_dma_channel_get example_platform busy_pool
  = (Ret (Z.of_nat 2),
     snd (fst (dw_dma_channel_get example_platform busy_pool)),
     snd (dw_dma_channel_get example_platform busy_pool)) /\
  fst (fst (dw_dma_channel_get example_platform
              (snd (fst (dw_dma_channel_get example_platform busy_pool)))))
  <> Ret (Z.of_nat 2).
Proof.
  split; [vm_compute; reflexivity|].
  apply (acquire_twice_distinct example_platform ltac:(by_check) busy_pool
           (snd (fst (dw_dma_channel_get example_platform busy_pool)))
           2
           (snd (dw_dma_channel_get example_platform busy_pool)));
    first [ by_check | (vm_compute; reflexivity) ].
Defined.

Lemma release_then_acquire_witness :
  exists k m' t,
    dw_dma_channel_get example_platform
      (snd (fst (dw_dma_channel_put example_platform 1 busy_pool)))
    = (Ret (Z.of_nat k), m', t) /\
    (k <= 1)%nat.
Proof.
  apply (release_then_acquire example_platform ltac:(by_check) busy_pool 1);
    by_check.
Defined.

Lemma acquire_all_then_fail_witness :
  fst (fst (acquire_many example_platform 9 probed))
  = Ret [0; 1; 2; 3; 4; 5; 6; 7; - ENODEV].
Proof.
  apply (acquire_all_then_fail example_platform ltac:(by_check) probed);
    try by_check.
  intros j c Hj.
  do 8 (destruct j as [|j]; [injection Hj as <-; reflexivity|]).
  discriminate Hj.
Defined.

Lemma set_config_keeps_state_witness :
  exists r c' t,
    dw_dma_set_config example_platform (alloc_zeroed 2) 1 mem_to_dev_2 busy_pool
    = (r, mk_machine (<[1%nat := c']> (chan busy_pool)) (regs busy_pool), t) /\
    status c' = status running_chan /\
    cb c' = cb running_chan /\
    cb_data c' = cb_data running_chan.
Proof.
  apply (set_config_keeps_state example_platform (alloc_zeroed 2) 1
           mem_to_dev_2 busy_pool running_chan).
  reflexivity.
Defined.

Lemma set_config_empty_builds_no_chain_witness :
  exists d1 ch',
    dw_dma_set_config example_platform (alloc_zeroed 1) 1 empty_request
      calm_pool
    = (Ret 0,
       mk_machine
         (<[1%nat := mk_chan (status running_chan)
                       (Some (mk_block 0x2000 [d1]))
                       (desc_count running_chan) (cfg_lo running_chan) ch'
                       (cb running_chan) (cb_data running_chan)]>
            (chan calm_pool))
         (regs calm_pool),
       [Rmalloc (u32 (lli_size example_platform * desc_count running_chan))]) /\
    sar d1 = sar zero_lli /\ dar d1 = dar zero_lli /\ llp d1 = llp zero_lli /\
    ctrl_hi d1
    = clear_bits (DWC_CTLH_DONE example_platform) (ctrl_hi zero_lli).
Proof.
  apply (set_config_empty_builds_no_chain example_platform (alloc_zeroed 1)
           1 empty_request calm_pool running_chan 0x2000 zero_lli []);
    [reflexivity | reflexivity | cbn; lia | reflexivity].
Defined.

Lemma set_config_direction_table_witness :
  exists c' cells' d,
    dw_dma_set_config example_platform (alloc_zeroed 2) 0 mem_to_dev_2 probed
    = (Ret 0, mk_machine (<[0%nat := c']> (chan probed)) (regs probed),
       [Rmalloc (u32 (lli_size example_platform
                      * (desc_count zero_chan
                         + Z.of_nat (length (elem_list mem_to_dev_2)))))])
    /\
    lli c' = Some (mk_block (lli_base (mk_block 0x2000 (replicate 2 zero_lli))) cells') /\
    cells' !! 0%nat = Some d /\
    (direction mem_to_dev_2 = DMA_DIR_MEM_TO_MEM example_platform ->
     flags_set (Z.lor (DWC_CTLL_SRC_INC example_platform)
                      (DWC_CTLL_DST_INC example_platform)) (ctrl_lo d) /\
     cfg_hi c' = cfg_hi zero_chan) /\
    (direction mem_to_dev_2 = DMA_DIR_MEM_TO_DEV example_platform ->
     flags_set (Z.lor (DWC_CTLL_SRC_INC example_platform)
                      (DWC_CTLL_DST_FIX example_platform)) (ctrl_lo d) /\
     cfg_hi c' = or_bits (DWC_CFGH_DST_PER example_platform 0) (cfg_hi zero_chan)) /\
    (direction mem_to_dev_2 = DMA_DIR_DEV_TO_MEM example_platform ->
     flags_set (Z.lor (DWC_CTLL_SRC_FIX example_platform)
                      (DWC_CTLL_DST_INC example_platform)) (ctrl_lo d) /\
     cfg_hi c' = or_bits (DWC_CFGH_SRC_PER example_platform 0) (cfg_hi zero_chan)) /\
    (direction mem_to_dev_2 = DMA_DIR_DEV_TO_DEV example_platform ->
     flags_set (Z.lor (DWC_CTLL_SRC_FIX example_platform)
                      (DWC_CTLL_DST_FIX example_platform)) (ctrl_lo d) /\
     cfg_hi c' = or_bits (Z.lor (DWC_CFGH_SRC_PER example_platform 0)
                                (DWC_CFGH_DST_PER example_platform 0))
                   (cfg_hi zero_chan)).
Proof.
  apply (set_config_direction_table example_platform (alloc_zeroed 2) 0
           mem_to_dev_2 probed zero_chan
           (mk_block 0x2000 (replicate 2 zero_lli)));
    [ reflexivity | discriminate | by_check | reflexivity | by_check | | ].
  - cbn.
    repeat (apply NoDup_cons_2;
            [rewrite ?not_elem_of_cons; repeat split;
             first [discriminate | apply not_elem_of_nil] |]).
    apply NoDup_nil_2.
  - repeat (constructor; [by_check|]). constructor.
Defined.

Lemma set_config_clears_done_and_reload_witness :
  exists c' cells' d,
    dw_dma_set_config example_platform (alloc_zeroed 3) 0 mem_to_mem_3 probed
    = (Ret 0, mk_machine (<[0%nat := c']> (chan probed)) (regs probed),
       [Rmalloc (u32 (lli_size example_platform
                      * (desc_count zero_chan
                         + Z.of_nat (length (elem_list mem_to_mem_3)))))])
    /\
    lli c' = Some (mk_block (lli_base (mk_block 0x2000 (replicate 3 zero_lli))) cells') /\
    cells' !! 0%nat = Some d /\
    flags_clear (DWC_CTLH_DONE example_platform) (ctrl_hi d) /\
    flags_clear (DWC_CFGL_RELOAD_SAR example_platform) (cfg_lo c') /\
    flags_clear (DWC_CFGL_RELOAD_DAR example_platform) (cfg_lo c').
Proof.
  apply (set_config_clears_done_and_reload example_platform (alloc_zeroed 3) 0
           mem_to_mem_3 probed zero_chan
           (mk_block 0x2000 (replicate 3 zero_lli)));
    by_check.
Defined.

Lemma set_config_then_start_witness :
  exists m1 m2 c2 tail,
    dw_dma_set_config example_platform (alloc_zeroed 3) 0 mem_to_mem_3 probed
    = (Ret 0, m1,
       [Rmalloc (u32 (lli_size example_platform
                      * (desc_count zero_chan
                         + Z.of_nat (length (elem_list mem_to_mem_3)))))])
    /\
    dw_dma_start example_platform 0 m1
    = (Ret 0, m2,
       IoWrite (reg_addr example_platform (DW_SAR (Z.of_nat 0)))
         (u32 (src (mk_elem 0x100 0x900)))
       :: IoWrite (reg_addr example_platform (DW_DAR (Z.of_nat 0)))
            (u32 (dest (mk_elem 0x100 0x900)))
       :: IoWrite (reg_addr example_platform (DW_LLP (Z.of_nat 0)))
            (if has_next [mk_elem 0x200 0xA00; mk_elem 0x300 0xB00]
             then desc_addr example_platform
                    (lli_base (mk_block 0x2000 (replicate 3 zero_lli))) 1
             else 0)
       :: tail) /\
    chan m2 !! 0%nat = Some c2 /\
    status c2 = u8 (DMA_STATUS_RUNNING example_platform) /\
    lli c2 <> None.
Proof.
  apply (set_config_then_start example_platform (alloc_zeroed 3) 0
           mem_to_mem_3 probed zero_chan
           (mk_block 0x2000 (replicate 3 zero_lli))
           (mk_elem 0x100 0x900) [mk_elem 0x200 0xA00; mk_elem 0x300 0xB00]);
    by_check.
Defined.

Lemma stop_then_poll_witness :
  exists r m2 t,
    dw_dma_fifo_work example_platform 0
      (snd (fst (dw_dma_stop example_platform 1 busy_pool)))
    = (Ret r, m2, t) /\
    (fifo_empty example_platform busy_pool 1 = true ->
     chan m2 !! 1%nat = Some (set_status 0 running_chan)) /\
    (fifo_empty example_platform busy_pool 1 = false ->
     r = 1 /\
     chan m2 !! 1%nat
     = Some (set_status (DMA_STATUS_DRAINING example_platform) running_chan)).
Proof.
  apply (stop_then_poll example_platform 0 1 busy_pool running_chan); by_check.
Defined.
